(** * Restaurant table placement: availability, booking and cancellation

    A shallow embedding of the scheduling core of the reservation platform:

    - [src/lib/availability.ts]: [calculateAvailability],
      [findAvailableTableForSlot], [isTableAvailable], [findAvailableTable];
    - the reservation collection route ([POST /api/reservations]);
    - the reservation item route ([PATCH /api/reservations/[id]]).

    Instants are JavaScript [Date] values: integer milliseconds since the
    epoch.  The process's local time zone is a fixed offset [tz], in minutes
    east of UTC (daylight saving changes are outside the model).  The database
    is a record of row lists; every Prisma call is one function of the store.
    Database failures other than the key violations the handlers name
    (P2002, P2003) are outside the model. *)

From Stdlib Require Import ZArith List String Ascii Bool Lia.
From Stdlib Require QArith_base.
From Stdlib Require Import DecimalString Permutation Sorted.
Import ListNotations.

Open Scope string_scope.
Open Scope Z_scope.

(** ** The JavaScript built-ins the code relies on *)

Module JS.

(** A JavaScript number that is an integer, or [NaN] ([None]). *)
Definition num := option Z.

(** [s.split(sep)] for a one-character separator. *)
Fixpoint split (sep : ascii) (s : string) : list string :=
  match s with
  | EmptyString => [EmptyString]
  | String c rest =>
      if Ascii.eqb c sep then EmptyString :: split sep rest
      else match split sep rest with
           | [] => [String c EmptyString]
           | piece :: pieces => String c piece :: pieces
           end
  end.

Definition digitOf (c : ascii) : option Z :=
  let n := Z.of_nat (nat_of_ascii c) in
  if (48 <=? n) && (n <=? 57) then Some (n - 48) else None.

Fixpoint digitsValue (s : string) (acc : Z) : option Z :=
  match s with
  | EmptyString => Some acc
  | String c rest =>
      match digitOf c with
      | Some d => digitsValue rest (10 * acc + d)
      | None => None
      end
  end.

(** The ASCII characters of [StrWhiteSpaceChar]: tab, line feed, vertical
    tab, form feed, carriage return and space. *)
Definition isWhiteSpace (c : ascii) : bool :=
  let n := Z.of_nat (nat_of_ascii c) in
  ((9 <=? n) && (n <=? 13)) || (n =? 32).

Fixpoint trimStart (s : string) : string :=
  match s with
  | EmptyString => EmptyString
  | String c rest => if isWhiteSpace c then trimStart rest else s
  end.

Fixpoint trimEnd (s : string) : string :=
  match s with
  | EmptyString => EmptyString
  | String c rest =>
      match trimEnd rest with
      | EmptyString => if isWhiteSpace c then EmptyString else String c EmptyString
      | kept => String c kept
      end
  end.

Definition trim (s : string) : string := trimEnd (trimStart s).

(** The value of a digit in a radix of at most 16, in either case. *)
Definition digitOfRadix (radix : Z) (c : ascii) : option Z :=
  let n := Z.of_nat (nat_of_ascii c) in
  let value :=
    if (48 <=? n) && (n <=? 57) then Some (n - 48)
    else if (97 <=? n) && (n <=? 102) then Some (n - 87)
    else if (65 <=? n) && (n <=? 70) then Some (n - 55)
    else None in
  match value with
  | Some d => if d <? radix then Some d else None
  | None => None
  end.

Fixpoint radixValue (radix : Z) (s : string) (acc : Z) : option Z :=
  match s with
  | EmptyString => Some acc
  | String c rest =>
      match digitOfRadix radix c with
      | Some d => radixValue radix rest (radix * acc + d)
      | None => None
      end
  end.

(** [Number(s)] on the integer literals.  White space around the literal is
    dropped; the empty string is [0]; an optionally signed run of decimal
    digits, or an unsigned run of digits after [0x], [0o] or [0b], is its
    value; every other string is classed as [NaN].  Literals with a
    fraction or an exponent, [Infinity], and integers a double does not
    hold exactly (beyond 2^53) are outside the modelled fragment. *)
Definition Number_of (s : string) : num :=
  match trim s with
  | EmptyString => Some 0
  | String "-" (String _ _ as rest) => option_map Z.opp (digitsValue rest 0)
  | String "+" (String _ _ as rest) => digitsValue rest 0
  | String "0" (String "x" (String _ _ as rest))
  | String "0" (String "X" (String _ _ as rest)) => radixValue 16 rest 0
  | String "0" (String "o" (String _ _ as rest))
  | String "0" (String "O" (String _ _ as rest)) => radixValue 8 rest 0
  | String "0" (String "b" (String _ _ as rest))
  | String "0" (String "B" (String _ _ as rest)) => radixValue 2 rest 0
  | literal => digitsValue literal 0
  end.

Definition msPerMinute : Z := 60000.
Definition msPerDay : Z := 86400000.

(** Days from 1970-01-01 to the civil date [y]-[m]-[d] ([m] in 1..12),
    proleptic Gregorian calendar. *)
Definition daysFromCivil (y m d : Z) : Z :=
  let y' := if m <=? 2 then y - 1 else y in
  let era := y' / 400 in
  let yoe := y' - era * 400 in
  let mp := if m >? 2 then m - 3 else m + 9 in
  let doy := (153 * mp + 2) / 5 + d - 1 in
  let doe := yoe * 365 + yoe / 4 - yoe / 100 + doy in
  era * 146097 + doe - 719468.

(** ECMAScript [MakeDay]: [month] is a zero-based index and may overflow,
    [date] may overflow the month. *)
Definition MakeDay (year month date : Z) : Z :=
  daysFromCivil (year + month / 12) (month mod 12 + 1) 1 + (date - 1).

(** [new Date(year, monthIndex, day, hours, minutes)]: local time; a
    [NaN] component gives the Invalid Date ([None]). *)
Definition newDateLocal (tz : Z) (year monthIndex day hours minutes : num)
  : option Z :=
  match year, monthIndex, day, hours, minutes with
  | Some y, Some mo, Some d, Some h, Some mi =>
      let yr := if (0 <=? y) && (y <=? 99) then 1900 + y else y in
      Some ((MakeDay yr mo d * 1440 + h * 60 + mi - tz) * msPerMinute)
  | _, _, _, _, _ => None
  end.

Definition fixedDigits (n : nat) (s : string) : option Z :=
  if Nat.eqb (String.length s) n then digitsValue s 0 else None.

Definition inRange (lo hi : Z) (v : option Z) : option Z :=
  match v with
  | Some x => if (lo <=? x) && (x <=? hi) then Some x else None
  | None => None
  end.

(** The calendar day of an ISO date string [YYYY-MM-DD], as a day number.
    As in V8, a day up to 31 is accepted in every month and overflows. *)
Definition isoDay (s : string) : option Z :=
  match split "-" s with
  | [ys; ms; ds] =>
      match fixedDigits 4 ys, inRange 1 12 (fixedDigits 2 ms),
            inRange 1 31 (fixedDigits 2 ds) with
      | Some y, Some m, Some d => Some (MakeDay y (m - 1) d)
      | _, _, _ => None
      end
  | _ => None
  end.

(** Milliseconds into the day of [HH:mm] or [HH:mm:ss]. *)
Definition isoTimeOfDay (s : string) : option Z :=
  match split ":" s with
  | [hs; ms] =>
      match inRange 0 23 (fixedDigits 2 hs), inRange 0 59 (fixedDigits 2 ms) with
      | Some h, Some m => Some ((h * 60 + m) * msPerMinute)
      | _, _ => None
      end
  | [hs; ms; ss] =>
      match inRange 0 23 (fixedDigits 2 hs), inRange 0 59 (fixedDigits 2 ms),
            inRange 0 59 (fixedDigits 2 ss) with
      | Some h, Some m, Some sec => Some ((h * 60 + m) * msPerMinute + sec * 1000)
      | _, _, _ => None
      end
  | _ => None
  end.

(** Minutes of a UTC offset [HH:mm]. *)
Definition isoOffset (s : string) : option Z :=
  match split ":" s with
  | [hs; ms] =>
      match inRange 0 23 (fixedDigits 2 hs), inRange 0 59 (fixedDigits 2 ms) with
      | Some h, Some m => Some (h * 60 + m)
      | _, _ => None
      end
  | _ => None
  end.

(** Milliseconds of a fraction of a second: its first three digits. *)
Definition isoFraction (s : string) : option Z :=
  match s, digitsValue s 0 with
  | String _ _, Some _ => digitsValue (substring 0 3 (s ++ "00")) 0
  | _, _ => None
  end.

(** Milliseconds into the day of [HH:mm], [HH:mm:ss] or [HH:mm:ss.sss]. *)
Definition isoTime (s : string) : option Z :=
  match split "." s with
  | [hms] => isoTimeOfDay hms
  | [hms; fraction] =>
      match split ":" hms, isoTimeOfDay hms, isoFraction fraction with
      | [_; _; _], Some ms, Some f => Some (ms + f)
      | _, _, _ => None
      end
  | _ => None
  end.

(** A string without its last character, and that character. *)
Fixpoint unsnoc (s : string) : option (string * ascii) :=
  match s with
  | EmptyString => None
  | String c rest =>
      match unsnoc rest with
      | Some (front, last) => Some (String c front, last)
      | None => Some (EmptyString, c)
      end
  end.

(** The time part of an ISO date-time: milliseconds into the day, and the
    UTC offset in minutes when the string ends in [Z], [+HH:mm] or
    [-HH:mm]. *)
Definition isoClock (t : string) : option (Z * option Z) :=
  match unsnoc t with
  | Some (front, "Z"%char) => option_map (fun ms => (ms, Some 0)) (isoTime front)
  | _ =>
      match split "+" t with
      | [time] =>
          match split "-" t with
          | [_] => option_map (fun ms => (ms, None)) (isoTime time)
          | [time'; offset] =>
              match isoTime time', isoOffset offset with
              | Some ms, Some minutes => Some (ms, Some (- minutes))
              | _, _ => None
              end
          | _ => None
          end
      | [time; offset] =>
          match isoTime time, isoOffset offset with
          | Some ms, Some minutes => Some (ms, Some minutes)
          | _, _ => None
          end
      | _ => None
      end
  end.

(** [new Date(s)] on the ISO format [YYYY-MM-DD] and
    [YYYY-MM-DDTHH:mm[:ss[.sss]]] with an optional [Z] or [+HH:mm] /
    [-HH:mm]: a date-only string is UTC midnight, a date-time string
    without offset is local time.  Every other string is classed as the
    Invalid Date ([None]): the shorter dates [YYYY] and [YYYY-MM], signed
    six-digit years, the hour 24, and the formats outside the ISO format
    that an engine accepts on its own account are outside the modelled
    fragment. *)
Definition newDate (tz : Z) (s : string) : option Z :=
  match split "T" s with
  | [d] => option_map (fun day => day * msPerDay) (isoDay d)
  | [d; t] =>
      match isoDay d, isoClock t with
      | Some day, Some (ms, offset) =>
          let east := match offset with Some minutes => minutes | None => tz end in
          Some (day * msPerDay + ms - east * msPerMinute)
      | _, _ => None
      end
  | _ => None
  end.

(** [d.getDay()]: local day of the week, 0 = Sunday; [NaN] on the
    Invalid Date. *)
Definition getDay (tz : Z) (d : option Z) : num :=
  option_map (fun t => ((t + tz * msPerMinute) / msPerDay + 4) mod 7) d.

(** date-fns [addMinutes], [isBefore], [isAfter] on valid dates. *)
Definition addMinutes (d amount : Z) : Z := d + amount * msPerMinute.
Definition isBefore (d dateToCompare : Z) : bool := d <? dateToCompare.
Definition isAfter (d dateToCompare : Z) : bool := d >? dateToCompare.

Definition digitChar (d : Z) : ascii := ascii_of_nat (Z.to_nat (48 + d)).

Definition pad2 (n : Z) : string :=
  String (digitChar (n / 10)) (String (digitChar (n mod 10)) EmptyString).

(** date-fns [format(d, 'HH:mm')]: local wall-clock time. *)
Definition formatHHmm (tz : Z) (d : Z) : string :=
  let m := ((d + tz * msPerMinute) / msPerMinute) mod 1440 in
  pad2 (m / 60) ++ ":" ++ pad2 (m mod 60).

(** Truthiness of a string. *)
Definition truthy (s : string) : bool := negb (String.eqb s "").

(** Strings that [Number] reads as a whole number of at most 15 digits:
    decimal digits, possibly none, with ASCII white space around them. *)
Definition plainDigits (s : string) : bool :=
  match digitsValue (trim s) 0 with
  | Some _ => Nat.leb (String.length (trim s)) 15
  | None => false
  end.

End JS.

(** ** The data model (prisma/schema.prisma) *)

Inductive ReservationStatus : Type :=
  | PENDING | CONFIRMED | CANCELLED | COMPLETED | NO_SHOW.

Module Restaurant.
Record t : Type := { id : string; phone : string }.
End Restaurant.

Module Table.
Record t : Type := {
  id : string;
  restaurantId : string;
  capacityMin : Z;
  capacityMax : Z;
  isJoinable : bool
}.
End Table.

Module OperatingHours.
Record t : Type := {
  restaurantId : string;
  dayOfWeek : Z;
  openTime : string;
  closeTime : string
}.
End OperatingHours.

Module TurnTimeRule.
Record t : Type := {
  restaurantId : string;
  partySizeMin : Z;
  partySizeMax : Z;
  turnTimeInMinutes : Z
}.
End TurnTimeRule.

Module Reservation.
(** [updatedAt] is the instant of the last write of the row.  [createdAt],
    which no handler reads or writes, is left out. *)
Record t : Type := {
  id : string;
  userId : string;
  restaurantId : string;
  tableId : option string;
  reservationTime : Z;
  partySize : Z;
  status : ReservationStatus;
  notes : option string;
  turnTimeUsed : Z;
  updatedAt : Z
}.
End Reservation.

Module CancellationPolicy.
(** The two fee amounts are payload only: no handler computes with them. *)
Record t : Type := {
  restaurantId : string;
  hoursBeforeNoFee : option Z;
  feePercentage : option QArith_base.Q;
  fixedFeeAmount : option QArith_base.Q;
  notes : option string;
  allowOnlineCancellation : bool
}.
End CancellationPolicy.

(** The stored rows.  [users] holds the ids of the User rows. *)
Record Store : Type := {
  restaurants : list Restaurant.t;
  tables : list Table.t;
  operatingHours : list OperatingHours.t;
  turnTimeRules : list TurnTimeRule.t;
  reservations : list Reservation.t;
  cancellationPolicies : list CancellationPolicy.t;
  users : list string
}.

(** [src/lib/types.ts] *)
Record AvailabilitySlot : Type := {
  time : string;
  available : bool;
  tableId : option string
}.

(** What a call yields: a value, or a thrown exception. *)
Inductive Outcome (A : Type) : Type :=
  | Returns (a : A)
  | Throws.
Arguments Returns {A} a.
Arguments Throws {A}.

(** ** Comparisons on JavaScript numbers: every comparison with NaN is false *)

Definition numLt (a b : JS.num) : bool :=
  match a, b with Some x, Some y => x <? y | _, _ => false end.
Definition numGt (a b : JS.num) : bool := numLt b a.
Definition numStrictEq (a b : JS.num) : bool :=
  match a, b with Some x, Some y => x =? y | _, _ => false end.
Definition numMinus (a : JS.num) (k : Z) : JS.num := option_map (fun x => x - k) a.

Definition statusEqb (a b : ReservationStatus) : bool :=
  match a, b with
  | PENDING, PENDING | CONFIRMED, CONFIRMED | CANCELLED, CANCELLED
  | COMPLETED, COMPLETED | NO_SHOW, NO_SHOW => true
  | _, _ => false
  end.

(** [status: { in: ['PENDING', 'CONFIRMED'] }] *)
Definition statusInPendingConfirmed (s : ReservationStatus) : bool :=
  statusEqb s PENDING || statusEqb s CONFIRMED.

(** [reservation.tableId !== table.id] on a nullable string. *)
Definition tableIdDiffers (tableId : option string) (id : string) : bool :=
  match tableId with
  | Some t => negb (String.eqb t id)
  | None => true
  end.

(** ** src/lib/availability.ts *)

Definition isTableAvailable (table : Table.t) (reservations : list Reservation.t)
    (slotStartTime slotEndTime : Z) : bool :=
  let conflictingReservations :=
    filter (fun reservation =>
      if tableIdDiffers (Reservation.tableId reservation) (Table.id table) then false
      else
        let reservationStart := Reservation.reservationTime reservation in
        let reservationEnd :=
          JS.addMinutes reservationStart (Reservation.turnTimeUsed reservation) in
        JS.isBefore slotStartTime reservationEnd && JS.isAfter slotEndTime reservationStart)
      reservations in
  Nat.eqb (List.length conflictingReservations) 0.

(** First loop of [findAvailableTableForSlot]: tables whose range holds the
    party. *)
Fixpoint idealTableLoop (tables : list Table.t) (reservations : list Reservation.t)
    (slotStartTime slotEndTime partySize : Z) : option string :=
  match tables with
  | [] => None
  | table :: rest =>
      if (Table.capacityMin table <=? partySize) && (Table.capacityMax table >=? partySize)
      then
        if isTableAvailable table reservations slotStartTime slotEndTime
        then Some (Table.id table)
        else idealTableLoop rest reservations slotStartTime slotEndTime partySize
      else idealTableLoop rest reservations slotStartTime slotEndTime partySize
  end.

(** Second loop: any table large enough. *)
Fixpoint largerTableLoop (tables : list Table.t) (reservations : list Reservation.t)
    (slotStartTime slotEndTime partySize : Z) : option string :=
  match tables with
  | [] => None
  | table :: rest =>
      if partySize <=? Table.capacityMax table
      then
        if isTableAvailable table reservations slotStartTime slotEndTime
        then Some (Table.id table)
        else largerTableLoop rest reservations slotStartTime slotEndTime partySize
      else largerTableLoop rest reservations slotStartTime slotEndTime partySize
  end.

(** Inner loop over [j > i]: [later] is [joinableTables] from index [i + 1]. *)
Fixpoint joinInnerLoop (table1 : Table.t) (later : list Table.t)
    (reservations : list Reservation.t) (slotStartTime slotEndTime partySize : Z)
    : option string :=
  match later with
  | [] => None
  | table2 :: rest =>
      let minCombinedCapacity := Table.capacityMin table1 + Table.capacityMin table2 in
      let maxCombinedCapacity := Table.capacityMax table1 + Table.capacityMax table2 in
      if (minCombinedCapacity <=? partySize) && (partySize <=? maxCombinedCapacity)
      then
        let table1Available :=
          isTableAvailable table1 reservations slotStartTime slotEndTime in
        let table2Available :=
          isTableAvailable table2 reservations slotStartTime slotEndTime in
        if table1Available && table2Available
        then Some (Table.id table1)
        else joinInnerLoop table1 rest reservations slotStartTime slotEndTime partySize
      else joinInnerLoop table1 rest reservations slotStartTime slotEndTime partySize
  end.

(** Outer loop over [i]. *)
Fixpoint joinOuterLoop (joinableTables : list Table.t)
    (reservations : list Reservation.t) (slotStartTime slotEndTime partySize : Z)
    : option string :=
  match joinableTables with
  | [] => None
  | table1 :: later =>
      match joinInnerLoop table1 later reservations slotStartTime slotEndTime partySize with
      | Some found => Some found
      | None => joinOuterLoop later reservations slotStartTime slotEndTime partySize
      end
  end.

Definition findAvailableTableForSlot (tables : list Table.t)
    (reservations : list Reservation.t) (slotStartTime slotEndTime partySize : Z)
    : option string :=
  match idealTableLoop tables reservations slotStartTime slotEndTime partySize with
  | Some found => Some found
  | None =>
    match largerTableLoop tables reservations slotStartTime slotEndTime partySize with
    | Some found => Some found
    | None =>
        let joinableTables := filter Table.isJoinable tables in
        joinOuterLoop joinableTables reservations slotStartTime slotEndTime partySize
    end
  end.

(** [prisma.restaurant.findUnique({ where: { id } })] and the relations its
    [include] loads. *)
Definition restaurantById (db : Store) (restaurantId : string) : option Restaurant.t :=
  find (fun r => String.eqb (Restaurant.id r) restaurantId) (restaurants db).

Definition tablesOf (db : Store) (restaurantId : string) : list Table.t :=
  filter (fun t => String.eqb (Table.restaurantId t) restaurantId) (tables db).

Definition operatingHoursOf (db : Store) (restaurantId : string)
    : list OperatingHours.t :=
  filter (fun oh => String.eqb (OperatingHours.restaurantId oh) restaurantId)
    (operatingHours db).

(** [turnTimeRules: { where: { partySizeMin: { lte }, partySizeMax: { gte } } }] *)
Definition turnTimeRulesFor (db : Store) (restaurantId : string) (partySize : Z)
    : list TurnTimeRule.t :=
  filter (fun rule =>
      String.eqb (TurnTimeRule.restaurantId rule) restaurantId
      && (TurnTimeRule.partySizeMin rule <=? partySize)
      && (TurnTimeRule.partySizeMax rule >=? partySize))
    (turnTimeRules db).

(** [reservations: { where: { status: { in: ['PENDING', 'CONFIRMED'] } } }] *)
Definition activeReservationsOf (db : Store) (restaurantId : string)
    : list Reservation.t :=
  filter (fun r =>
      String.eqb (Reservation.restaurantId r) restaurantId
      && statusInPendingConfirmed (Reservation.status r))
    (reservations db).

(** The same with [reservationTime: { gte, lt }]. *)
Definition activeReservationsOn (db : Store) (restaurantId : string)
    (gte lt : Z) : list Reservation.t :=
  filter (fun r =>
      (Reservation.reservationTime r >=? gte) && (Reservation.reservationTime r <? lt))
    (activeReservationsOf db restaurantId).

(** [turnTimeRule?.turnTimeInMinutes || 120]: no rule, or a rule of zero
    minutes, gives the default. *)
Definition turnTimeOrDefault (rules : list TurnTimeRule.t) : Z :=
  match rules with
  | [] => 120
  | turnTimeRule :: _ =>
      if TurnTimeRule.turnTimeInMinutes turnTimeRule =? 0 then 120
      else TurnTimeRule.turnTimeInMinutes turnTimeRule
  end.

Definition maxSlots : Z := 30.

(** [tableId: availableTable || undefined] *)
Definition orUndefined (availableTable : option string) : option string :=
  match availableTable with
  | Some s => if JS.truthy s then Some s else None
  | None => None
  end.

Definition isSome {A : Type} (o : option A) : bool :=
  match o with Some _ => true | None => false end.

(** The [while] loop of [calculateAvailability].  One unit of [fuel] is one
    iteration; [slotCount] bounds the iterations by [maxSlots]. *)
Fixpoint slotLoop (fuel : nat) (tz : Z) (tables : list Table.t)
    (reservations : list Reservation.t) (partySize turnTime : Z)
    (lastBookingTime currentTime slotCount : Z) : list AvailabilitySlot :=
  match fuel with
  | O => []
  | S fuel' =>
      if (JS.isBefore currentTime lastBookingTime || (currentTime =? lastBookingTime))
         && (slotCount <? maxSlots)
      then
        let timeString := JS.formatHHmm tz currentTime in
        let slotEndTime := JS.addMinutes currentTime turnTime in
        let availableTable :=
          findAvailableTableForSlot tables reservations currentTime slotEndTime partySize in
        let slot := {| time := timeString;
                       available := isSome availableTable;
                       tableId := orUndefined availableTable |} in
        let currentTime' := JS.addMinutes currentTime 30 in
        let slotCount' := slotCount + 1 in
        if slotCount' >=? maxSlots then [slot]
        else slot :: slotLoop fuel' tz tables reservations partySize turnTime
                       lastBookingTime currentTime' slotCount'
      else []
  end.

Definition calculateAvailability (tz : Z) (db : Store) (restaurantId date : string)
    (partySize : Z) : Outcome (list AvailabilitySlot) :=
  (* the query: the client rejects an Invalid Date argument *)
  match JS.newDate tz (date ++ "T00:00:00"), JS.newDate tz (date ++ "T23:59:59") with
  | Some gte, Some lt =>
    match restaurantById db restaurantId with
    | None => Returns []
    | Some _ =>
      let restaurant_tables := tablesOf db restaurantId in
      let restaurant_operatingHours := operatingHoursOf db restaurantId in
      let restaurant_turnTimeRules := turnTimeRulesFor db restaurantId partySize in
      let restaurant_reservations := activeReservationsOn db restaurantId gte lt in
      let dayOfWeek := JS.getDay tz (JS.newDate tz date) in
      match find (fun oh => numStrictEq (Some (OperatingHours.dayOfWeek oh)) dayOfWeek)
                 restaurant_operatingHours with
      | None => Returns []
      | Some operatingHour =>
        let turnTime := turnTimeOrDefault restaurant_turnTimeRules in
        let dateParts := map JS.Number_of (JS.split "-" date) in
        let openTimeParts :=
          map JS.Number_of (JS.split ":" (OperatingHours.openTime operatingHour)) in
        let closeTimeParts :=
          map JS.Number_of (JS.split ":" (OperatingHours.closeTime operatingHour)) in
        match dateParts, openTimeParts, closeTimeParts with
        | [year; month; day], [openHour; openMinute], [closeHour; closeMinute] =>
          if numLt year (Some 2020) || numGt year (Some 2030)
             || numLt month (Some 1) || numGt month (Some 12)
             || numLt day (Some 1) || numGt day (Some 31)
          then Returns []
          else if numLt openHour (Some 0) || numGt openHour (Some 23)
               || numLt openMinute (Some 0) || numGt openMinute (Some 59)
               || numLt closeHour (Some 0) || numGt closeHour (Some 23)
               || numLt closeMinute (Some 0) || numGt closeMinute (Some 59)
          then Returns []
          else
            match JS.newDateLocal tz year (numMinus month 1) day openHour openMinute,
                  JS.newDateLocal tz year (numMinus month 1) day closeHour closeMinute with
            | Some openTime, Some closeTime =>
              let lastBookingTime := JS.addMinutes closeTime (- turnTime) in
              if JS.isAfter openTime closeTime then Returns []
              else if JS.isAfter openTime lastBookingTime then Returns []
              else if (turnTime <=? 0) || (turnTime >? 480) then Returns []
              else
                Returns (slotLoop (Z.to_nat maxSlots) tz restaurant_tables
                           restaurant_reservations partySize turnTime
                           lastBookingTime openTime 0)
            | _, _ =>
              (* the error message calls [toISOString] on an Invalid Date *)
              Throws
            end
        | _, _, _ => Returns []
        end
      end
    end
  | _, _ => Throws
  end.

(** [findAvailableTable]: [None] is [null]. *)
Definition findAvailableTable (db : Store) (restaurantId : string)
    (reservationTime partySize turnTime : Z) : option string :=
  match restaurantById db restaurantId with
  | None => None
  | Some _ =>
      let slotEndTime := JS.addMinutes reservationTime turnTime in
      findAvailableTableForSlot (tablesOf db restaurantId)
        (activeReservationsOf db restaurantId) reservationTime slotEndTime partySize
  end.

(** ** POST /api/reservations *)

(** A JSON field the handler expects to be a number: absent or otherwise
    falsy ([JAbsent]), a truthy value that is not a number ([JOther]), or
    an integer (fractional party sizes are outside the model). *)
Inductive JsonNumber : Type :=
  | JAbsent
  | JOther
  | JNumber (n : Z).

Module PostBody.
(** The parsed request body.  An absent string field is the empty
    string: both are falsy. *)
Record t : Type := {
  restaurantId : string;
  reservationTime : string;
  partySize : JsonNumber;
  notes : option string;
  userId : string;
  autoConfirm : bool
}.
End PostBody.

Inductive PostError : Type :=
  | MissingRequiredFields (missingFields : list string)
  | PartySizeNotBetween1And20
  | InvalidReservationTimeFormat
  | ReservationTimeInPast
  | RestaurantNotFound
  | NoAvailableTables
  | ReservationConflict
  | InvalidReference.

Inductive PostResponse : Type :=
  | PostCreated (reservation : Reservation.t)
  | PostFailed (error : PostError).

(** The HTTP status of each response. *)
Definition postStatus (r : PostResponse) : Z :=
  match r with
  | PostCreated _ => 201
  | PostFailed (MissingRequiredFields _) => 400
  | PostFailed PartySizeNotBetween1And20 => 400
  | PostFailed InvalidReservationTimeFormat => 400
  | PostFailed ReservationTimeInPast => 400
  | PostFailed RestaurantNotFound => 404
  | PostFailed NoAvailableTables => 409
  | PostFailed ReservationConflict => 409
  | PostFailed InvalidReference => 400
  end.

(** [!partySize] *)
Definition jsonNumberFalsy (v : JsonNumber) : bool :=
  match v with
  | JAbsent => true
  | JOther => false
  | JNumber n => n =? 0
  end.

Definition missingFieldsOf (body : PostBody.t) : list string :=
  (if JS.truthy (PostBody.restaurantId body) then [] else ["restaurantId"])
  ++ (if JS.truthy (PostBody.reservationTime body) then [] else ["reservationTime"])
  ++ (if jsonNumberFalsy (PostBody.partySize body) then ["partySize"] else [])
  ++ (if JS.truthy (PostBody.userId body) then [] else ["userId"]).

(** The checks before the first query: the parsed instant and the party
    size, or the 400 response. *)
Definition postValidate (tz now : Z) (body : PostBody.t) : PostError + Z * Z :=
  match missingFieldsOf body with
  | (_ :: _) as missingFields => inl (MissingRequiredFields missingFields)
  | [] =>
    match PostBody.partySize body with
    | JNumber partySize =>
      if (partySize <? 1) || (partySize >? 20) then inl PartySizeNotBetween1And20
      else
        match JS.newDate tz (PostBody.reservationTime body) with
        | None => inl InvalidReservationTimeFormat
        | Some reservationDateTime =>
            if reservationDateTime <? now then inl ReservationTimeInPast
            else inr (reservationDateTime, partySize)
        end
    | _ => inl PartySizeNotBetween1And20
    end
  end.

Definition existsb_string (x : string) (l : list string) : bool :=
  existsb (String.eqb x) l.

(** The [data] of [prisma.reservation.create]: the row a creation stores,
    with the id the store generates and the time it stamps the row with. *)
Definition createdRow (fresh : string) (now : Z) (body : PostBody.t)
    (tableId : string) (reservationDateTime partySize turnTime : Z)
    : Reservation.t :=
  {| Reservation.id := fresh;
     Reservation.userId := PostBody.userId body;
     Reservation.restaurantId := PostBody.restaurantId body;
     Reservation.tableId := Some tableId;
     Reservation.reservationTime := reservationDateTime;
     Reservation.partySize := partySize;
     Reservation.status := if PostBody.autoConfirm body then CONFIRMED else PENDING;
     Reservation.notes := PostBody.notes body;
     Reservation.turnTimeUsed := turnTime;
     Reservation.updatedAt := now |}.

(** [prisma.reservation.create]: [fresh] is the id the store generates,
    [now] the time of the write.  P2002 is a unique-key violation (the only
    unique key of Reservation is its id), P2003 a foreign-key violation. *)
Definition reservationCreate (db : Store) (fresh : string) (now : Z)
    (body : PostBody.t) (tableId : string)
    (reservationDateTime partySize turnTime : Z) : PostResponse * Store :=
  if existsb_string fresh (map Reservation.id (reservations db))
  then (PostFailed ReservationConflict, db)
  else if negb (existsb_string (PostBody.userId body) (users db)
                && isSome (restaurantById db (PostBody.restaurantId body))
                && existsb_string tableId (map Table.id (tables db)))
  then (PostFailed InvalidReference, db)
  else
    let reservation :=
      createdRow fresh now body tableId reservationDateTime partySize turnTime in
    (PostCreated reservation,
     {| restaurants := restaurants db;
        tables := tables db;
        operatingHours := operatingHours db;
        turnTimeRules := turnTimeRules db;
        reservations := reservations db ++ [reservation];
        cancellationPolicies := cancellationPolicies db;
        users := users db |}).

(** The handler, run without interruption: response and store afterwards.
    [now] is the time of the request: the value of [new Date()] at the
    past-time check, and the time the created row is stamped with (the
    clock does not advance within one request). *)
Definition POST (tz : Z) (db : Store) (now : Z) (fresh : string) (body : PostBody.t)
    : PostResponse * Store :=
  match postValidate tz now body with
  | inl error => (PostFailed error, db)
  | inr (reservationDateTime, partySize) =>
    let restaurantId := PostBody.restaurantId body in
    match restaurantById db restaurantId with
    | None => (PostFailed RestaurantNotFound, db)
    | Some _ =>
      let turnTime := turnTimeOrDefault (turnTimeRulesFor db restaurantId partySize) in
      match orUndefined
              (findAvailableTable db restaurantId reservationDateTime partySize turnTime) with
      | None => (PostFailed NoAvailableTables, db)
      | Some tableId =>
          reservationCreate db fresh now body tableId reservationDateTime partySize
            turnTime
      end
    end
  end.

(** *** The handler as a process

    Between two [await]s on the database other requests may run.  A request
    in flight is at one of the handler's three queries, or finished. *)
Inductive PostPc : Type :=
  | AtRestaurantQuery
  | AtAvailabilityCheck (reservationDateTime partySize turnTime : Z)
  | AtCreate (tableId : string) (reservationDateTime partySize turnTime : Z)
  | Finished (response : PostResponse).

Record PostRequest : Type := {
  req_body : PostBody.t;
  req_now : Z;
  req_fresh : string
}.

(** One query of one request, applied to the store as it is at that moment. *)
Definition postStep (tz : Z) (db : Store) (req : PostRequest) (pc : PostPc)
    : PostPc * Store :=
  let body := req_body req in
  let restaurantId := PostBody.restaurantId body in
  match pc with
  | AtRestaurantQuery =>
      match postValidate tz (req_now req) body with
      | inl error => (Finished (PostFailed error), db)
      | inr (reservationDateTime, partySize) =>
          match restaurantById db restaurantId with
          | None => (Finished (PostFailed RestaurantNotFound), db)
          | Some _ =>
              (AtAvailabilityCheck reservationDateTime partySize
                 (turnTimeOrDefault (turnTimeRulesFor db restaurantId partySize)), db)
          end
      end
  | AtAvailabilityCheck reservationDateTime partySize turnTime =>
      match orUndefined
              (findAvailableTable db restaurantId reservationDateTime partySize turnTime) with
      | None => (Finished (PostFailed NoAvailableTables), db)
      | Some tableId => (AtCreate tableId reservationDateTime partySize turnTime, db)
      end
  | AtCreate tableId reservationDateTime partySize turnTime =>
      let '(response, db') :=
        reservationCreate db (req_fresh req) (req_now req) body tableId
          reservationDateTime partySize turnTime in
      (Finished response, db')
  | Finished response => (Finished response, db)
  end.

(** The requests in flight, each with its program point. *)
Definition Processes : Type := list (PostRequest * PostPc).

Definition issue (requests : list PostRequest) : Processes :=
  map (fun req => (req, AtRestaurantQuery)) requests.

(** Advance request number [i] by one query. *)
Fixpoint stepProcess (tz : Z) (i : nat) (db : Store) (procs : Processes)
    : Processes * Store :=
  match procs, i with
  | [], _ => ([], db)
  | (req, pc) :: rest, O =>
      let '(pc', db') := postStep tz db req pc in ((req, pc') :: rest, db')
  | p :: rest, S i' =>
      let '(rest', db') := stepProcess tz i' db rest in (p :: rest', db')
  end.

(** A schedule names, query by query, the request that runs next. *)
Fixpoint runSchedule (tz : Z) (schedule : list nat) (db : Store) (procs : Processes)
    : Processes * Store :=
  match schedule with
  | [] => (procs, db)
  | i :: later =>
      let '(procs', db') := stepProcess tz i db procs in
      runSchedule tz later db' procs'
  end.

(** The schedule that runs request 0 to its end, then request 1, and so on. *)
Fixpoint sequentialSchedule (first count : nat) : list nat :=
  match count with
  | O => []
  | S count' => first :: first :: first :: sequentialSchedule (S first) count'
  end.

(** ** PATCH /api/reservations/[id] *)

Record PolicyTerms : Type := {
  terms_hoursBeforeNoFee : option Z;
  terms_feePercentage : option QArith_base.Q;
  terms_fixedFeeAmount : option QArith_base.Q;
  terms_notes : option string
}.

Inductive PatchResponse : Type :=
  | CancelledSuccessfully (reservation : Reservation.t)
  | InvalidAction
  | ReservationNotFound
  | AlreadyCancelled
  | CannotCancelCompleted
  | OnlineCancellationNotAllowed (restaurantPhone : string)
  | MustCancelInAdvance (hours : Z) (cancellationPolicy : PolicyTerms)
  | InternalServerError.

Definition patchStatus (r : PatchResponse) : Z :=
  match r with
  | CancelledSuccessfully _ => 200
  | InvalidAction => 400
  | ReservationNotFound => 404
  | AlreadyCancelled => 400
  | CannotCancelCompleted => 400
  | OnlineCancellationNotAllowed _ => 403
  | MustCancelInAdvance _ _ => 400
  | InternalServerError => 500
  end.

Definition reservationById (db : Store) (id : string) : option Reservation.t :=
  find (fun r => String.eqb (Reservation.id r) id) (reservations db).

Definition cancellationPolicyOf (db : Store) (restaurantId : string)
    : option CancellationPolicy.t :=
  find (fun p => String.eqb (CancellationPolicy.restaurantId p) restaurantId)
    (cancellationPolicies db).

(** A row after [data: { status, updatedAt }] is written to it. *)
Definition withUpdate (r : Reservation.t) (s : ReservationStatus) (updatedAt : Z)
    : Reservation.t :=
  {| Reservation.id := Reservation.id r;
     Reservation.userId := Reservation.userId r;
     Reservation.restaurantId := Reservation.restaurantId r;
     Reservation.tableId := Reservation.tableId r;
     Reservation.reservationTime := Reservation.reservationTime r;
     Reservation.partySize := Reservation.partySize r;
     Reservation.status := s;
     Reservation.notes := Reservation.notes r;
     Reservation.turnTimeUsed := Reservation.turnTimeUsed r;
     Reservation.updatedAt := updatedAt |}.

(** [prisma.reservation.update({ where: { id }, data: { status, updatedAt } })]
    on the rows. *)
Fixpoint updateStatus (rows : list Reservation.t) (id : string)
    (s : ReservationStatus) (updatedAt : Z) : list Reservation.t :=
  match rows with
  | [] => []
  | r :: rest =>
      if String.eqb (Reservation.id r) id then withUpdate r s updatedAt :: rest
      else r :: updateStatus rest id s updatedAt
  end.

Definition msPerHour : Z := 1000 * 60 * 60.

(** [hoursUntilReservation < hoursBeforeNoFee], where the left side is the
    quotient of a difference of instants by [msPerHour] and the right side
    an integer: the comparison of the quotient is the comparison of the
    cross product.  (The difference is an exact integer; the rounding of
    the double quotient is monotone and, for a 32-bit threshold, finer than
    one millisecond, so it does not change the comparison.) *)
Definition hoursUntilLessThan (reservationTime now hoursBeforeNoFee : Z) : bool :=
  reservationTime - now <? hoursBeforeNoFee * msPerHour.

(** [if (cancellationPolicy?.hoursBeforeNoFee)]: set and not zero. *)
Definition truthyHours (h : option Z) : option Z :=
  match h with
  | Some x => if x =? 0 then None else Some x
  | None => None
  end.

Definition policyTerms (p : CancellationPolicy.t) : PolicyTerms :=
  {| terms_hoursBeforeNoFee := CancellationPolicy.hoursBeforeNoFee p;
     terms_feePercentage := CancellationPolicy.feePercentage p;
     terms_fixedFeeAmount := CancellationPolicy.fixedFeeAmount p;
     terms_notes := CancellationPolicy.notes p |}.

(** The store after the handler's update: [status: 'CANCELLED'] and
    [updatedAt: new Date()]. *)
Definition cancelRow (db : Store) (id : string) (now : Z) : Store :=
  {| restaurants := restaurants db;
     tables := tables db;
     operatingHours := operatingHours db;
     turnTimeRules := turnTimeRules db;
     reservations := updateStatus (reservations db) id CANCELLED now;
     cancellationPolicies := cancellationPolicies db;
     users := users db |}.

(** The policy checks of the handler: the rejection, or [None] to go on. *)
Definition policyRejection (cancellationPolicy : option CancellationPolicy.t)
    (restaurantPhone : string) (reservationTime now : Z) : option PatchResponse :=
  match cancellationPolicy with
  | Some policy =>
      if negb (CancellationPolicy.allowOnlineCancellation policy)
      then Some (OnlineCancellationNotAllowed restaurantPhone)
      else
        match truthyHours (CancellationPolicy.hoursBeforeNoFee policy) with
        | Some hoursBeforeNoFee =>
            if hoursUntilLessThan reservationTime now hoursBeforeNoFee
            then Some (MustCancelInAdvance hoursBeforeNoFee (policyTerms policy))
            else None
        | None => None
        end
  | None => None
  end.

(** The handler: [now] is the time of the request, the value of both
    [new Date()] (the clock does not advance within one request). *)
Definition PATCH (db : Store) (now : Z) (id action : string)
    : PatchResponse * Store :=
  if negb (String.eqb action "cancel") then (InvalidAction, db)
  else
    match reservationById db id with
    | None => (ReservationNotFound, db)
    | Some existingReservation =>
      match Reservation.status existingReservation with
      | CANCELLED => (AlreadyCancelled, db)
      | COMPLETED => (CannotCancelCompleted, db)
      | _ =>
        (* [existingReservation.restaurant] is a required relation *)
        match restaurantById db (Reservation.restaurantId existingReservation) with
        | None => (InternalServerError, db)
        | Some restaurant =>
          let cancellationPolicy :=
            cancellationPolicyOf db (Reservation.restaurantId existingReservation) in
          match policyRejection cancellationPolicy (Restaurant.phone restaurant)
                  (Reservation.reservationTime existingReservation) now with
          | Some rejection => (rejection, db)
          | None =>
              (CancelledSuccessfully (withUpdate existingReservation CANCELLED now),
               cancelRow db id now)
          end
        end
      end
    end.

(** ** The notions of the specification *)

(** Start and end of the interval a reservation holds its table. *)
Definition reservationStart (r : Reservation.t) : Z := Reservation.reservationTime r.
Definition reservationEnd (r : Reservation.t) : Z :=
  JS.addMinutes (Reservation.reservationTime r) (Reservation.turnTimeUsed r).

(** The specification's overlap of half-open intervals [[a, a')] and
    [[b, b')]: [a < b'] and [b < a']. *)
Definition overlaps (aStart aEnd bStart bEnd : Z) : Prop :=
  aStart < bEnd /\ bStart < aEnd.

Definition overlapsb (aStart aEnd bStart bEnd : Z) : bool :=
  (aStart <? bEnd) && (bStart <? aEnd).

Definition onTable (r : Reservation.t) (table : Table.t) : Prop :=
  Reservation.tableId r = Some (Table.id table).

(** A reservation conflicts with a slot on a table. *)
Definition conflictsWith (table : Table.t) (slotStart slotEnd : Z)
    (r : Reservation.t) : Prop :=
  onTable r table
  /\ overlaps slotStart slotEnd (reservationStart r) (reservationEnd r).

(** The specification's conflict check of one table, as a test. *)
Definition conflictFree (table : Table.t) (reservations : list Reservation.t)
    (slotStart slotEnd : Z) : bool :=
  forallb (fun r =>
      negb (negb (tableIdDiffers (Reservation.tableId r) (Table.id table))
            && overlapsb slotStart slotEnd (reservationStart r) (reservationEnd r)))
    reservations.

(** A candidate table set: one table, or two joined tables. *)
Inductive Candidate : Type :=
  | Single (table : Table.t)
  | Joined (table1 table2 : Table.t).

(** The table id a booking stores for a candidate. *)
Definition primaryTableId (c : Candidate) : string :=
  match c with
  | Single table => Table.id table
  | Joined table1 _ => Table.id table1
  end.

(** The pairs of positions [i < j] of a list, in the order of [i], then [j]. *)
Fixpoint orderedPairs {A : Type} (l : list A) : list (A * A) :=
  match l with
  | [] => []
  | x :: later => map (pair x) later ++ orderedPairs later
  end.

(** The selection as the specification words it: the first conflict-free
    table whose range holds the party; else the first conflict-free table
    that is large enough; else the first pair of joinable tables, in list
    order, whose summed range holds the party and that are both
    conflict-free; else nothing. *)
Definition greedyCandidate (tables : list Table.t) (reservations : list Reservation.t)
    (slotStart slotEnd p : Z) : option Candidate :=
  match find (fun t => (Table.capacityMin t <=? p) && (p <=? Table.capacityMax t)
                       && conflictFree t reservations slotStart slotEnd) tables with
  | Some t => Some (Single t)
  | None =>
    match find (fun t => (Table.capacityMax t >=? p)
                         && conflictFree t reservations slotStart slotEnd) tables with
    | Some t => Some (Single t)
    | None =>
      match find (fun '(t1, t2) =>
                    (Table.capacityMin t1 + Table.capacityMin t2 <=? p)
                    && (p <=? Table.capacityMax t1 + Table.capacityMax t2)
                    && conflictFree t1 reservations slotStart slotEnd
                    && conflictFree t2 reservations slotStart slotEnd)
                 (orderedPairs (filter Table.isJoinable tables)) with
      | Some (t1, t2) => Some (Joined t1 t2)
      | None => None
      end
    end
  end.

Definition isActive (r : Reservation.t) : Prop :=
  Reservation.status r = PENDING \/ Reservation.status r = CONFIRMED.

(** Two reservations that hold the same table at overlapping times. *)
Definition doubleBooked (r1 r2 : Reservation.t) : Prop :=
  isActive r1 /\ isActive r2
  /\ (exists t, Reservation.tableId r1 = Some t /\ Reservation.tableId r2 = Some t)
  /\ overlaps (reservationStart r1) (reservationEnd r1)
              (reservationStart r2) (reservationEnd r2).

(** Invariant I1 on the rows: no two distinct rows are double-booked. *)
Definition NoDoubleBooking (rows : list Reservation.t) : Prop :=
  forall i j r1 r2,
    i <> j -> nth_error rows i = Some r1 -> nth_error rows j = Some r2 ->
    ~ doubleBooked r1 r2.

(** Table ids are a key, and a reservation's table belongs to the
    reservation's restaurant. *)
Definition TablesConsistent (db : Store) : Prop :=
  NoDup (map Table.id (tables db))
  /\ forall r table,
       In r (reservations db) -> In table (tables db) ->
       Reservation.tableId r = Some (Table.id table) ->
       Table.restaurantId table = Reservation.restaurantId r.

(** The store invariant: table ids are a key, reservations sit on tables of
    their own restaurant, and no table is double-booked. *)
Definition StoreInvariant (db : Store) : Prop :=
  TablesConsistent db /\ NoDoubleBooking (reservations db).

(** Requests served one after the other. *)
Definition serveAll (tz : Z) (db : Store) (requests : list PostRequest) : Store :=
  fold_left (fun db req =>
      snd (POST tz db (req_now req) (req_fresh req) (req_body req)))
    requests db.

(** The minutes of a day, as [HH:mm]. *)
Definition labelOf (minuteOfDay : Z) : string :=
  JS.pad2 (minuteOfDay / 60) ++ ":" ++ JS.pad2 (minuteOfDay mod 60).

(** The local instant a slot label [HH:mm] of a date denotes, as the booking
    form sends it: [date + 'T' + time + ':00']. *)
Definition slotDateTime (date time : string) : string :=
  date ++ "T" ++ time ++ ":00".

(** The slot the loop of [calculateAvailability] builds for a start time. *)
Definition slotAt (tz : Z) (tables : list Table.t) (reservations : list Reservation.t)
    (partySize turnTime : Z) (start : Z) : AvailabilitySlot :=
  let found :=
    findAvailableTableForSlot tables reservations start
      (JS.addMinutes start turnTime) partySize in
  {| time := JS.formatHHmm tz start;
     available := isSome found;
     tableId := orUndefined found |}.

(** The slot starts: [openTime], then every 30 minutes while not after
    [lastBookingTime], at most [maxSlots] of them. *)
Definition slotStartCount (openTime lastBookingTime : Z) : Z :=
  Z.min maxSlots ((lastBookingTime - openTime) / (30 * JS.msPerMinute) + 1).

Definition slotStarts (openTime lastBookingTime : Z) : list Z :=
  map (fun k => JS.addMinutes openTime (30 * Z.of_nat k))
      (seq 0 (Z.to_nat (slotStartCount openTime lastBookingTime))).

(** The date is one the store can be queried for: both bounds of its day,
    [date + 'T00:00:00'] and [date + 'T23:59:59'], are valid Dates. *)
Definition validDate (tz : Z) (date : string) : Prop :=
  JS.newDate tz (date ++ "T00:00:00") <> None
  /\ JS.newDate tz (date ++ "T23:59:59") <> None.

(** The day of the week the code resolves for a date:
    [new Date(date).getDay()]. *)
Definition dayOfWeekOf (tz : Z) (date : string) : JS.num :=
  JS.getDay tz (JS.newDate tz date).

(** The day of the week of the calendar date [YYYY-MM-DD], 0 = Sunday
    (1970-01-01 was a Thursday). *)
Definition calendarDayOfWeek (date : string) : option Z :=
  option_map (fun day => (day + 4) mod 7) (JS.isoDay date).

(** The operating hours the code uses on a date: the first row of the
    restaurant for that day of the week. *)
Definition operatingHourOn (tz : Z) (db : Store) (restaurantId date : string)
    : option OperatingHours.t :=
  find (fun oh => numStrictEq (Some (OperatingHours.dayOfWeek oh)) (dayOfWeekOf tz date))
       (operatingHoursOf db restaurantId).

(** The instant of a wall-clock time [H:M] on a date [Y-M-D], as
    [calculateAvailability] constructs it from the split strings. *)
Definition wallClock (tz : Z) (date time : string) : option Z :=
  match map JS.Number_of (JS.split "-" date), map JS.Number_of (JS.split ":" time) with
  | [year; month; day], [hour; minute] =>
      JS.newDateLocal tz year (numMinus month 1) day hour minute
  | _, _ => None
  end.

(** The checks of [calculateAvailability] on the split strings pass, and
    the constructed Dates are valid: the date splits into a year from 2020
    to 2030, a month and a day; a time into an hour and a minute. *)
Definition validDateParts (date : string) : Prop :=
  exists year month day,
    map JS.Number_of (JS.split "-" date) = [Some year; Some month; Some day]
    /\ 2020 <= year <= 2030 /\ 1 <= month <= 12 /\ 1 <= day <= 31.

Definition validTimeParts (time : string) : Prop :=
  exists hour minute,
    map JS.Number_of (JS.split ":" time) = [Some hour; Some minute]
    /\ 0 <= hour <= 23 /\ 0 <= minute <= 59.

(** ** Boolean comparisons used to check scenarios in every time zone *)

Definition optionStringEqb (a b : option string) : bool :=
  match a, b with
  | Some x, Some y => String.eqb x y
  | None, None => true
  | _, _ => false
  end.

Definition slotEqb (a b : AvailabilitySlot) : bool :=
  String.eqb (time a) (time b) && Bool.eqb (available a) (available b)
  && optionStringEqb (tableId a) (tableId b).

Fixpoint slotsEqb (a b : list AvailabilitySlot) : bool :=
  match a, b with
  | [], [] => true
  | x :: a', y :: b' => slotEqb x y && slotsEqb a' b'
  | _, _ => false
  end.

Definition returnsSlots (o : Outcome (list AvailabilitySlot))
    (expected : list AvailabilitySlot) : bool :=
  match o with
  | Returns slots => slotsEqb slots expected
  | Throws => false
  end.

(** The whole-minute offsets from UTC-12:00 to UTC+14:00. *)
Definition tzOffsets : list Z := map (fun n => Z.of_nat n - 720) (seq 0 1561).

(** ** Scenarios *)

Module Scenario.

Definition rid : string := "restaurant-1".
Definition date : string := "2024-01-15".

Definition openDaily : list OperatingHours.t :=
  map (fun d => {| OperatingHours.restaurantId := rid;
                   OperatingHours.dayOfWeek := d;
                   OperatingHours.openTime := "17:00";
                   OperatingHours.closeTime := "22:00" |})
      [0; 1; 2; 3; 4; 5; 6].

Definition mkTable (id : string) (lo hi : Z) (joinable : bool) : Table.t :=
  {| Table.id := id; Table.restaurantId := rid;
     Table.capacityMin := lo; Table.capacityMax := hi;
     Table.isJoinable := joinable |}.

Definition mkStore (tbls : list Table.t) (rules : list TurnTimeRule.t)
    (rows : list Reservation.t) (policies : list CancellationPolicy.t) : Store :=
  {| restaurants := [ {| Restaurant.id := rid; Restaurant.phone := "555-0123" |} ];
     tables := tbls;
     operatingHours := openDaily;
     turnTimeRules := rules;
     reservations := rows;
     cancellationPolicies := policies;
     users := ["user-1"; "user-2"] |}.

Definition rule90 : TurnTimeRule.t :=
  {| TurnTimeRule.restaurantId := rid;
     TurnTimeRule.partySizeMin := 1; TurnTimeRule.partySizeMax := 4;
     TurnTimeRule.turnTimeInMinutes := 90 |}.

(** One table of capacity 2 to 4, open 17:00 to 22:00, turn time 90. *)
Definition oneTable : Store :=
  mkStore [mkTable "table-1" 2 4 false] [rule90] [] [].

Definition mkSlot (label : string) (free : bool) : AvailabilitySlot :=
  {| time := label; available := free;
     tableId := if free then Some "table-1" else None |}.

Definition book (user time : string) (size : Z) : PostBody.t :=
  {| PostBody.restaurantId := rid;
     PostBody.reservationTime := slotDateTime date time;
     PostBody.partySize := JNumber size;
     PostBody.notes := None;
     PostBody.userId := user;
     PostBody.autoConfirm := true |}.

(** Noon of the day, local time: the moment the requests arrive. *)
Definition noon (tz : Z) : Z :=
  match JS.newDate tz (slotDateTime date "12:00") with
  | Some t => t
  | None => 0
  end.

(** The store after a party of two booked 19:00. *)
Definition afterBooking (tz : Z) : Store :=
  snd (POST tz oneTable (noon tz) "res-1" (book "user-1" "19:00" 2)).

Definition allFree : list AvailabilitySlot :=
  map (fun label => mkSlot label true)
      ["17:00"; "17:30"; "18:00"; "18:30"; "19:00"; "19:30"; "20:00"; "20:30"].

(** What the code answers a second party of two after the 19:00 booking. *)
Definition afterBookingSlots : list AvailabilitySlot :=
  [mkSlot "17:00" true; mkSlot "17:30" true; mkSlot "18:00" false;
   mkSlot "18:30" false; mkSlot "19:00" false; mkSlot "19:30" false;
   mkSlot "20:00" false; mkSlot "20:30" true].

(** Two joinable tables of capacity 4 to 6. *)
Definition twoJoinable : Store :=
  mkStore [mkTable "table-1" 4 6 true; mkTable "table-2" 4 6 true] [] [] [].

(** Two requests for the same slot, by two users. *)
Definition racers (tz : Z) : list PostRequest :=
  [ {| req_body := book "user-1" "19:00" 2; req_now := noon tz; req_fresh := "res-1" |};
    {| req_body := book "user-2" "19:00" 2; req_now := noon tz; req_fresh := "res-2" |} ].

(** Both requests check availability before either writes. *)
Definition interleaved : list nat := [0%nat; 1%nat; 0%nat; 1%nat; 0%nat; 1%nat].

(** A reservation of the one table, last written at [updated]. *)
Definition mkReservationAt (id : string) (st : ReservationStatus) (at_ updated : Z)
    : Reservation.t :=
  {| Reservation.id := id; Reservation.userId := "user-1";
     Reservation.restaurantId := rid; Reservation.tableId := Some "table-1";
     Reservation.reservationTime := at_; Reservation.partySize := 2;
     Reservation.status := st; Reservation.notes := None;
     Reservation.turnTimeUsed := 90; Reservation.updatedAt := updated |}.

(** The same, last written at the instant 0. *)
Definition mkReservation (id : string) (st : ReservationStatus) (at_ : Z)
    : Reservation.t :=
  mkReservationAt id st at_ 0.

Definition mkPolicy (hours : option Z) (online : bool) : CancellationPolicy.t :=
  {| CancellationPolicy.restaurantId := rid;
     CancellationPolicy.hoursBeforeNoFee := hours;
     CancellationPolicy.feePercentage := None;
     CancellationPolicy.fixedFeeAmount := None;
     CancellationPolicy.notes := None;
     CancellationPolicy.allowOnlineCancellation := online |}.

(** A restaurant that opens on Wednesdays only, a rule of 500 minutes for
    parties of 7 to 8, and a rule of -30 minutes for parties of 9. *)
Definition wednesdays : Store :=
  {| restaurants := [ {| Restaurant.id := rid; Restaurant.phone := "555-0123" |} ];
     tables := [mkTable "table-1" 2 4 false];
     operatingHours :=
       [ {| OperatingHours.restaurantId := rid; OperatingHours.dayOfWeek := 3;
            OperatingHours.openTime := "17:00"; OperatingHours.closeTime := "22:00" |} ];
     turnTimeRules :=
       [ rule90;
         {| TurnTimeRule.restaurantId := rid;
            TurnTimeRule.partySizeMin := 7; TurnTimeRule.partySizeMax := 8;
            TurnTimeRule.turnTimeInMinutes := 500 |};
         {| TurnTimeRule.restaurantId := rid;
            TurnTimeRule.partySizeMin := 9; TurnTimeRule.partySizeMax := 9;
            TurnTimeRule.turnTimeInMinutes := -30 |} ];
     reservations := [];
     cancellationPolicies := [];
     users := [] |}.

(** A reservation for 2024-01-15 19:00 UTC, in a given state, under given
    cancellation policies. *)
Definition bookedAt : Z := 1705345200000.

Definition cancelStoreAt (st : ReservationStatus)
    (policies : list CancellationPolicy.t) (updated : Z) : Store :=
  mkStore [mkTable "table-1" 2 4 false] [rule90]
    [mkReservationAt "res-1" st bookedAt updated] policies.

Definition cancelStore (st : ReservationStatus)
    (policies : list CancellationPolicy.t) : Store :=
  cancelStoreAt st policies 0.

(** The one table under a rule of 0 minutes, and the slots a turn time of
    120 minutes gives. *)
Definition zeroTurn : Store :=
  mkStore [mkTable "table-1" 2 4 false]
    [ {| TurnTimeRule.restaurantId := rid;
         TurnTimeRule.partySizeMin := 1; TurnTimeRule.partySizeMax := 4;
         TurnTimeRule.turnTimeInMinutes := 0 |} ] [] [].

Definition freeUntil2000 : list AvailabilitySlot :=
  map (fun label => mkSlot label true)
      ["17:00"; "17:30"; "18:00"; "18:30"; "19:00"; "19:30"; "20:00"].

(** Opening hours whose opening time is not a time. *)
Definition malformedHours : Store :=
  {| restaurants := [ {| Restaurant.id := rid; Restaurant.phone := "555-0123" |} ];
     tables := [mkTable "table-1" 2 4 false];
     operatingHours :=
       map (fun d => {| OperatingHours.restaurantId := rid;
                        OperatingHours.dayOfWeek := d;
                        OperatingHours.openTime := "17:xx";
                        OperatingHours.closeTime := "22:00" |})
           [0; 1; 2; 3; 4; 5; 6];
     turnTimeRules := [rule90];
     reservations := [];
     cancellationPolicies := [];
     users := [] |}.

End Scenario.

(** ** GET /api/reservations/[id] and GET /api/reservations *)

Inductive GetResponse : Type :=
  | GetFound (reservation : Reservation.t)
  | GetNotFound.

(** The item route: the stored row, or 404. *)
Definition GET_reservation (db : Store) (id : string) : GetResponse :=
  match reservationById db id with
  | Some reservation => GetFound reservation
  | None => GetNotFound
  end.

(** [if (userId) where.userId = userId]: a query parameter that is absent
    ([None]) or empty sets no filter. *)
Definition whereMatches (param : option string) (value : string) : bool :=
  match param with
  | Some wanted => if JS.truthy wanted then String.eqb value wanted else true
  | None => true
  end.

(** [orderBy: { reservationTime: 'desc' }], as an insertion into a list
    already in that order.  The store does not fix the order of rows with
    equal times; the model keeps them in row order. *)
Fixpoint insertDesc (r : Reservation.t) (sorted : list Reservation.t)
    : list Reservation.t :=
  match sorted with
  | [] => [r]
  | x :: rest =>
      if Reservation.reservationTime x <=? Reservation.reservationTime r
      then r :: x :: rest
      else x :: insertDesc r rest
  end.

Definition orderByReservationTimeDesc (rows : list Reservation.t)
    : list Reservation.t :=
  fold_right insertDesc [] rows.

(** The collection route: [prisma.reservation.findMany({ where, orderBy })]. *)
Definition GET_reservations (db : Store) (userId restaurantId : option string)
    : list Reservation.t :=
  orderByReservationTimeDesc
    (filter (fun r => whereMatches userId (Reservation.userId r)
                      && whereMatches restaurantId (Reservation.restaurantId r))
            (reservations db)).

(** ** src/lib/utils.ts *)

(** [n.toString()] on an integer. *)
Definition numberToString (n : Z) : string := NilZero.string_of_int (Z.to_int n).

(** [s.padStart(2, '0')] *)
Definition padStart2 (s : string) : string :=
  match s with
  | EmptyString => "00"
  | String c EmptyString => String "0" s
  | _ => s
  end.

(** The 12-hour reading the formatters share. *)
Definition hour12Of (hours : Z) : Z :=
  if hours =? 0 then 12 else if hours >? 12 then hours - 12 else hours.

Definition formatTimeWithAmPm (time : string) : string :=
  if negb (JS.truthy time) then "Invalid time"
  else
    match JS.split ":" time with
    | [hoursPart; minutesPart] =>
        match JS.Number_of hoursPart, JS.Number_of minutesPart with
        | Some hours, Some minutes =>
            let hour12 := hour12Of hours in
            let ampm := if hours >=? 12 then "PM" else "AM" in
            numberToString hour12 ++ ":" ++ padStart2 (numberToString minutes)
              ++ " " ++ ampm
        | _, _ => time
        end
    | _ => time
    end.

(** [hoursByRange]: a [Map] from a time range to the days that have it, in
    insertion order.  [mapPush] is [has]/[set]/[get(...).push]. *)
Fixpoint mapPush (hoursByRange : list (string * list Z)) (timeRange : string)
    (day : Z) : list (string * list Z) :=
  match hoursByRange with
  | [] => [(timeRange, [day])]
  | (key, days) :: rest =>
      if String.eqb key timeRange then (key, (days ++ [day])%list) :: rest
      else (key, days) :: mapPush rest timeRange day
  end.

(** A time whose pieces between colons are whole numbers of at most 15
    digits: on these [JS.Number_of] and the arithmetic on integers are what
    JavaScript computes. *)
Definition plainTime (time : string) : bool :=
  forallb JS.plainDigits (JS.split ":" time).

(** The rows the [forEach] does not skip. *)
Definition validHours (hours : OperatingHours.t) : bool :=
  JS.truthy (OperatingHours.openTime hours) && JS.truthy (OperatingHours.closeTime hours).

Definition timeRangeOf (hours : OperatingHours.t) : string :=
  formatTimeWithAmPm (OperatingHours.openTime hours) ++ " - "
  ++ formatTimeWithAmPm (OperatingHours.closeTime hours).

Definition groupByRange (operatingHours : list OperatingHours.t)
    : list (string * list Z) :=
  fold_left (fun hoursByRange hours =>
      if validHours hours
      then mapPush hoursByRange (timeRangeOf hours) (OperatingHours.dayOfWeek hours)
      else hoursByRange)
    operatingHours [].

(** [formatOperatingHours]: destructuring the first entry of an empty map
    throws a TypeError. *)
Definition formatOperatingHours (operatingHours : list OperatingHours.t)
    : Outcome string :=
  match operatingHours with
  | [] => Returns "Hours not available"
  | _ :: _ =>
      match groupByRange operatingHours with
      | [] => Throws
      | [(timeRange, days)] =>
          if Nat.eqb (List.length days) 7 then Returns ("Daily " ++ timeRange)
          else Returns timeRange
      | (mostCommonRange, _) :: _ => Returns mostCommonRange
      end
  end.

(** ** src/components/RestaurantDetails.tsx: the capacity notice *)

Definition suitableIndividualTables (tables : list Table.t) (currentPartySize : Z)
    : list Table.t :=
  filter (fun table => (Table.capacityMin table <=? currentPartySize)
                       && (Table.capacityMax table >=? currentPartySize)) tables.

Fixpoint canJoinInner (table1 : Table.t) (later : list Table.t)
    (currentPartySize : Z) : bool :=
  match later with
  | [] => false
  | table2 :: rest =>
      let minCombinedCapacity := Table.capacityMin table1 + Table.capacityMin table2 in
      let maxCombinedCapacity := Table.capacityMax table1 + Table.capacityMax table2 in
      if (minCombinedCapacity <=? currentPartySize)
         && (currentPartySize <=? maxCombinedCapacity)
      then true
      else canJoinInner table1 rest currentPartySize
  end.

Fixpoint canJoinOuter (joinableTables : list Table.t) (currentPartySize : Z) : bool :=
  match joinableTables with
  | [] => false
  | table1 :: later =>
      if canJoinInner table1 later currentPartySize then true
      else canJoinOuter later currentPartySize
  end.

Definition canJoinTables (tables : list Table.t) (currentPartySize : Z) : bool :=
  canJoinOuter (filter Table.isJoinable tables) currentPartySize.

Definition hasTableCapacity (tables : list Table.t) (currentPartySize : Z) : bool :=
  (0 <? Z.of_nat (List.length (suitableIndividualTables tables currentPartySize)))
  || canJoinTables tables currentPartySize.

(** ** src/components/RestaurantSearch.tsx: the table timeline *)

(** date-fns [startOfDay]: local midnight of the day of [d]. *)
Definition startOfDay (tz : Z) (d : Z) : Z :=
  d - (d + tz * JS.msPerMinute) mod JS.msPerDay.

(** [minutesToTime]: [%] is the truncating remainder. *)
Definition minutesToTime (minutes : Z) : string :=
  let hours := minutes / 60 in
  let mins := Z.rem minutes 60 in
  let period := if hours >=? 12 then "PM" else "AM" in
  let displayHours := hour12Of hours in
  numberToString displayHours ++ ":" ++ padStart2 (numberToString mins)
    ++ " " ++ period.

(** The loop of [isTableReserved] over [table.reservations]; the
    reservation times are the instants their ISO strings denote. *)
Fixpoint reservedAt (reservations : list Reservation.t) (currentDateTime : Z)
    : option Reservation.t :=
  match reservations with
  | [] => None
  | reservation :: rest =>
      let reservationStart := Reservation.reservationTime reservation in
      let reservationEnd :=
        JS.addMinutes reservationStart (Reservation.turnTimeUsed reservation) in
      if (currentDateTime >=? reservationStart) && (currentDateTime <? reservationEnd)
      then Some reservation
      else reservedAt rest currentDateTime
  end.

Definition isTableReserved (tz : Z) (selectedDate currentTime : Z)
    (reservations : list Reservation.t) : option Reservation.t :=
  let currentDateTime := JS.addMinutes (startOfDay tz selectedDate) currentTime in
  reservedAt reservations currentDateTime.

(** ** Further scenarios *)

Module Extra.

(** Open from 00:00 to 23:59 every day, turn time 60 minutes. *)
Definition allDay : Store :=
  {| restaurants :=
       [ {| Restaurant.id := Scenario.rid; Restaurant.phone := "555-0123" |} ];
     tables := [Scenario.mkTable "table-1" 2 4 false];
     operatingHours :=
       map (fun d => {| OperatingHours.restaurantId := Scenario.rid;
                        OperatingHours.dayOfWeek := d;
                        OperatingHours.openTime := "00:00";
                        OperatingHours.closeTime := "23:59" |})
           [0; 1; 2; 3; 4; 5; 6];
     turnTimeRules :=
       [ {| TurnTimeRule.restaurantId := Scenario.rid;
            TurnTimeRule.partySizeMin := 1; TurnTimeRule.partySizeMax := 4;
            TurnTimeRule.turnTimeInMinutes := 60 |} ];
     reservations := [];
     cancellationPolicies := [];
     users := ["user-1"] |}.

Definition hours (day : Z) (open close : string) : OperatingHours.t :=
  {| OperatingHours.restaurantId := Scenario.rid;
     OperatingHours.dayOfWeek := day;
     OperatingHours.openTime := open;
     OperatingHours.closeTime := close |}.

End Extra.

(** * Properties *)

(** ** The conflict check *)

Section ConflictCheck.

Variable table : Table.t.
Variables slotStart slotEnd : Z.

Lemma tableIdDiffers_false (r : Reservation.t) :
  tableIdDiffers (Reservation.tableId r) (Table.id table) = false <-> onTable r table.
Proof.
  unfold tableIdDiffers, onTable.
  destruct (Reservation.tableId r) as [t|]; [|split; discriminate].
  rewrite negb_false_iff, String.eqb_eq.
  split; [intros ->; reflexivity | intros [= ->]; reflexivity].
Qed.

Lemma overlapsb_spec (a a' b b' : Z) :
  overlapsb a a' b b' = true <-> overlaps a a' b b'.
Proof.
  unfold overlapsb, overlaps.
  rewrite andb_true_iff, !Z.ltb_lt. reflexivity.
Qed.

(** The filter of [isTableAvailable] keeps exactly the reservations the
    specification's test refuses. *)
Lemma isTableAvailable_conflictFree (rs : list Reservation.t) :
  isTableAvailable table rs slotStart slotEnd = conflictFree table rs slotStart slotEnd.
Proof.
  unfold isTableAvailable, conflictFree.
  induction rs as [|r rs IH]; [reflexivity|].
  cbn [filter forallb].
  unfold reservationStart, reservationEnd, overlapsb, JS.isBefore, JS.isAfter in *.
  rewrite Z.gtb_ltb.
  destruct (tableIdDiffers (Reservation.tableId r) (Table.id table)); cbn [negb andb].
  - exact IH.
  - destruct (slotStart <? _); cbn [andb negb]; [|exact IH].
    destruct (Reservation.reservationTime r <? slotEnd); cbn [andb negb];
      [reflexivity | exact IH].
Qed.

Lemma conflictFree_true (rs : list Reservation.t) :
  conflictFree table rs slotStart slotEnd = true
  <-> forall r, In r rs -> ~ conflictsWith table slotStart slotEnd r.
Proof.
  unfold conflictFree, conflictsWith.
  rewrite forallb_forall.
  split; intros H r Hin.
  - specialize (H r Hin). rewrite negb_true_iff, andb_false_iff in H.
    intros [Hon Hov].
    apply tableIdDiffers_false in Hon. apply overlapsb_spec in Hov.
    destruct H as [H|H]; [rewrite Hon in H | rewrite Hov in H]; discriminate.
  - rewrite negb_true_iff.
    destruct (tableIdDiffers _ _) eqn:Hd; [reflexivity|].
    destruct (overlapsb _ _ _ _) eqn:Ho; [|reflexivity].
    exfalso. apply (H r Hin). split.
    + apply tableIdDiffers_false; exact Hd.
    + apply overlapsb_spec; exact Ho.
Qed.

Lemma isTableAvailable_true (rs : list Reservation.t) :
  isTableAvailable table rs slotStart slotEnd = true
  <-> forall r, In r rs -> ~ conflictsWith table slotStart slotEnd r.
Proof. rewrite isTableAvailable_conflictFree. apply conflictFree_true. Qed.

(** More reservations never free a table. *)
Lemma isTableAvailable_incl (rs rs' : list Reservation.t) :
  incl rs rs' ->
  isTableAvailable table rs' slotStart slotEnd = true ->
  isTableAvailable table rs slotStart slotEnd = true.
Proof.
  rewrite !isTableAvailable_true. intros Hincl H r Hin. apply H, Hincl, Hin.
Qed.

End ConflictCheck.

(** C4. The conflict check is the half-open overlap test: a table is
    reported busy for a slot exactly when one of its reservations [r]
    satisfies [slotStart < end r] and [start r < slotEnd]; a reservation
    that ends when the slot starts, or starts when the slot ends, is no
    conflict. *)
Theorem isTableAvailable_half_open :
  forall (table : Table.t) (rs : list Reservation.t) (slotStart slotEnd : Z),
    (isTableAvailable table rs slotStart slotEnd = false
     <-> exists r, In r rs /\ onTable r table
                   /\ slotStart < reservationEnd r /\ reservationStart r < slotEnd)
    /\ (forall r : Reservation.t,
          reservationEnd r = slotStart \/ reservationStart r = slotEnd ->
          isTableAvailable table [r] slotStart slotEnd = true).
Proof.
  intros table rs slotStart slotEnd. split.
  - rewrite isTableAvailable_conflictFree. unfold conflictFree.
    rewrite <- not_true_iff_false, forallb_forall. split.
    + intros Hnot.
      destruct (existsb (fun r =>
                  negb (tableIdDiffers (Reservation.tableId r) (Table.id table))
                  && overlapsb slotStart slotEnd (reservationStart r) (reservationEnd r)) rs)
        eqn:Hex.
      * apply existsb_exists in Hex. destruct Hex as (r & Hin & Hr).
        apply andb_true_iff in Hr. destruct Hr as [Hon Hov].
        apply negb_true_iff, tableIdDiffers_false in Hon.
        apply overlapsb_spec in Hov. destruct Hov.
        exists r. repeat split; assumption.
      * exfalso. apply Hnot. intros r Hin.
        apply negb_true_iff.
        destruct (_ && _) eqn:Hr; [|reflexivity].
        assert (existsb (fun r =>
                  negb (tableIdDiffers (Reservation.tableId r) (Table.id table))
                  && overlapsb slotStart slotEnd (reservationStart r) (reservationEnd r)) rs
                = true) as Hyes by (apply existsb_exists; exists r; split; assumption).
        congruence.
    + intros (r & Hin & Hon & H1 & H2) Hall.
      specialize (Hall r Hin). apply negb_true_iff, andb_false_iff in Hall.
      destruct Hall as [Hd|Ho].
      * apply negb_false_iff in Hd.
        apply tableIdDiffers_false in Hon. congruence.
      * assert (overlapsb slotStart slotEnd (reservationStart r) (reservationEnd r) = true)
          by (apply overlapsb_spec; split; assumption).
        congruence.
  - intros r Htouch. apply isTableAvailable_true.
    intros r' [<-|[]] [_ [H1 H2]]. lia.
Qed.

(** ** The table selection *)

Lemma find_none_iff {A : Type} (f : A -> bool) (l : list A) :
  find f l = None <-> forall x, In x l -> f x = false.
Proof.
  split; [apply find_none|].
  induction l as [|x l IH]; intros H; [reflexivity|].
  cbn. rewrite (H x (or_introl eq_refl)). apply IH.
  intros y Hy. apply H. right. exact Hy.
Qed.

Lemma find_append {A : Type} (f : A -> bool) (l1 l2 : list A) :
  find f (l1 ++ l2) = match find f l1 with Some x => Some x | None => find f l2 end.
Proof.
  induction l1 as [|x l1 IH]; [reflexivity|].
  cbn. destruct (f x); [reflexivity | exact IH].
Qed.

Section Selection.

Variable reservations : list Reservation.t.
Variables slotStart slotEnd p : Z.

Let free (t : Table.t) : bool := conflictFree t reservations slotStart slotEnd.

Let pairFits (c : Table.t * Table.t) : bool :=
  let '(t1, t2) := c in
  (Table.capacityMin t1 + Table.capacityMin t2 <=? p)
  && (p <=? Table.capacityMax t1 + Table.capacityMax t2)
  && free t1 && free t2.

Lemma idealTableLoop_find (tables : list Table.t) :
  idealTableLoop tables reservations slotStart slotEnd p
  = option_map Table.id
      (find (fun t => (Table.capacityMin t <=? p) && (p <=? Table.capacityMax t)
                      && free t) tables).
Proof.
  induction tables as [|t tables IH]; [reflexivity|].
  cbn [idealTableLoop find]. rewrite IH, isTableAvailable_conflictFree, Z.geb_leb.
  subst free. cbv beta.
  destruct ((Table.capacityMin t <=? p) && (p <=? Table.capacityMax t));
    [|reflexivity].
  destruct (conflictFree t reservations slotStart slotEnd); reflexivity.
Qed.

Lemma largerTableLoop_find (tables : list Table.t) :
  largerTableLoop tables reservations slotStart slotEnd p
  = option_map Table.id
      (find (fun t => (Table.capacityMax t >=? p) && free t) tables).
Proof.
  induction tables as [|t tables IH]; [reflexivity|].
  cbn [largerTableLoop find]. rewrite IH, isTableAvailable_conflictFree, Z.geb_leb.
  subst free. cbv beta.
  destruct (p <=? Table.capacityMax t); [|reflexivity].
  destruct (conflictFree t reservations slotStart slotEnd); reflexivity.
Qed.

Lemma joinInnerLoop_find (table1 : Table.t) (later : list Table.t) :
  joinInnerLoop table1 later reservations slotStart slotEnd p
  = option_map (fun c => Table.id (fst c)) (find pairFits (map (pair table1) later)).
Proof.
  induction later as [|t2 later IH]; [reflexivity|].
  cbn [joinInnerLoop map find]. rewrite IH, !isTableAvailable_conflictFree.
  subst pairFits free. cbv beta iota zeta.
  destruct ((Table.capacityMin table1 + Table.capacityMin t2 <=? p)
            && (p <=? Table.capacityMax table1 + Table.capacityMax t2));
    [|reflexivity].
  cbn [andb].
  destruct (conflictFree table1 reservations slotStart slotEnd
            && conflictFree t2 reservations slotStart slotEnd); reflexivity.
Qed.

Lemma joinOuterLoop_find (joinable : list Table.t) :
  joinOuterLoop joinable reservations slotStart slotEnd p
  = option_map (fun c => Table.id (fst c)) (find pairFits (orderedPairs joinable)).
Proof.
  induction joinable as [|t1 later IH]; [reflexivity|].
  cbn [joinOuterLoop orderedPairs].
  rewrite find_append, joinInnerLoop_find, IH.
  destruct (find pairFits (map (pair t1) later)); reflexivity.
Qed.

(** The three loops pick the primary table of the specification's
    candidate. *)
Lemma findAvailableTableForSlot_candidate (tables : list Table.t) :
  findAvailableTableForSlot tables reservations slotStart slotEnd p
  = option_map primaryTableId
      (greedyCandidate tables reservations slotStart slotEnd p).
Proof.
  unfold findAvailableTableForSlot, greedyCandidate.
  rewrite idealTableLoop_find, largerTableLoop_find, joinOuterLoop_find.
  subst pairFits free. cbv beta zeta.
  destruct (find _ tables); [reflexivity|].
  destruct (find _ tables); [reflexivity|].
  destruct (find _ (orderedPairs _)) as [[t1 t2]|]; reflexivity.
Qed.

End Selection.

(** A table set with no free candidate stays so when reservations are added. *)
Lemma greedyCandidate_none_incl (tables : list Table.t) (rs rs' : list Reservation.t)
    (slotStart slotEnd p : Z) :
  incl rs rs' ->
  greedyCandidate tables rs slotStart slotEnd p = None ->
  greedyCandidate tables rs' slotStart slotEnd p = None.
Proof.
  intros Hincl. unfold greedyCandidate.
  assert (Hfree : forall t, conflictFree t rs slotStart slotEnd = false ->
                            conflictFree t rs' slotStart slotEnd = false).
  { intros t Hf. rewrite <- isTableAvailable_conflictFree in *.
    destruct (isTableAvailable t rs' slotStart slotEnd) eqn:H'; [|reflexivity].
    rewrite (isTableAvailable_incl t slotStart slotEnd rs rs' Hincl H') in Hf.
    discriminate. }
  destruct (find _ tables) eqn:H1; [discriminate|].
  destruct (find _ tables) eqn:H2 in |- *; [discriminate|].
  destruct (find _ (orderedPairs _)) as [[t1 t2]|] eqn:H3; [discriminate|].
  intros _.
  pose proof (find_none _ _ H1) as N1. pose proof (find_none _ _ H2) as N2.
  pose proof (find_none _ _ H3) as N3. clear H1 H2 H3.
  assert (find (fun t => (Table.capacityMin t <=? p) && (p <=? Table.capacityMax t)
                         && conflictFree t rs' slotStart slotEnd) tables = None) as ->.
  { apply find_none_iff. intros t Hin. specialize (N1 t Hin). cbv beta in N1.
    apply andb_false_iff in N1. destruct N1 as [H1|H1].
    - rewrite H1. reflexivity.
    - rewrite (Hfree t H1). apply andb_false_r. }
  assert (find (fun t => (Table.capacityMax t >=? p)
                         && conflictFree t rs' slotStart slotEnd) tables = None) as ->.
  { apply find_none_iff. intros t Hin. specialize (N2 t Hin). cbv beta in N2.
    apply andb_false_iff in N2. destruct N2 as [H2|H2].
    - rewrite H2. reflexivity.
    - rewrite (Hfree t H2). apply andb_false_r. }
  assert (find (fun '(t1, t2) =>
                    (Table.capacityMin t1 + Table.capacityMin t2 <=? p)
                    && (p <=? Table.capacityMax t1 + Table.capacityMax t2)
                    && conflictFree t1 rs' slotStart slotEnd
                    && conflictFree t2 rs' slotStart slotEnd)
                 (orderedPairs (filter Table.isJoinable tables)) = None) as ->.
  { apply find_none_iff. intros [t1 t2] Hin. specialize (N3 (t1, t2) Hin).
    cbv beta iota in N3.
    apply andb_false_iff in N3. destruct N3 as [H3|H3].
    - apply andb_false_iff in H3. destruct H3 as [H3|H3].
      + rewrite H3. reflexivity.
      + rewrite (Hfree t1 H3). rewrite andb_false_r. reflexivity.
    - rewrite (Hfree t2 H3). apply andb_false_r. }
  reflexivity.
Qed.

Lemma findAvailableTableForSlot_none_incl (tables : list Table.t)
    (rs rs' : list Reservation.t) (slotStart slotEnd p : Z) :
  incl rs rs' ->
  findAvailableTableForSlot tables rs slotStart slotEnd p = None ->
  findAvailableTableForSlot tables rs' slotStart slotEnd p = None.
Proof.
  intros Hincl. rewrite !findAvailableTableForSlot_candidate.
  destruct (greedyCandidate tables rs slotStart slotEnd p) eqn:H; [discriminate|].
  intros _. rewrite (greedyCandidate_none_incl _ _ _ _ _ _ Hincl H). reflexivity.
Qed.

(** C5. The assigned table is the greedy choice in the tables' order: the
    first conflict-free table whose capacity range holds the party, else the
    first conflict-free table that is large enough, else the first table of
    the first fitting, conflict-free pair of joinable tables, else none.
    Being a function of the table list, the reservations, the slot and the
    party size, the choice is deterministic. *)
Theorem findAvailableTableForSlot_greedy :
  forall (tables : list Table.t) (reservations : list Reservation.t)
         (slotStart slotEnd p : Z),
    findAvailableTableForSlot tables reservations slotStart slotEnd p
    = option_map primaryTableId
        (greedyCandidate tables reservations slotStart slotEnd p).
Proof.
  intros. apply findAvailableTableForSlot_candidate.
Qed.

(** ** The slot loop *)

Section SlotLoop.

Variable tz : Z.
Variable tables : list Table.t.
Variable reservations : list Reservation.t.
Variables partySize turnTime lastBookingTime : Z.

Let step : Z := 30 * JS.msPerMinute.

Let remaining (currentTime slotCount : Z) : nat :=
  Z.to_nat (Z.min (maxSlots - slotCount) ((lastBookingTime - currentTime) / step + 1)).

Lemma remaining_step (currentTime slotCount : Z) :
  currentTime <= lastBookingTime -> slotCount < maxSlots ->
  remaining currentTime slotCount
  = S (remaining (JS.addMinutes currentTime 30) (slotCount + 1)).
Proof.
  intros Hle Hlt. subst remaining step. cbv beta.
  unfold JS.addMinutes, JS.msPerMinute, maxSlots in *.
  replace (lastBookingTime - (currentTime + 30 * 60000))
    with ((lastBookingTime - currentTime) + (-1) * (30 * 60000)) by lia.
  rewrite Z.div_add by lia.
  assert (0 <= (lastBookingTime - currentTime) / (30 * 60000))
    by (apply Z.div_pos; lia).
  rewrite <- Z2Nat.inj_succ by lia.
  f_equal. lia.
Qed.

Lemma remaining_stop (currentTime slotCount : Z) :
  lastBookingTime < currentTime \/ maxSlots <= slotCount ->
  remaining currentTime slotCount = O.
Proof.
  intros H. subst remaining step. cbv beta.
  unfold JS.msPerMinute, maxSlots in *.
  destruct H as [H|H].
  - assert ((lastBookingTime - currentTime) / (30 * 60000) < 0)
      by (apply Z.div_lt_upper_bound; lia).
    lia.
  - lia.
Qed.

(** The loop visits the start times [currentTime + 30 k] minutes, in order,
    and builds the slot of each; any fuel that covers the slots left under
    the cap gives the same list. *)
Lemma slotLoop_from (fuel : nat) :
  forall currentTime slotCount,
    maxSlots - slotCount <= Z.of_nat fuel ->
    slotLoop fuel tz tables reservations partySize turnTime lastBookingTime
      currentTime slotCount
    = map (fun k => slotAt tz tables reservations partySize turnTime
                      (JS.addMinutes currentTime (30 * Z.of_nat k)))
          (seq 0 (remaining currentTime slotCount)).
Proof.
  induction fuel as [|fuel IH]; intros currentTime slotCount Hfuel.
  - rewrite remaining_stop by (right; lia). reflexivity.
  - cbn [slotLoop]. unfold JS.isBefore.
    destruct ((currentTime <? lastBookingTime) || (currentTime =? lastBookingTime))
      eqn:Hcur; cbn [andb].
    + assert (currentTime <= lastBookingTime) as Hle.
      { apply orb_true_iff in Hcur. destruct Hcur as [H|H].
        - apply Z.ltb_lt in H. lia.
        - apply Z.eqb_eq in H. lia. }
      destruct (slotCount <? maxSlots) eqn:Hcnt.
      * apply Z.ltb_lt in Hcnt.
        rewrite (remaining_step _ _ Hle Hcnt).
        cbn [seq map].
        replace (JS.addMinutes currentTime (30 * Z.of_nat 0)) with currentTime
          by (unfold JS.addMinutes; lia).
        fold (slotAt tz tables reservations partySize turnTime currentTime).
        destruct (slotCount + 1 >=? maxSlots) eqn:Hcap.
        -- rewrite remaining_stop by (right; lia). reflexivity.
        -- f_equal. rewrite IH by lia.
           rewrite <- seq_shift, map_map.
           apply map_ext. intros k. f_equal.
           unfold JS.addMinutes. lia.
      * apply Z.ltb_ge in Hcnt.
        rewrite remaining_stop by (right; lia). reflexivity.
    + apply orb_false_iff in Hcur. destruct Hcur as [H1 H2].
      apply Z.ltb_ge in H1. apply Z.eqb_neq in H2.
      rewrite remaining_stop by (left; lia). reflexivity.
Qed.

(** With the fuel [calculateAvailability] passes, the loop yields the slots
    of [slotStarts]. *)
Lemma slotLoop_slotStarts (openTime : Z) :
  slotLoop (Z.to_nat maxSlots) tz tables reservations partySize turnTime
    lastBookingTime openTime 0
  = map (slotAt tz tables reservations partySize turnTime)
        (slotStarts openTime lastBookingTime).
Proof.
  rewrite slotLoop_from by (unfold maxSlots; lia).
  unfold slotStarts, slotStartCount. rewrite map_map.
  subst remaining step. cbv beta. rewrite Z.sub_0_r. reflexivity.
Qed.

(** Each slot start lies at a whole number of half hours after the opening
    time and not after the last booking time. *)
Lemma slotStarts_nth (openTime : Z) (k : nat) (start : Z) :
  nth_error (slotStarts openTime lastBookingTime) k = Some start ->
  start = JS.addMinutes openTime (30 * Z.of_nat k) /\ start <= lastBookingTime.
Proof.
  unfold slotStarts. intros H.
  assert (k < Z.to_nat (slotStartCount openTime lastBookingTime))%nat as Hk.
  { assert (nth_error
              (map (fun k => JS.addMinutes openTime (30 * Z.of_nat k))
                   (seq 0 (Z.to_nat (slotStartCount openTime lastBookingTime)))) k
            <> None) as Hsome by congruence.
    apply nth_error_Some in Hsome.
    rewrite length_map, length_seq in Hsome. exact Hsome. }
  rewrite nth_error_map in H.
  rewrite nth_error_seq in H.
  destruct (Nat.ltb_spec k (Z.to_nat (slotStartCount openTime lastBookingTime)));
    [|lia].
  cbn [option_map Nat.add] in H.
  assert (start = JS.addMinutes openTime (30 * Z.of_nat k)) as -> by congruence.
  split; [reflexivity|].
  unfold slotStartCount, maxSlots in Hk.
  unfold JS.addMinutes.
  change JS.msPerMinute with 60000 in *.
  pose proof (Z.mul_div_le (lastBookingTime - openTime) (30 * 60000) ltac:(lia)) as Hdiv.
  remember ((lastBookingTime - openTime) / (30 * 60000)) as q.
  lia.
Qed.

End SlotLoop.

(** ** Scenario checks in every time zone *)

Lemma optionStringEqb_eq (a b : option string) : optionStringEqb a b = true -> a = b.
Proof.
  destruct a as [x|], b as [y|]; cbn; try discriminate; [|reflexivity].
  intros H. apply String.eqb_eq in H. congruence.
Qed.

Lemma slotEqb_eq (a b : AvailabilitySlot) : slotEqb a b = true -> a = b.
Proof.
  destruct a as [ta aa ia], b as [tb ab ib]. unfold slotEqb. cbn.
  intros H. apply andb_true_iff in H. destruct H as [H Hid].
  apply andb_true_iff in H. destruct H as [Ht Ha].
  apply String.eqb_eq in Ht. apply Bool.eqb_prop in Ha.
  apply optionStringEqb_eq in Hid. congruence.
Qed.

Lemma slotsEqb_eq (a b : list AvailabilitySlot) : slotsEqb a b = true -> a = b.
Proof.
  revert b. induction a as [|x a IH]; intros [|y b]; cbn; try discriminate.
  - reflexivity.
  - intros H. apply andb_true_iff in H. destruct H as [Hx Hab].
    apply slotEqb_eq in Hx. apply IH in Hab. congruence.
Qed.

Lemma returnsSlots_true (o : Outcome (list AvailabilitySlot))
    (expected : list AvailabilitySlot) :
  returnsSlots o expected = true -> o = Returns expected.
Proof.
  destruct o as [slots|]; cbn; [|discriminate].
  intros H. apply slotsEqb_eq in H. congruence.
Qed.

Lemma in_tzOffsets (tz : Z) : -720 <= tz <= 840 -> In tz tzOffsets.
Proof.
  intros H. unfold tzOffsets. apply in_map_iff.
  exists (Z.to_nat (tz + 720)). split; [lia|].
  apply in_seq. lia.
Qed.

(** A test that holds at each listed offset holds at every offset in range. *)
Lemma every_offset (check : Z -> bool) :
  forallb check tzOffsets = true ->
  forall tz, -720 <= tz <= 840 -> check tz = true.
Proof.
  intros Hall tz Htz. rewrite forallb_forall in Hall.
  apply Hall, in_tzOffsets, Htz.
Qed.

(** The slot starts are the instants [openTime + 30 k] minutes, for [k] from
    0 below the cap, that are not after [lastBookingTime]. *)
Lemma slotStarts_In (openTime lastBookingTime start : Z) :
  In start (slotStarts openTime lastBookingTime)
  <-> exists k, 0 <= k < maxSlots
                /\ start = JS.addMinutes openTime (30 * k)
                /\ start <= lastBookingTime.
Proof.
  split.
  - intros Hin. apply In_nth_error in Hin. destruct Hin as [k Hk].
    assert (k < List.length (slotStarts openTime lastBookingTime))%nat as Hlen
      by (apply nth_error_Some; congruence).
    unfold slotStarts in Hlen. rewrite length_map, length_seq in Hlen.
    apply slotStarts_nth in Hk. destruct Hk as [-> Hle].
    exists (Z.of_nat k). split; [|split; [reflexivity | exact Hle]].
    unfold slotStartCount, maxSlots in *. lia.
  - intros (k & Hk & -> & Hle). unfold slotStarts. apply in_map_iff.
    exists (Z.to_nat k). split; [rewrite Z2Nat.id by lia; reflexivity|].
    apply in_seq. split; [lia|]. cbn [Nat.add].
    apply Z2Nat.inj_lt; [lia | |].
    + unfold slotStartCount, maxSlots in *.
      unfold JS.addMinutes in Hle. change JS.msPerMinute with 60000 in *.
      assert (0 <= (lastBookingTime - openTime) / (30 * 60000))
        by (apply Z.div_pos; lia).
      lia.
    + unfold slotStartCount, maxSlots in *.
      unfold JS.addMinutes in Hle. change JS.msPerMinute with 60000 in *.
      assert (k <= (lastBookingTime - openTime) / (30 * 60000))
        by (apply Z.div_le_lower_bound; lia).
      lia.
Qed.

(** With a restaurant, its operating hours of the day, and a date and times
    that pass the checks on the split strings, [calculateAvailability] is
    the three checks of the configuration, then the loop from the opening
    time through the closing time less the turn time. *)
Lemma calculateAvailability_regular (tz : Z) (db : Store) (rid date : string) (p : Z)
    (gte lt : Z) (oh : OperatingHours.t) (openT closeT : Z) :
  JS.newDate tz (date ++ "T00:00:00") = Some gte ->
  JS.newDate tz (date ++ "T23:59:59") = Some lt ->
  restaurantById db rid <> None ->
  operatingHourOn tz db rid date = Some oh ->
  validDateParts date ->
  validTimeParts (OperatingHours.openTime oh) ->
  validTimeParts (OperatingHours.closeTime oh) ->
  wallClock tz date (OperatingHours.openTime oh) = Some openT ->
  wallClock tz date (OperatingHours.closeTime oh) = Some closeT ->
  let turnTime := turnTimeOrDefault (turnTimeRulesFor db rid p) in
  let lastBookingTime := JS.addMinutes closeT (- turnTime) in
  calculateAvailability tz db rid date p
  = if (closeT <? openT) || (lastBookingTime <? openT)
       || (turnTime <=? 0) || (480 <? turnTime)
    then Returns []
    else Returns (map (slotAt tz (tablesOf db rid)
                         (activeReservationsOn db rid gte lt) p turnTime)
                      (slotStarts openT lastBookingTime)).
Proof.
  intros Hgte Hlt Hrest Hoh (y & m & d & Hdate & Hy & Hm & Hd)
    (oH & oM & Hopen & HoH & HoM) (cH & cM & Hclose & HcH & HcM)
    HopenT HcloseT turnTime lastBookingTime.
  unfold calculateAvailability. rewrite Hgte, Hlt.
  destruct (restaurantById db rid); [|exfalso; apply Hrest; reflexivity].
  cbv zeta. unfold operatingHourOn, dayOfWeekOf in Hoh. rewrite Hoh.
  unfold wallClock in HopenT, HcloseT.
  rewrite Hdate, Hopen in HopenT. rewrite Hdate, Hclose in HcloseT.
  rewrite Hdate, Hopen, Hclose.
  repeat match goal with
         | |- context [numLt (Some ?a) (Some ?b)] =>
             replace (numLt (Some a) (Some b)) with false
               by (symmetry; apply Z.ltb_ge; lia)
         | |- context [numGt (Some ?a) (Some ?b)] =>
             replace (numGt (Some a) (Some b)) with false
               by (symmetry; apply Z.ltb_ge; lia)
         end.
  cbn [orb]. rewrite HopenT, HcloseT.
  fold turnTime. fold lastBookingTime.
  unfold JS.isAfter. rewrite !Z.gtb_ltb.
  destruct (closeT <? openT); [reflexivity|].
  destruct (lastBookingTime <? openT); [reflexivity|].
  cbn [orb]. rewrite slotLoop_slotStarts.
  destruct ((turnTime <=? 0) || (480 <? turnTime)); reflexivity.
Qed.

(** C8.  With the opening and closing instants [openT] and [closeT] of the
    day, the turn time in force and [lastBookingTime = closeT - turnTime],
    and a configuration that passes the checks, GetAvailability returns the
    slots of the starts [openT + 30 k] minutes (k = 0, 1, ...) that are not
    after [lastBookingTime], that one included, at most [maxSlots] of them,
    in that order; for the restaurant open 17:00 to 22:00 with a turn time
    of 90 minutes, one table of capacity 2 to 4 and no reservation, a party
    of 2 gets exactly the eight slots 17:00 to 20:30, all available,
    whatever the time zone of the server. *)
Theorem availability_enumerates_half_hours :
  forall tz : Z, -720 <= tz <= 840 ->
    (forall tables reservations partySize turnTime lastBookingTime openTime,
        slotLoop (Z.to_nat maxSlots) tz tables reservations partySize turnTime
          lastBookingTime openTime 0
        = map (slotAt tz tables reservations partySize turnTime)
              (slotStarts openTime lastBookingTime))
    /\ (forall openTime lastBookingTime start,
          In start (slotStarts openTime lastBookingTime)
          <-> exists k, 0 <= k < maxSlots
                        /\ start = JS.addMinutes openTime (30 * k)
                        /\ start <= lastBookingTime)
    /\ (forall (db : Store) (restaurantId date : string) (partySize gte lt : Z)
               (oh : OperatingHours.t) (openT closeT : Z),
          JS.newDate tz (date ++ "T00:00:00") = Some gte ->
          JS.newDate tz (date ++ "T23:59:59") = Some lt ->
          restaurantById db restaurantId <> None ->
          operatingHourOn tz db restaurantId date = Some oh ->
          validDateParts date ->
          validTimeParts (OperatingHours.openTime oh) ->
          validTimeParts (OperatingHours.closeTime oh) ->
          wallClock tz date (OperatingHours.openTime oh) = Some openT ->
          wallClock tz date (OperatingHours.closeTime oh) = Some closeT ->
          let turnTime :=
            turnTimeOrDefault (turnTimeRulesFor db restaurantId partySize) in
          let lastBookingTime := JS.addMinutes closeT (- turnTime) in
          openT <= closeT -> openT <= lastBookingTime -> 0 < turnTime <= 480 ->
          calculateAvailability tz db restaurantId date partySize
          = Returns
              (map (slotAt tz (tablesOf db restaurantId)
                      (activeReservationsOn db restaurantId gte lt)
                      partySize turnTime)
                   (slotStarts openT lastBookingTime)))
    /\ calculateAvailability tz Scenario.oneTable Scenario.rid Scenario.date 2
       = Returns Scenario.allFree.
Proof.
  intros tz Htz. split; [|split; [|split]].
  - intros. apply slotLoop_slotStarts.
  - intros. apply slotStarts_In.
  - intros db restaurantId date partySize gte lt oh openT closeT
      Hgte Hlt Hrest Hoh Hdate Hopen Hclose HopenT HcloseT turnTime lastBookingTime
      Hoc Hol Hturn.
    rewrite (calculateAvailability_regular tz db restaurantId date partySize gte lt
               oh openT closeT Hgte Hlt Hrest Hoh Hdate Hopen Hclose HopenT HcloseT).
    cbv zeta. fold turnTime. fold lastBookingTime.
    rewrite (proj2 (Z.ltb_ge closeT openT)) by lia.
    rewrite (proj2 (Z.ltb_ge lastBookingTime openT)) by lia.
    rewrite (proj2 (Z.leb_gt turnTime 0)) by lia.
    rewrite (proj2 (Z.ltb_ge 480 turnTime)) by lia.
    reflexivity.
  - apply returnsSlots_true.
    apply (every_offset (fun tz =>
             returnsSlots
               (calculateAvailability tz Scenario.oneTable Scenario.rid Scenario.date 2)
               Scenario.allFree)); [vm_compute; reflexivity | exact Htz].
Qed.

(** At UTC-05:00: the scenario; and the restaurant open from 00:00 to 23:59
    with a turn time of 60 minutes, whose slots from midnight on are cut at
    the cap, the last one starting at 14:30. *)
Lemma availability_enumerates_half_hours_witness :
  -720 <= -300 <= 840
  /\ calculateAvailability (-300) Scenario.oneTable Scenario.rid Scenario.date 2
     = Returns Scenario.allFree
  /\ calculateAvailability (-300) Extra.allDay Scenario.rid Scenario.date 2
     = Returns (map (slotAt (-300) (tablesOf Extra.allDay Scenario.rid) [] 2 60)
                    (slotStarts 1705294800000 1705377540000))
  /\ List.length (slotStarts 1705294800000 1705377540000) = 30%nat.
Proof.
  split; [lia|]. split; [|split].
  - apply (proj2 (proj2 (proj2
             (availability_enumerates_half_hours (-300) ltac:(lia))))).
  - apply (proj1 (proj2 (proj2
             (availability_enumerates_half_hours (-300) ltac:(lia))))
             Extra.allDay Scenario.rid Scenario.date 2
             1705294800000 1705381199000
             (Extra.hours 0 "00:00" "23:59") 1705294800000 1705381140000).
    + vm_compute. reflexivity.
    + vm_compute. reflexivity.
    + discriminate.
    + vm_compute. reflexivity.
    + exists 2024, 1, 15. split; [reflexivity | lia].
    + exists 0, 0. split; [reflexivity | lia].
    + exists 23, 59. split; [reflexivity | lia].
    + vm_compute. reflexivity.
    + vm_compute. reflexivity.
    + vm_compute. discriminate.
    + vm_compute. discriminate.
    + vm_compute. split; [reflexivity | discriminate].
  - vm_compute. reflexivity.
Defined.

(** C2, as the code answers.  After the party of two booked 19:00 (the
    request is accepted), a second party of two finds 17:00 and 17:30
    available, 18:00 through 20:00 unavailable, and 20:30 the first slot
    available again: the booking holds the table until 20:30, and the slot
    20:00 to 21:30 overlaps it. *)
Theorem booking_1900_blocks_1800_to_2000 :
  forall tz : Z, -720 <= tz <= 840 ->
    postStatus (fst (POST tz Scenario.oneTable (Scenario.noon tz) "res-1"
                       (Scenario.book "user-1" "19:00" 2))) = 201
    /\ calculateAvailability tz (Scenario.afterBooking tz) Scenario.rid Scenario.date 2
       = Returns Scenario.afterBookingSlots.
Proof.
  intros tz Htz.
  pose proof (every_offset (fun tz =>
      (postStatus (fst (POST tz Scenario.oneTable (Scenario.noon tz) "res-1"
                          (Scenario.book "user-1" "19:00" 2))) =? 201)
      && returnsSlots
           (calculateAvailability tz (Scenario.afterBooking tz) Scenario.rid
              Scenario.date 2)
           Scenario.afterBookingSlots) ltac:(vm_compute; reflexivity) tz Htz) as H.
  cbv beta in H. apply andb_true_iff in H. destruct H as [H1 H2].
  split; [apply Z.eqb_eq, H1 | apply returnsSlots_true, H2].
Qed.

Lemma booking_1900_blocks_1800_to_2000_witness :
  -720 <= 0 <= 840
  /\ calculateAvailability 0 (Scenario.afterBooking 0) Scenario.rid Scenario.date 2
     = Returns Scenario.afterBookingSlots.
Proof.
  split; [lia|].
  apply (booking_1900_blocks_1800_to_2000 0). lia.
Defined.

(** C2, as stated, fails: after the 19:00 booking no slot 20:00 is reported
    available. *)
Lemma slot_2000_not_available_after_1900 :
  ~ exists slots slot,
      calculateAvailability 0 (Scenario.afterBooking 0) Scenario.rid Scenario.date 2
      = Returns slots
      /\ In slot slots /\ time slot = "20:00" /\ available slot = true.
Proof.
  intros (slots & slot & Hslots & Hin & Htime & Hfree).
  assert (calculateAvailability 0 (Scenario.afterBooking 0) Scenario.rid Scenario.date 2
          = Returns Scenario.afterBookingSlots) as Hcode by (vm_compute; reflexivity).
  rewrite Hcode in Hslots. injection Hslots as <-.
  unfold Scenario.afterBookingSlots in Hin. cbn [In] in Hin.
  repeat (destruct Hin as [<-|Hin]; [cbn in Htime, Hfree; congruence|]).
  exact Hin.
Qed.

(** ** Cancellation *)

Section Cancel.

Variable db : Store.
Variable now : Z.
Variable id : string.
Variable r : Reservation.t.
Variable restaurant : Restaurant.t.

Hypothesis Hfound : reservationById db id = Some r.
Hypothesis Hrestaurant :
  restaurantById db (Reservation.restaurantId r) = Some restaurant.

Let policy : option CancellationPolicy.t :=
  cancellationPolicyOf db (Reservation.restaurantId r).
Let cancelled : PatchResponse * Store :=
  (CancelledSuccessfully (withUpdate r CANCELLED now), cancelRow db id now).

(** Past the state guard, the handler's answer is the one of the policy
    checks. *)
Lemma PATCH_past_guard :
  Reservation.status r <> CANCELLED -> Reservation.status r <> COMPLETED ->
  PATCH db now id "cancel"
  = match policyRejection policy (Restaurant.phone restaurant)
            (Reservation.reservationTime r) now with
    | Some rejection => (rejection, db)
    | None => cancelled
    end.
Proof.
  intros Hc Hd. unfold PATCH. cbn [String.eqb Ascii.eqb Bool.eqb negb].
  rewrite Hfound.
  destruct (Reservation.status r) eqn:Hs; try congruence;
    rewrite Hrestaurant; reflexivity.
Qed.

Lemma PATCH_terminal_guard :
  (Reservation.status r = CANCELLED -> PATCH db now id "cancel" = (AlreadyCancelled, db))
  /\ (Reservation.status r = COMPLETED ->
      PATCH db now id "cancel" = (CannotCancelCompleted, db)).
Proof.
  unfold PATCH. cbn [String.eqb Ascii.eqb Bool.eqb negb]. rewrite Hfound.
  split; intros ->; reflexivity.
Qed.

End Cancel.

(** C7, as the code decides.  For a reservation that is neither cancelled
    nor completed: a policy with [allowOnlineCancellation = false] refuses
    the cancellation; otherwise, a policy whose [hoursBeforeNoFee] is set
    and not zero refuses it, with the policy's fee terms attached, when the
    time remaining is strictly less than that many hours; in every other
    case (no policy, no [hoursBeforeNoFee], a zero [hoursBeforeNoFee], or
    enough time remaining) the reservation is cancelled.  With 24 hours, a
    cancellation at exactly 24h0m remaining succeeds and one at 23h59m
    remaining is refused. *)
Theorem cancel_policy_decision :
  forall (db : Store) (now : Z) (id : string) (r : Reservation.t)
         (restaurant : Restaurant.t),
    reservationById db id = Some r ->
    Reservation.status r <> CANCELLED -> Reservation.status r <> COMPLETED ->
    restaurantById db (Reservation.restaurantId r) = Some restaurant ->
    let policy := cancellationPolicyOf db (Reservation.restaurantId r) in
    let remaining := Reservation.reservationTime r - now in
    let outcome := PATCH db now id "cancel" in
    let cancelled :=
      (CancelledSuccessfully (withUpdate r CANCELLED now), cancelRow db id now) in
    (forall pol, policy = Some pol ->
       CancellationPolicy.allowOnlineCancellation pol = false ->
       outcome = (OnlineCancellationNotAllowed (Restaurant.phone restaurant), db))
    /\ (forall pol h, policy = Some pol ->
          CancellationPolicy.allowOnlineCancellation pol = true ->
          CancellationPolicy.hoursBeforeNoFee pol = Some h -> h <> 0 ->
          remaining < h * msPerHour ->
          outcome = (MustCancelInAdvance h (policyTerms pol), db))
    /\ (policy = None
        \/ (exists pol, policy = Some pol
              /\ CancellationPolicy.allowOnlineCancellation pol = true
              /\ (CancellationPolicy.hoursBeforeNoFee pol = None
                  \/ CancellationPolicy.hoursBeforeNoFee pol = Some 0
                  \/ exists h, CancellationPolicy.hoursBeforeNoFee pol = Some h
                               /\ h * msPerHour <= remaining)) ->
        outcome = cancelled)
    /\ (forall pol, policy = Some pol ->
          CancellationPolicy.allowOnlineCancellation pol = true ->
          CancellationPolicy.hoursBeforeNoFee pol = Some 24 ->
          (remaining = 24 * msPerHour -> outcome = cancelled)
          /\ (remaining = (23 * 60 + 59) * JS.msPerMinute ->
              outcome = (MustCancelInAdvance 24 (policyTerms pol), db))).
Proof.
  intros db now id r restaurant Hfound Hc Hd Hrest policy remaining outcome cancelled.
  subst outcome. rewrite (PATCH_past_guard db now id r restaurant Hfound Hrest Hc Hd).
  fold policy. fold cancelled. unfold policyRejection, hoursUntilLessThan.
  fold remaining.
  split; [|split; [|split]].
  - intros pol -> ->. reflexivity.
  - intros pol h -> -> -> Hh Hlt. cbn [negb truthyHours].
    destruct (Z.eqb_spec h 0) as [|_]; [contradiction|].
    rewrite (proj2 (Z.ltb_lt _ _) Hlt). reflexivity.
  - intros [->|(pol & -> & -> & Hcase)]; [reflexivity|].
    cbn [negb].
    destruct Hcase as [->|[->|(h & -> & Hle)]]; try reflexivity.
    cbn [truthyHours]. destruct (h =? 0); [reflexivity|].
    rewrite (proj2 (Z.ltb_ge _ _) Hle). reflexivity.
  - intros pol -> -> ->. cbn [negb truthyHours Z.eqb].
    split; intros ->; reflexivity.
Qed.

(** The boundary on a stored reservation with a 24-hour policy. *)
Lemma cancel_policy_decision_witness :
  let db := Scenario.cancelStore CONFIRMED [Scenario.mkPolicy (Some 24) true] in
  fst (PATCH db (Scenario.bookedAt - 24 * msPerHour) "res-1" "cancel")
  = CancelledSuccessfully
      (Scenario.mkReservationAt "res-1" CANCELLED Scenario.bookedAt
         (Scenario.bookedAt - 24 * msPerHour))
  /\ fst (PATCH db (Scenario.bookedAt - (23 * 60 + 59) * JS.msPerMinute) "res-1" "cancel")
     = MustCancelInAdvance 24 (policyTerms (Scenario.mkPolicy (Some 24) true)).
Proof.
  intros db.
  pose (r := Scenario.mkReservation "res-1" CONFIRMED Scenario.bookedAt).
  pose (rest := {| Restaurant.id := Scenario.rid; Restaurant.phone := "555-0123" |}).
  split.
  - rewrite (proj1 (proj2 (proj2 (proj2
       (cancel_policy_decision db (Scenario.bookedAt - 24 * msPerHour) "res-1" r rest
          eq_refl ltac:(discriminate) ltac:(discriminate) eq_refl)))
       (Scenario.mkPolicy (Some 24) true) eq_refl eq_refl eq_refl) eq_refl).
    reflexivity.
  - rewrite (proj2 (proj2 (proj2 (proj2
       (cancel_policy_decision db (Scenario.bookedAt - (23 * 60 + 59) * JS.msPerMinute)
          "res-1" r rest
          eq_refl ltac:(discriminate) ltac:(discriminate) eq_refl)))
       (Scenario.mkPolicy (Some 24) true) eq_refl eq_refl eq_refl) eq_refl).
    reflexivity.
Defined.

(** C7, as stated, fails: under a policy whose [hoursBeforeNoFee] is set to
    0, a cancellation one hour after the reserved time (less than 0 hours
    remaining) is accepted. *)
Lemma zero_hours_policy_accepts_late_cancellation :
  let pol := Scenario.mkPolicy (Some 0) true in
  let db := Scenario.cancelStore CONFIRMED [pol] in
  let now := Scenario.bookedAt + msPerHour in
  CancellationPolicy.allowOnlineCancellation pol = true
  /\ CancellationPolicy.hoursBeforeNoFee pol = Some 0
  /\ Scenario.bookedAt - now < 0 * msPerHour
  /\ PATCH db now "res-1" "cancel"
     = (CancelledSuccessfully
          (Scenario.mkReservationAt "res-1" CANCELLED Scenario.bookedAt now),
        Scenario.cancelStoreAt CANCELLED [pol] now).
Proof.
  cbv zeta. split; [reflexivity|]. split; [reflexivity|].
  split; [reflexivity|]. vm_compute. reflexivity.
Qed.

(** C3 on the code: the state guard stops a cancelled and a completed
    reservation, and lets a NO_SHOW reservation through, which is then
    cancelled. *)
Theorem no_show_reservation_is_cancelled :
  PATCH (Scenario.cancelStore NO_SHOW []) 0 "res-1" "cancel"
  = (CancelledSuccessfully (Scenario.mkReservation "res-1" CANCELLED Scenario.bookedAt),
     Scenario.cancelStore CANCELLED [])
  /\ PATCH (Scenario.cancelStore CANCELLED []) 0 "res-1" "cancel"
     = (AlreadyCancelled, Scenario.cancelStore CANCELLED [])
  /\ PATCH (Scenario.cancelStore COMPLETED []) 0 "res-1" "cancel"
     = (CannotCancelCompleted, Scenario.cancelStore COMPLETED []).
Proof.
  split; [|split]; vm_compute; reflexivity.
Qed.

(** ** Creation: what a request reads and writes *)

Lemma existsb_string_true (x : string) (l : list string) :
  existsb_string x l = true <-> In x l.
Proof.
  unfold existsb_string. rewrite existsb_exists. split.
  - intros (y & Hin & Heq). apply String.eqb_eq in Heq. subst. exact Hin.
  - intros Hin. exists x. split; [exact Hin | apply String.eqb_refl].
Qed.

Lemma existsb_string_false (x : string) (l : list string) :
  existsb_string x l = false <-> ~ In x l.
Proof.
  rewrite <- existsb_string_true. destruct (existsb_string x l); split; congruence.
Qed.

Lemma orUndefined_some (s : string) : s <> "" -> orUndefined (Some s) = Some s.
Proof.
  intros H. unfold orUndefined, JS.truthy.
  destruct (String.eqb_spec s ""); [contradiction | reflexivity].
Qed.

Lemma orUndefined_inv (o : option string) (s : string) :
  orUndefined o = Some s -> o = Some s.
Proof.
  destruct o as [x|]; cbn; [|discriminate].
  destruct (JS.truthy x); [trivial | discriminate].
Qed.

(** A creation either leaves the store as it is, or appends its row. *)
Lemma reservationCreate_cases (db : Store) (fresh : string) (now : Z)
    (body : PostBody.t)
    (tableId : string) (t p turn : Z) :
  let '(response, db') := reservationCreate db fresh now body tableId t p turn in
  (db' = db /\ exists e, response = PostFailed e)
  \/ (response = PostCreated (createdRow fresh now body tableId t p turn)
      /\ reservations db' = (reservations db ++ [createdRow fresh now body tableId t p turn])%list
      /\ tables db' = tables db /\ restaurants db' = restaurants db
      /\ turnTimeRules db' = turnTimeRules db
      /\ operatingHours db' = operatingHours db
      /\ users db' = users db
      /\ cancellationPolicies db' = cancellationPolicies db
      /\ In tableId (map Table.id (tables db))).
Proof.
  unfold reservationCreate.
  destruct (existsb_string fresh _); [left; split; eauto|].
  destruct (existsb_string (PostBody.userId body) (users db)
            && isSome (restaurantById db (PostBody.restaurantId body))
            && existsb_string tableId (map Table.id (tables db))) eqn:Hfk;
    cbn [negb]; [|left; split; eauto].
  right. apply andb_true_iff in Hfk. destruct Hfk as [_ Htable].
  apply existsb_string_true in Htable.
  repeat split; try reflexivity. exact Htable.
Qed.

Lemma reservationCreate_succeeds (db : Store) (fresh : string) (now : Z)
    (body : PostBody.t)
    (tableId : string) (t p turn : Z) :
  ~ In fresh (map Reservation.id (reservations db)) ->
  In (PostBody.userId body) (users db) ->
  restaurantById db (PostBody.restaurantId body) <> None ->
  In tableId (map Table.id (tables db)) ->
  fst (reservationCreate db fresh now body tableId t p turn)
  = PostCreated (createdRow fresh now body tableId t p turn).
Proof.
  intros Hfresh Huser Hrest Htable. unfold reservationCreate.
  rewrite (proj2 (existsb_string_false _ _) Hfresh).
  rewrite (proj2 (existsb_string_true _ _) Huser).
  rewrite (proj2 (existsb_string_true _ _) Htable).
  destruct (restaurantById db (PostBody.restaurantId body)); [|congruence].
  reflexivity.
Qed.

Lemma activeReservationsOf_app (db db' : Store) (row : Reservation.t) (rid : string) :
  reservations db' = (reservations db ++ [row])%list ->
  activeReservationsOf db' rid
  = (activeReservationsOf db rid
     ++ (if String.eqb (Reservation.restaurantId row) rid
            && statusInPendingConfirmed (Reservation.status row)
         then [row] else []))%list.
Proof.
  intros H. unfold activeReservationsOf. rewrite H, filter_app. reflexivity.
Qed.

Lemma tablesOf_In (db : Store) (rid : string) (t : Table.t) :
  In t (tablesOf db rid) <-> In t (tables db) /\ Table.restaurantId t = rid.
Proof.
  unfold tablesOf. rewrite filter_In, String.eqb_eq. reflexivity.
Qed.

Lemma orderedPairs_In {A : Type} (l : list A) (a b : A) :
  In (a, b) (orderedPairs l) -> In a l /\ In b l.
Proof.
  induction l as [|x l IH]; cbn; [tauto|].
  rewrite in_app_iff, in_map_iff.
  intros [(y & [= <- <-] & Hy)|H]; [tauto|].
  destruct (IH H). tauto.
Qed.

Lemma orderedPairs_distinct {A B : Type} (f : A -> B) (l : list A) (a b : A) :
  NoDup (map f l) -> In (a, b) (orderedPairs l) -> f a <> f b.
Proof.
  induction l as [|x l IH]; cbn; [tauto|].
  intros Hnd. inversion Hnd as [|? ? Hnotin Hnd']; subst.
  rewrite in_app_iff, in_map_iff.
  intros [(y & [= <- <-] & Hy)|H].
  - intros Heq. apply Hnotin. rewrite Heq. apply in_map, Hy.
  - apply IH; assumption.
Qed.

Lemma NoDup_map_filter {A B : Type} (f : A -> B) (g : A -> bool) (l : list A) :
  NoDup (map f l) -> NoDup (map f (filter g l)).
Proof.
  induction l as [|x l IH]; cbn; [trivial|].
  intros Hnd. inversion Hnd as [|? ? Hnotin Hnd']; subst.
  destruct (g x); cbn; [|apply IH, Hnd'].
  constructor; [|apply IH, Hnd'].
  intros Hin. apply Hnotin. apply in_map_iff in Hin.
  destruct Hin as (y & Hy & Hin). apply filter_In in Hin.
  apply in_map_iff. exists y. tauto.
Qed.

(** The candidate the loops choose, with what makes it a candidate. *)
Lemma greedyCandidate_single (tables : list Table.t) (rs : list Reservation.t)
    (s e p : Z) (t : Table.t) :
  greedyCandidate tables rs s e p = Some (Single t) ->
  In t tables /\ conflictFree t rs s e = true.
Proof.
  unfold greedyCandidate.
  destruct (find _ tables) as [t'|] eqn:H1.
  - intros [= <-]. apply find_some in H1. destruct H1 as [Hin H1].
    apply andb_true_iff in H1. tauto.
  - destruct (find _ tables) as [t'|] eqn:H2 in |- *.
    + intros [= <-]. apply find_some in H2. destruct H2 as [Hin H2].
      apply andb_true_iff in H2. tauto.
    + destruct (find _ (orderedPairs _)) as [[t1 t2]|]; discriminate.
Qed.

Lemma greedyCandidate_joined (tables : list Table.t) (rs : list Reservation.t)
    (s e p : Z) (t1 t2 : Table.t) :
  greedyCandidate tables rs s e p = Some (Joined t1 t2) ->
  In (t1, t2) (orderedPairs (filter Table.isJoinable tables))
  /\ Table.capacityMin t1 + Table.capacityMin t2 <= p
     <= Table.capacityMax t1 + Table.capacityMax t2
  /\ conflictFree t1 rs s e = true /\ conflictFree t2 rs s e = true.
Proof.
  unfold greedyCandidate.
  destruct (find _ tables); [discriminate|].
  destruct (find _ tables); [discriminate|].
  destruct (find _ (orderedPairs _)) as [[u1 u2]|] eqn:H3; [|discriminate].
  intros [= <- <-]. apply find_some in H3. destruct H3 as [Hin H3].
  cbv beta iota in H3.
  apply andb_true_iff in H3. destruct H3 as [H3 Hf2].
  apply andb_true_iff in H3. destruct H3 as [H3 Hf1].
  apply andb_true_iff in H3. destruct H3 as [Hlo Hhi].
  apply Z.leb_le in Hlo, Hhi. tauto.
Qed.

Lemma greedyCandidate_primary_free (tables : list Table.t) (rs : list Reservation.t)
    (s e p : Z) (c : Candidate) :
  greedyCandidate tables rs s e p = Some c ->
  exists t, In t tables /\ Table.id t = primaryTableId c
            /\ conflictFree t rs s e = true.
Proof.
  destruct c as [t|t1 t2]; intros H.
  - apply greedyCandidate_single in H. exists t. cbn. tauto.
  - apply greedyCandidate_joined in H. destruct H as (Hin & _ & Hf1 & _).
    apply orderedPairs_In in Hin. destruct Hin as [Hin _].
    apply filter_In in Hin. exists t1. cbn. tauto.
Qed.

(** What an uninterrupted [POST] does: it fails and leaves the store as it
    is, or it appends the row of the candidate the selection chose for the
    requested slot. *)
Lemma POST_cases (tz : Z) (db : Store) (now : Z) (fresh : string) (body : PostBody.t) :
  let rid := PostBody.restaurantId body in
  let '(response, db') := POST tz db now fresh body in
  (db' = db /\ exists e, response = PostFailed e)
  \/ exists t p c,
       let turn := turnTimeOrDefault (turnTimeRulesFor db rid p) in
       let row := createdRow fresh now body (primaryTableId c) t p turn in
       postValidate tz now body = inr (t, p)
       /\ greedyCandidate (tablesOf db rid) (activeReservationsOf db rid)
            t (JS.addMinutes t turn) p = Some c
       /\ response = PostCreated row
       /\ reservations db' = (reservations db ++ [row])%list
       /\ tables db' = tables db.
Proof.
  cbv zeta. unfold POST.
  destruct (postValidate tz now body) as [e|[t p]] eqn:Hv; [left; eauto|].
  destruct (restaurantById db (PostBody.restaurantId body)) eqn:Hr;
    [|left; eauto].
  destruct (orUndefined _) as [tableId|] eqn:Hfound; [|left; eauto].
  apply orUndefined_inv in Hfound. unfold findAvailableTable in Hfound.
  rewrite Hr, findAvailableTableForSlot_candidate in Hfound.
  destruct (greedyCandidate _ _ _ _ _) as [c|] eqn:Hc; [|discriminate].
  cbn in Hfound. injection Hfound as <-.
  pose proof (reservationCreate_cases db fresh now body (primaryTableId c) t p
                (turnTimeOrDefault (turnTimeRulesFor db (PostBody.restaurantId body) p)))
    as Hcreate.
  destruct (reservationCreate _ _ _ _ _ _ _ _) as [response db'].
  destruct Hcreate as [Hfail|(-> & Hrows & Htables & _)]; [left; exact Hfail|].
  right. exists t, p, c. repeat split; assumption.
Qed.

(** A row on another table does not change what the conflict check sees. *)
Lemma isTableAvailable_other_table (table : Table.t) (rs : list Reservation.t)
    (row : Reservation.t) (keep : bool) (s e : Z) :
  tableIdDiffers (Reservation.tableId row) (Table.id table) = true ->
  isTableAvailable table (rs ++ (if keep then [row] else [])) s e
  = isTableAvailable table rs s e.
Proof.
  intros Hdiff. rewrite !isTableAvailable_conflictFree. unfold conflictFree.
  rewrite forallb_app. destruct keep; cbn [forallb].
  - rewrite Hdiff. cbn. rewrite andb_true_r. reflexivity.
  - apply andb_true_r.
Qed.

(** C10. When a request is seated on a pair of joined tables (t1, t2), the
    stored reservation names t1 only; the conflict check, which compares
    stored table ids, then sees t2 exactly as before, for every slot, and
    still free for the slot just booked.  In the restaurant with two
    joinable tables of 4 to 6 seats, after a party of 11 is seated on both
    at 19:00, a party of 5 asking for 19:00 is given the second table. *)
Theorem joined_booking_leaves_partner_free :
  (forall (tz : Z) (db : Store) (now : Z) (fresh : string) (body : PostBody.t)
          (t p : Z) (t1 t2 : Table.t),
      let rid := PostBody.restaurantId body in
      let turn := turnTimeOrDefault (turnTimeRulesFor db rid p) in
      postValidate tz now body = inr (t, p) ->
      restaurantById db rid <> None ->
      greedyCandidate (tablesOf db rid) (activeReservationsOf db rid)
        t (JS.addMinutes t turn) p = Some (Joined t1 t2) ->
      NoDup (map Table.id (tables db)) ->
      Table.id t1 <> "" ->
      ~ In fresh (map Reservation.id (reservations db)) ->
      In (PostBody.userId body) (users db) ->
      exists row db',
        POST tz db now fresh body = (PostCreated row, db')
        /\ reservations db' = (reservations db ++ [row])%list
        /\ Reservation.tableId row = Some (Table.id t1)
        /\ Table.id t2 <> Table.id t1
        /\ (forall s e,
              isTableAvailable t2 (activeReservationsOf db' rid) s e
              = isTableAvailable t2 (activeReservationsOf db rid) s e)
        /\ isTableAvailable t2 (activeReservationsOf db' rid)
             t (JS.addMinutes t turn) = true)
  /\ (exists row1 db1 row2 db2,
        POST 0 Scenario.twoJoinable (Scenario.noon 0) "res-1"
          (Scenario.book "user-1" "19:00" 11) = (PostCreated row1, db1)
        /\ POST 0 db1 (Scenario.noon 0) "res-2"
             (Scenario.book "user-2" "19:00" 5) = (PostCreated row2, db2)
        /\ Reservation.tableId row1 = Some "table-1"
        /\ Reservation.tableId row2 = Some "table-2"
        /\ overlaps (reservationStart row1) (reservationEnd row1)
                    (reservationStart row2) (reservationEnd row2)).
Proof.
  split.
  - intros tz db now fresh body t p t1 t2 rid turn Hv Hrest Hc Hkey Hid Hfresh Huser.
    pose proof (greedyCandidate_joined _ _ _ _ _ _ _ Hc) as (Hpair & _ & _ & Hfree2).
    assert (Table.id t1 <> Table.id t2) as Hdistinct.
    { apply (orderedPairs_distinct Table.id _ _ _
               (NoDup_map_filter _ _ _ (NoDup_map_filter _ _ _ Hkey)) Hpair). }
    assert (In t1 (tables db)) as Hin1.
    { apply orderedPairs_In in Hpair. destruct Hpair as [Hin _].
      apply filter_In in Hin. destruct Hin as [Hin _].
      apply tablesOf_In in Hin. tauto. }
    assert (fst (POST tz db now fresh body)
            = PostCreated (createdRow fresh now body (Table.id t1) t p turn)) as Hresp.
    { unfold POST. rewrite Hv. fold rid.
      destruct (restaurantById db rid) eqn:Hr; [|congruence].
      unfold findAvailableTable. rewrite Hr, findAvailableTableForSlot_candidate.
      fold turn. rewrite Hc. cbn [option_map primaryTableId].
      rewrite (orUndefined_some _ Hid).
      apply reservationCreate_succeeds; try assumption.
      - subst rid. congruence.
      - apply in_map, Hin1. }
    pose proof (POST_cases tz db now fresh body) as Hcases. cbv zeta in Hcases.
    destruct (POST tz db now fresh body) as [response db'].
    cbn [fst] in Hresp. subst response.
    destruct Hcases as [[_ [e He]]|(t' & p' & c & Hv' & Hc' & Hrow & Hrows & _)];
      [discriminate|].
    rewrite Hv in Hv'. injection Hv' as <- <-.
    fold rid in Hc'. fold turn in Hc'. rewrite Hc in Hc'. injection Hc' as <-.
    cbn [primaryTableId] in Hrows.
    exists (createdRow fresh now body (Table.id t1) t p turn), db'.
    assert (forall s e,
              isTableAvailable t2 (activeReservationsOf db' rid) s e
              = isTableAvailable t2 (activeReservationsOf db rid) s e) as Hsame.
    { intros s e. rewrite (activeReservationsOf_app db db' _ rid Hrows).
      apply isTableAvailable_other_table. cbn.
      apply negb_true_iff, String.eqb_neq. exact Hdistinct. }
    repeat split; try assumption; try reflexivity.
    + congruence.
    + rewrite Hsame, isTableAvailable_conflictFree. exact Hfree2.
  - eexists _, _, _, _.
    split; [vm_compute; reflexivity|].
    split; [vm_compute; reflexivity|].
    split; [reflexivity|]. split; [reflexivity|].
    split; vm_compute; reflexivity.
Qed.

(** The general statement at the restaurant with two joinable tables. *)
Lemma joined_booking_leaves_partner_free_witness :
  exists row db',
    POST 0 Scenario.twoJoinable (Scenario.noon 0) "res-1"
      (Scenario.book "user-1" "19:00" 11) = (PostCreated row, db')
    /\ Reservation.tableId row = Some "table-1"
    /\ isTableAvailable (Scenario.mkTable "table-2" 4 6 true)
         (activeReservationsOf db' Scenario.rid)
         1705345200000 (JS.addMinutes 1705345200000 120) = true.
Proof.
  destruct (proj1 joined_booking_leaves_partner_free 0 Scenario.twoJoinable
              (Scenario.noon 0) "res-1" (Scenario.book "user-1" "19:00" 11)
              1705345200000 11
              (Scenario.mkTable "table-1" 4 6 true) (Scenario.mkTable "table-2" 4 6 true))
    as (row & db' & Hpost & _ & Hid & _ & _ & Hfree).
  - vm_compute. reflexivity.
  - vm_compute. discriminate.
  - vm_compute. reflexivity.
  - cbn. repeat constructor; cbn; intuition discriminate.
  - cbn. discriminate.
  - cbn. tauto.
  - cbn. tauto.
  - exists row, db'. repeat split; assumption.
Defined.

(** ** Invariant I1 under creations *)

Lemma nth_error_snoc {A : Type} (l : list A) (x : A) (i : nat) (a : A) :
  nth_error (l ++ [x]) i = Some a ->
  nth_error l i = Some a \/ (i = List.length l /\ a = x).
Proof.
  intros H. destruct (Nat.lt_ge_cases i (List.length l)) as [Hlt|Hge].
  - left. rewrite nth_error_app1 in H by exact Hlt. exact H.
  - right. rewrite nth_error_app2 in H by exact Hge.
    destruct (i - List.length l)%nat as [|k] eqn:Hk; cbn in H.
    + injection H as <-. split; [lia | reflexivity].
    + destruct k; discriminate.
Qed.

Lemma NoDup_map_injective {A B : Type} (f : A -> B) (l : list A) (a b : A) :
  NoDup (map f l) -> In a l -> In b l -> f a = f b -> a = b.
Proof.
  induction l as [|x l IH]; cbn; [tauto|].
  intros Hnd. inversion Hnd as [|? ? Hnotin Hnd']; subst.
  intros [<-|Ha] [<-|Hb] Heq; try reflexivity.
  - exfalso. apply Hnotin. rewrite Heq. apply in_map, Hb.
  - exfalso. apply Hnotin. rewrite <- Heq. apply in_map, Ha.
  - apply IH; assumption.
Qed.

Lemma overlaps_sym (a a' b b' : Z) : overlaps a a' b b' -> overlaps b b' a a'.
Proof. unfold overlaps. tauto. Qed.

Lemma doubleBooked_sym (r1 r2 : Reservation.t) :
  doubleBooked r1 r2 -> doubleBooked r2 r1.
Proof.
  intros (H1 & H2 & (t & Ht1 & Ht2) & Hov).
  repeat split; try assumption.
  - exists t. tauto.
  - apply Hov.
  - apply Hov.
Qed.

Lemma isActive_statusIn (r : Reservation.t) :
  isActive r <-> statusInPendingConfirmed (Reservation.status r) = true.
Proof.
  unfold isActive, statusInPendingConfirmed.
  destruct (Reservation.status r); cbn; split; intros H;
    try reflexivity; try discriminate; try tauto;
    destruct H; discriminate.
Qed.

Section Sequential.

Variable tz : Z.

(** A request that runs from its check to its write without another write
    in between keeps the invariant. *)
Lemma POST_keeps_invariant (db : Store) (now : Z) (fresh : string)
    (body : PostBody.t) :
  StoreInvariant db -> StoreInvariant (snd (POST tz db now fresh body)).
Proof.
  intros [[Hkey Hown] Hfree].
  pose proof (POST_cases tz db now fresh body) as Hcases. cbv zeta in Hcases.
  destruct (POST tz db now fresh body) as [response db']. cbn [snd].
  destruct Hcases as [[-> _]|(t & p & c & Hv & Hc & _ & Hrows & Htables)].
  { split; [split|]; assumption. }
  set (rid := PostBody.restaurantId body) in *.
  set (turn := turnTimeOrDefault (turnTimeRulesFor db rid p)) in *.
  set (row := createdRow fresh now body (primaryTableId c) t p turn) in *.
  destruct (greedyCandidate_primary_free _ _ _ _ _ _ Hc) as (t0 & Hin0 & Hid0 & Hfree0).
  apply tablesOf_In in Hin0. destruct Hin0 as [Hin0 Hrid0].
  assert (forall r, In r (reservations db) -> isActive r ->
            Reservation.tableId r = Some (primaryTableId c) ->
            ~ overlaps t (JS.addMinutes t turn) (reservationStart r) (reservationEnd r))
    as Hclear.
  { intros r Hin Hact Htab Hov.
    rewrite <- Hid0 in Htab.
    assert (In r (activeReservationsOf db rid)) as Hseen.
    { unfold activeReservationsOf. apply filter_In. split; [exact Hin|].
      apply andb_true_iff. split.
      - apply String.eqb_eq. rewrite <- (Hown r t0 Hin Hin0 Htab). exact Hrid0.
      - apply isActive_statusIn, Hact. }
    apply (proj1 (conflictFree_true t0 t (JS.addMinutes t turn) _) Hfree0 r Hseen).
    split; assumption. }
  split; [split|].
  - rewrite Htables. exact Hkey.
  - rewrite Htables, Hrows. intros r table Hin Htable Htab.
    apply in_app_iff in Hin. destruct Hin as [Hin|[<-|[]]].
    + apply Hown; assumption.
    + cbn in Htab. injection Htab as Htab. rewrite <- Hid0 in Htab.
      rewrite (NoDup_map_injective Table.id _ _ _ Hkey Htable Hin0 (eq_sym Htab)).
      exact Hrid0.
  - rewrite Hrows. intros i j r1 r2 Hij H1 H2 Hdb.
    apply nth_error_snoc in H1, H2.
    destruct H1 as [H1|[Hi ->]], H2 as [H2|[Hj ->]].
    + exact (Hfree i j r1 r2 Hij H1 H2 Hdb).
    + destruct Hdb as (Hact & _ & (tid & Ht1 & Ht2) & Hov).
      cbn in Ht2. injection Ht2 as <-.
      apply (Hclear r1 (nth_error_In _ _ H1) Hact Ht1).
      apply overlaps_sym. exact Hov.
    + destruct Hdb as (_ & Hact & (tid & Ht1 & Ht2) & Hov).
      cbn in Ht1. injection Ht1 as <-.
      apply (Hclear r2 (nth_error_In _ _ H2) Hact Ht2). exact Hov.
    + lia.
Qed.

Lemma serveAll_keeps_invariant (requests : list PostRequest) :
  forall db, StoreInvariant db -> StoreInvariant (serveAll tz db requests).
Proof.
  induction requests as [|req requests IH]; intros db Hinv; [exact Hinv|].
  cbn. apply IH, POST_keeps_invariant, Hinv.
Qed.

(** A request that runs alone takes its three steps to the result of
    [POST]. *)
Lemma postStep_thrice (db : Store) (req : PostRequest) :
  let '(pc1, db1) := postStep tz db req AtRestaurantQuery in
  let '(pc2, db2) := postStep tz db1 req pc1 in
  let '(pc3, db3) := postStep tz db2 req pc2 in
  (pc3, db3)
  = (Finished (fst (POST tz db (req_now req) (req_fresh req) (req_body req))),
     snd (POST tz db (req_now req) (req_fresh req) (req_body req))).
Proof.
  unfold POST. cbn [postStep].
  destruct (postValidate tz (req_now req) (req_body req)) as [e|[t p]];
    [reflexivity|].
  destruct (restaurantById db (PostBody.restaurantId (req_body req)));
    [|reflexivity].
  cbn [postStep].
  destruct (orUndefined _) as [tableId|]; [|reflexivity].
  cbn [postStep].
  destruct (reservationCreate _ _ _ _ _ _ _ _). reflexivity.
Qed.

End Sequential.

(** ** Two requests racing for one slot *)

Lemma NoDoubleBooking_short (rows : list Reservation.t) :
  (List.length rows <= 1)%nat -> NoDoubleBooking rows.
Proof.
  intros Hlen i j r1 r2 Hij H1 H2.
  assert (i < List.length rows)%nat by (apply nth_error_Some; congruence).
  assert (j < List.length rows)%nat by (apply nth_error_Some; congruence).
  lia.
Qed.

(** C1 on the code.  Two requests for the only table at 19:00, in the
    store that holds no reservation.  Served one after the other, the first
    is created and the second is refused for lack of a table.  Interleaved
    so that both run their availability check before either writes, both
    are created on the same table for the same interval: the store then
    breaks invariant I1. *)
Theorem interleaved_creations_double_book :
  StoreInvariant Scenario.oneTable
  /\ (exists procs db',
        runSchedule 0 (sequentialSchedule 0 2) Scenario.oneTable
          (issue (Scenario.racers 0)) = (procs, db')
        /\ (exists row, map snd procs
                        = [Finished (PostCreated row);
                           Finished (PostFailed NoAvailableTables)])
        /\ NoDoubleBooking (reservations db'))
  /\ (exists procs db' row1 row2,
        runSchedule 0 Scenario.interleaved Scenario.oneTable
          (issue (Scenario.racers 0)) = (procs, db')
        /\ map snd procs
           = [Finished (PostCreated row1); Finished (PostCreated row2)]
        /\ reservations db' = [row1; row2]
        /\ doubleBooked row1 row2
        /\ ~ NoDoubleBooking (reservations db')).
Proof.
  split; [|split].
  - split; [split|].
    + cbn. repeat constructor. cbn. tauto.
    + intros r table []. 
    + apply NoDoubleBooking_short. cbn. lia.
  - eexists _, _. split; [vm_compute; reflexivity|].
    split; [eexists; reflexivity|].
    apply NoDoubleBooking_short. cbn. lia.
  - eexists _, _, _, _. split; [vm_compute; reflexivity|].
    split; [reflexivity|]. split; [reflexivity|].
    assert (forall r1 r2 : Reservation.t,
              r1 = Scenario.mkReservationAt "res-1" CONFIRMED 1705345200000
                     1705320000000 ->
              Reservation.status r2 = CONFIRMED ->
              Reservation.tableId r2 = Some "table-1" ->
              Reservation.reservationTime r2 = 1705345200000 ->
              Reservation.turnTimeUsed r2 = 90 ->
              doubleBooked r1 r2) as Hdouble.
    { intros r1 r2 -> Hs Ht Htime Hturn.
      unfold doubleBooked, isActive, overlaps, reservationStart, reservationEnd.
      rewrite Hs, Ht, Htime, Hturn. cbn.
      repeat split; try (right; reflexivity).
      exists "table-1". split; reflexivity. }
    split.
    + apply Hdouble; reflexivity.
    + intros Hfree. apply (Hfree 0%nat 1%nat _ _ ltac:(lia) eq_refl eq_refl).
      apply Hdouble; reflexivity.
Qed.

(** ** Strings and dates: the label of a slot denotes its start *)

Lemma split_nonempty (sep : ascii) (s : string) : JS.split sep s <> [].
Proof.
  destruct s as [|c s]; cbn; [discriminate|].
  destruct (Ascii.eqb c sep); [discriminate|].
  destruct (JS.split sep s); discriminate.
Qed.

(** Splitting at a separator splits the two sides. *)
Lemma split_app_sep (sep : ascii) (a b : string) :
  JS.split sep (a ++ String sep b) = (JS.split sep a ++ JS.split sep b)%list.
Proof.
  induction a as [|c a IH]; cbn.
  - rewrite Ascii.eqb_refl. reflexivity.
  - rewrite IH. destruct (Ascii.eqb c sep); [reflexivity|].
    pose proof (split_nonempty sep a) as Hne.
    destruct (JS.split sep a); [contradiction | reflexivity].
Qed.

(** A string that splits into one piece is that piece. *)
Lemma split_single (sep : ascii) (s piece : string) :
  JS.split sep s = [piece] -> piece = s.
Proof.
  revert piece. induction s as [|c s IH]; cbn; intros piece H.
  - congruence.
  - destruct (Ascii.eqb c sep).
    + pose proof (split_nonempty sep s). destruct (JS.split sep s); congruence.
    + pose proof (split_nonempty sep s) as Hne.
      destruct (JS.split sep s) as [|p [|q ps]] eqn:Hs;
        [contradiction | | discriminate].
      injection H as <-. rewrite (IH p eq_refl). reflexivity.
Qed.

Lemma digitOf_not_space (c : ascii) :
  JS.digitOf c <> None -> JS.isWhiteSpace c = false.
Proof.
  destruct c as [[] [] [] [] [] [] [] []]; intros H; try reflexivity;
    exfalso; apply H; reflexivity.
Qed.

(** A run of digits has no white space to trim. *)
Lemma digitsValue_trim (s : string) (acc v : Z) :
  JS.digitsValue s acc = Some v -> JS.trim s = s.
Proof.
  intros H.
  assert (JS.trimEnd s = s) as Hend.
  { revert acc H. induction s as [|c s IH]; intros acc H; [reflexivity|].
    cbn [JS.digitsValue] in H. cbn [JS.trimEnd].
    destruct (JS.digitOf c) as [d|] eqn:Hd; [|discriminate].
    rewrite (IH _ H), digitOf_not_space by congruence.
    destruct s; reflexivity. }
  unfold JS.trim. destruct s as [|c s]; [reflexivity|].
  cbn [JS.digitsValue] in H. cbn [JS.trimStart].
  destruct (JS.digitOf c) eqn:Hd; [|discriminate].
  rewrite digitOf_not_space by congruence. exact Hend.
Qed.

Lemma digitsValue_Number_of (s : string) (v : Z) :
  s <> "" -> JS.digitsValue s 0 = Some v -> JS.Number_of s = Some v.
Proof.
  destruct s as [|c s]; [congruence|]. intros _ H.
  unfold JS.Number_of. rewrite (digitsValue_trim _ _ _ H).
  assert (JS.digitOf c <> None) as Hdigit.
  { cbn in H. destruct (JS.digitOf c); [discriminate | discriminate H]. }
  destruct c as [[] [] [] [] [] [] [] []]; try exact H;
    try (exfalso; apply Hdigit; reflexivity).
  destruct s as [|c2 s]; [exact H|].
  assert (JS.digitOf c2 <> None) as Hdigit2.
  { cbn in H. destruct (JS.digitOf c2); [discriminate | discriminate H]. }
  destruct c2 as [[] [] [] [] [] [] [] []]; try exact H;
    try (exfalso; apply Hdigit2; reflexivity).
Qed.

Lemma fixedDigits_Number_of (n : nat) (s : string) (v : Z) :
  JS.fixedDigits (S n) s = Some v -> JS.Number_of s = Some v.
Proof.
  unfold JS.fixedDigits. destruct (Nat.eqb_spec (String.length s) (S n)) as [Hlen|];
    [|discriminate].
  apply digitsValue_Number_of. destruct s; [discriminate Hlen | discriminate].
Qed.

Lemma inRange_inv (lo hi : Z) (o : option Z) (v : Z) :
  JS.inRange lo hi o = Some v -> o = Some v /\ lo <= v <= hi.
Proof.
  destruct o as [x|]; cbn; [|discriminate].
  destruct ((lo <=? x) && (x <=? hi)) eqn:H; [|discriminate].
  intros [= <-]. apply andb_true_iff in H. destruct H as [H1 H2].
  apply Z.leb_le in H1, H2. split; [reflexivity | lia].
Qed.

(** An ISO date splits into three numbers: its year, month and day. *)
Lemma isoDay_parts (date : string) (day : Z) :
  JS.isoDay date = Some day ->
  exists y m d,
    map JS.Number_of (JS.split "-" date) = [Some y; Some m; Some d]
    /\ 1 <= m <= 12 /\ 1 <= d <= 31
    /\ day = JS.MakeDay y (m - 1) d.
Proof.
  unfold JS.isoDay.
  destruct (JS.split "-" date) as [|ys [|ms [|ds [|]]]]; try discriminate.
  destruct (JS.fixedDigits 4 ys) as [y|] eqn:Hy; [|discriminate].
  destruct (JS.inRange 1 12 _) as [m|] eqn:Hm; [|discriminate].
  destruct (JS.inRange 1 31 _) as [d|] eqn:Hd; [|discriminate].
  intros [= <-].
  apply inRange_inv in Hm, Hd. destruct Hm as [Hm Hmr], Hd as [Hd Hdr].
  exists y, m, d. cbn [map].
  rewrite (fixedDigits_Number_of _ _ _ Hy), (fixedDigits_Number_of _ _ _ Hm),
    (fixedDigits_Number_of _ _ _ Hd).
  repeat split; lia.
Qed.

(** The bound of the query is a valid Date only for an ISO date without a
    time part. *)
Lemma newDate_midnight_inv (tz : Z) (date : string) (gte : Z) :
  JS.newDate tz (date ++ "T00:00:00") = Some gte ->
  JS.split "T" date = [date] /\ exists day, JS.isoDay date = Some day.
Proof.
  unfold JS.newDate.
  change (date ++ "T00:00:00") with (date ++ String "T" "00:00:00").
  rewrite split_app_sep.
  change (JS.split "T" "00:00:00") with ["00:00:00"].
  pose proof (split_nonempty "T" date) as Hne.
  destruct (JS.split "T" date) as [|d [|d' rest]] eqn:Hsplit; [contradiction| |].
  - cbn [app]. rewrite (split_single _ _ _ Hsplit).
    destruct (JS.isoDay date) as [day|]; [|discriminate].
    intros _. split; [reflexivity | eauto].
  - cbn [app]. destruct rest; cbn [app]; discriminate.
Qed.

Lemma label_roundtrip (m : Z) :
  0 <= m < 1440 ->
  JS.split "T" (labelOf m ++ ":00") = [labelOf m ++ ":00"]
  /\ JS.isoClock (labelOf m ++ ":00") = Some (m * JS.msPerMinute, None).
Proof.
  intros Hm.
  pose (check := fun n : nat =>
          let m := Z.of_nat n in
          match JS.split "T" (labelOf m ++ ":00"), JS.isoClock (labelOf m ++ ":00") with
          | [piece], Some (ms, None) =>
              String.eqb piece (labelOf m ++ ":00") && (ms =? m * JS.msPerMinute)
          | _, _ => false
          end).
  assert (forallb check (seq 0 1440) = true) as Hall by (vm_compute; reflexivity).
  rewrite forallb_forall in Hall.
  specialize (Hall (Z.to_nat m)).
  assert (In (Z.to_nat m) (seq 0 1440)) as Hin by (apply in_seq; lia).
  specialize (Hall Hin). unfold check in Hall. cbv zeta in Hall.
  rewrite Z2Nat.id in Hall by lia.
  destruct (JS.split "T" (labelOf m ++ ":00")) as [|piece [|]]; try discriminate.
  destruct (JS.isoClock (labelOf m ++ ":00")) as [[ms [off|]]|]; try discriminate.
  apply andb_true_iff in Hall. destruct Hall as [H1 H2].
  apply String.eqb_eq in H1. apply Z.eqb_eq in H2. subst. split; reflexivity.
Qed.

(** The date-time string of a slot label parses to the instant of that
    wall-clock time on the date. *)
Lemma newDate_slotDateTime (tz : Z) (date : string) (day start : Z) :
  JS.split "T" date = [date] ->
  JS.isoDay date = Some day ->
  let m := (start + tz * JS.msPerMinute) / JS.msPerMinute - day * 1440 in
  0 <= m < 1440 ->
  start mod JS.msPerMinute = 0 ->
  JS.newDate tz (slotDateTime date (JS.formatHHmm tz start)) = Some start.
Proof.
  intros Hsplit Hday m Hm Hwhole.
  assert (((start + tz * JS.msPerMinute) / JS.msPerMinute) mod 1440 = m) as Hmod.
  { subst m. symmetry. apply Z.mod_unique_pos with (q := day); lia. }
  unfold slotDateTime, JS.formatHHmm. cbv zeta. rewrite Hmod.
  fold (labelOf m).
  change (date ++ "T" ++ labelOf m ++ ":00")
    with (date ++ String "T" (labelOf m ++ ":00")).
  unfold JS.newDate. rewrite split_app_sep, Hsplit.
  destruct (label_roundtrip m Hm) as [-> Htime].
  cbn [app]. rewrite Hday, Htime. cbv beta iota zeta. f_equal.
  subst m. unfold JS.msPerDay, JS.msPerMinute in *.
  rewrite Z.div_add in * by lia.
  pose proof (Z.div_mod start 60000 ltac:(lia)) as Hdm.
  lia.
Qed.

(** ** Degraded cases of GetAvailability *)

Lemma numStrictEq_false (x : Z) (d : JS.num) :
  Some x <> d -> numStrictEq (Some x) d = false.
Proof.
  destruct d as [y|]; cbn; [|reflexivity].
  intros H. apply Z.eqb_neq. congruence.
Qed.

(** At or east of UTC, and less than a day from it, the day of the week the
    code resolves is the one of the calendar date. *)
Lemma dayOfWeekOf_east (tz : Z) (date : string) :
  validDate tz date -> 0 <= tz < 1440 ->
  dayOfWeekOf tz date = calendarDayOfWeek date.
Proof.
  intros [Hgte _] Htz.
  destruct (JS.newDate tz (date ++ "T00:00:00")) as [gte|] eqn:Hparse;
    [|congruence].
  destruct (newDate_midnight_inv tz date gte Hparse) as [Hsplit [day Hday]].
  unfold dayOfWeekOf, calendarDayOfWeek, JS.getDay, JS.newDate.
  rewrite Hsplit, Hday. cbn [option_map]. do 2 f_equal.
  unfold JS.msPerDay, JS.msPerMinute.
  rewrite Z.div_add_l by lia. rewrite Z.div_small by lia. lia.
Qed.

(** C9, as the code behaves.  For a date [YYYY-MM-DD], GetAvailability
    returns the empty slot list, and does not throw: when the restaurant
    does not exist; when no operating-hours row of the restaurant has the
    day of the week the code resolves for the date, which on a server at or
    east of UTC is the day of the week of the date; and when, with [openT]
    and [closeT] the opening and closing instants of that day, [openT] is
    after [closeT], or after [closeT] minus the turn time, or the turn time
    is not positive or exceeds 480 minutes.  The turn time is the one in
    force: that of the first matching rule, and 120 minutes when there is no
    rule or the rule says 0, so it is never 0. *)
Theorem availability_degrades_to_no_slots :
  forall (tz : Z) (db : Store) (restaurantId date : string) (partySize : Z),
    validDate tz date ->
    let turnTime := turnTimeOrDefault (turnTimeRulesFor db restaurantId partySize) in
    (restaurantById db restaurantId = None ->
     calculateAvailability tz db restaurantId date partySize = Returns [])
    /\ ((forall oh, In oh (operatingHoursOf db restaurantId) ->
           Some (OperatingHours.dayOfWeek oh) <> dayOfWeekOf tz date) ->
        calculateAvailability tz db restaurantId date partySize = Returns [])
    /\ (0 <= tz < 1440 ->
        dayOfWeekOf tz date = calendarDayOfWeek date
        /\ ((forall oh, In oh (operatingHoursOf db restaurantId) ->
               Some (OperatingHours.dayOfWeek oh) <> calendarDayOfWeek date) ->
            calculateAvailability tz db restaurantId date partySize = Returns []))
    /\ (forall oh openT closeT,
          operatingHourOn tz db restaurantId date = Some oh ->
          wallClock tz date (OperatingHours.openTime oh) = Some openT ->
          wallClock tz date (OperatingHours.closeTime oh) = Some closeT ->
          closeT < openT \/ JS.addMinutes closeT (- turnTime) < openT
          \/ turnTime <= 0 \/ 480 < turnTime ->
          calculateAvailability tz db restaurantId date partySize = Returns [])
    /\ turnTime <> 0
    /\ (turnTimeRulesFor db restaurantId partySize = [] -> turnTime = 120)
    /\ (forall rule rules,
          turnTimeRulesFor db restaurantId partySize = rule :: rules ->
          (TurnTimeRule.turnTimeInMinutes rule = 0 -> turnTime = 120)
          /\ (TurnTimeRule.turnTimeInMinutes rule <> 0 ->
              turnTime = TurnTimeRule.turnTimeInMinutes rule)).
Proof.
  intros tz db restaurantId date partySize Hvalid turnTime.
  assert ((forall oh, In oh (operatingHoursOf db restaurantId) ->
             Some (OperatingHours.dayOfWeek oh) <> dayOfWeekOf tz date) ->
          calculateAvailability tz db restaurantId date partySize = Returns [])
    as Hclosed.
  { destruct Hvalid as [Hgte Hlt]. unfold calculateAvailability.
    destruct (JS.newDate tz (date ++ "T00:00:00")) as [gte|]; [|congruence].
    destruct (JS.newDate tz (date ++ "T23:59:59")) as [lt|]; [|congruence].
    intros Hnone.
    destruct (restaurantById db restaurantId); [|reflexivity].
    cbv zeta.
    assert (find (fun oh => numStrictEq (Some (OperatingHours.dayOfWeek oh))
                              (JS.getDay tz (JS.newDate tz date)))
                 (operatingHoursOf db restaurantId) = None) as ->.
    { apply find_none_iff. intros oh Hin.
      apply numStrictEq_false, Hnone, Hin. }
    reflexivity. }
  split; [|split; [exact Hclosed|split; [|split; [|split; [|split]]]]].
  - destruct Hvalid as [Hgte Hlt]. unfold calculateAvailability.
    destruct (JS.newDate tz (date ++ "T00:00:00")) as [gte|]; [|congruence].
    destruct (JS.newDate tz (date ++ "T23:59:59")) as [lt|]; [|congruence].
    intros ->. reflexivity.
  - intros Htz. pose proof (dayOfWeekOf_east tz date Hvalid Htz) as Hday.
    split; [exact Hday|]. rewrite <- Hday. exact Hclosed.
  - destruct Hvalid as [Hgte Hlt]. unfold calculateAvailability.
    destruct (JS.newDate tz (date ++ "T00:00:00")) as [gte|]; [|congruence].
    destruct (JS.newDate tz (date ++ "T23:59:59")) as [lt|]; [|congruence].
    intros oh openT closeT Hoh Hopen Hclose Hbad.
    destruct (restaurantById db restaurantId); [|reflexivity].
    cbv zeta. unfold operatingHourOn, dayOfWeekOf in Hoh. rewrite Hoh.
    fold turnTime.
    unfold wallClock in Hopen, Hclose.
    destruct (map JS.Number_of (JS.split "-" date))
      as [|year [|month [|day [|]]]]; try discriminate.
    destruct (map JS.Number_of (JS.split ":" (OperatingHours.openTime oh)))
      as [|openHour [|openMinute [|]]]; try discriminate.
    destruct (map JS.Number_of (JS.split ":" (OperatingHours.closeTime oh)))
      as [|closeHour [|closeMinute [|]]]; try discriminate.
    destruct (_ || _); [reflexivity|].
    destruct (_ || _); [reflexivity|].
    rewrite Hopen, Hclose.
    unfold JS.isAfter. rewrite !Z.gtb_ltb.
    destruct (closeT <? openT) eqn:H1; [reflexivity|].
    destruct (JS.addMinutes closeT (- turnTime) <? openT) eqn:H2; [reflexivity|].
    destruct ((turnTime <=? 0) || (480 <? turnTime)) eqn:H3; [reflexivity|].
    exfalso. apply Z.ltb_ge in H1, H2. apply orb_false_iff in H3.
    destruct H3 as [H3 H4]. apply Z.leb_gt in H3. apply Z.ltb_ge in H4.
    lia.
  - subst turnTime. unfold turnTimeOrDefault.
    destruct (turnTimeRulesFor db restaurantId partySize) as [|rule rules];
      [discriminate|].
    destruct (Z.eqb_spec (TurnTimeRule.turnTimeInMinutes rule) 0);
      [discriminate | assumption].
  - subst turnTime. intros ->. reflexivity.
  - subst turnTime. intros rule rules ->. cbn [turnTimeOrDefault].
    destruct (Z.eqb_spec (TurnTimeRule.turnTimeInMinutes rule) 0);
      split; intros; [reflexivity | contradiction | contradiction | reflexivity].
Qed.

(** Outside the three cases: an opening time that does not parse to numbers
    passes the range checks (every comparison with NaN is false), the
    constructed Date is invalid, and the error message's [toISOString]
    throws. *)
Remark malformed_opening_time_throws :
  calculateAvailability 0 Scenario.malformedHours Scenario.rid Scenario.date 2 = Throws.
Proof. vm_compute. reflexivity. Qed.

(** [new Date(date)] is UTC midnight and [getDay] is local: west of UTC the
    code resolves the day before (2024-01-15 is a Monday). *)
Remark day_of_week_west_of_utc :
  dayOfWeekOf 0 "2024-01-15" = Some 1 /\ dayOfWeekOf (-300) "2024-01-15" = Some 0.
Proof. split; vm_compute; reflexivity. Qed.

(** The cases at concrete inputs: an unknown restaurant; a Monday at a
    restaurant open on Wednesdays only; a Wednesday with turn times of 500
    and of -30 minutes. *)
Lemma availability_degrades_to_no_slots_witness :
  validDate 0 "2024-01-15"
  /\ calculateAvailability 0 Scenario.oneTable "no-such-restaurant" "2024-01-15" 2
     = Returns []
  /\ calendarDayOfWeek "2024-01-15" = Some 1
  /\ calculateAvailability 0 Scenario.wednesdays Scenario.rid "2024-01-15" 2
     = Returns []
  /\ calculateAvailability 0 Scenario.wednesdays Scenario.rid "2024-01-17" 7
     = Returns []
  /\ calculateAvailability 0 Scenario.wednesdays Scenario.rid "2024-01-17" 9
     = Returns [].
Proof.
  assert (validDate 0 "2024-01-15") as Hmon by (split; vm_compute; discriminate).
  assert (validDate 0 "2024-01-17") as Hwed by (split; vm_compute; discriminate).
  split; [exact Hmon|]. split; [|split; [reflexivity|split; [|split]]].
  - apply (proj1 (availability_degrades_to_no_slots 0 Scenario.oneTable
             "no-such-restaurant" "2024-01-15" 2 Hmon)).
    reflexivity.
  - apply (proj2 (proj1 (proj2 (proj2 (availability_degrades_to_no_slots 0
             Scenario.wednesdays Scenario.rid "2024-01-15" 2 Hmon)))
             ltac:(lia))).
    intros oh [<-|[]]. vm_compute. discriminate.
  - refine (proj1 (proj2 (proj2 (proj2 (availability_degrades_to_no_slots 0
             Scenario.wednesdays Scenario.rid "2024-01-17" 7 Hwed))))
             _ 1705510800000 1705528800000 _ _ _ _);
      [vm_compute; reflexivity ..|].
    vm_compute. right. right. right. reflexivity.
  - refine (proj1 (proj2 (proj2 (proj2 (availability_degrades_to_no_slots 0
             Scenario.wednesdays Scenario.rid "2024-01-17" 9 Hwed))))
             _ 1705510800000 1705528800000 _ _ _ _);
      [vm_compute; reflexivity ..|].
    vm_compute. right. right. left. discriminate.
Defined.

(** C9, as stated, fails in two ways.  West of UTC the code resolves the
    day before the date: the restaurant open on Wednesdays only has no row
    for Thursday 2024-01-18, and a server at UTC-05:00 returns for that
    date the eight slots of a Wednesday.  And a turn time of 0 minutes,
    which is not positive, is replaced by 120 minutes: the slots 17:00 to
    20:00 are returned. *)
Lemma closed_day_and_zero_turn_time_return_slots :
  (calendarDayOfWeek "2024-01-18" = Some 4
   /\ (forall oh, In oh (operatingHoursOf Scenario.wednesdays Scenario.rid) ->
         OperatingHours.dayOfWeek oh <> 4)
   /\ calculateAvailability (-300) Scenario.wednesdays Scenario.rid "2024-01-18" 2
      = Returns Scenario.allFree)
  /\ (map TurnTimeRule.turnTimeInMinutes
         (turnTimeRulesFor Scenario.zeroTurn Scenario.rid 2) = [0]
      /\ calculateAvailability 0 Scenario.zeroTurn Scenario.rid Scenario.date 2
         = Returns Scenario.freeUntil2000)
  /\ Scenario.allFree <> [] /\ Scenario.freeUntil2000 <> [].
Proof.
  split; [split; [reflexivity|split]|split; [split|split]].
  - intros oh [<-|[]]. discriminate.
  - vm_compute. reflexivity.
  - reflexivity.
  - vm_compute. reflexivity.
  - discriminate.
  - discriminate.
Qed.

(** ** GetAvailability against Create *)

Lemma numLt_false_some (x : Z) (y : Z) : numLt (Some x) (Some y) = false -> y <= x.
Proof. cbn. apply Z.ltb_ge. Qed.

Lemma numGt_false_some (x : Z) (y : Z) : numGt (Some x) (Some y) = false -> x <= y.
Proof. cbn. apply Z.ltb_ge. Qed.

Lemma Returns_inj {A : Type} (a b : A) : Returns a = Returns b -> a = b.
Proof.
  intros H.
  change (match Returns a with Returns x => x | Throws => a end = b).
  rewrite H. reflexivity.
Qed.

(** Every slot GetAvailability returns is the slot of a start time, built
    from the restaurant's tables and its active reservations of the day,
    and the date-time string of its label parses back to that start. *)
Lemma calculateAvailability_slot (tz : Z) (db : Store) (rid date : string) (p : Z)
    (slots : list AvailabilitySlot) (k : nat) (slot : AvailabilitySlot) :
  calculateAvailability tz db rid date p = Returns slots ->
  nth_error slots k = Some slot ->
  exists gte lt start,
    restaurantById db rid <> None
    /\ slot = slotAt tz (tablesOf db rid) (activeReservationsOn db rid gte lt) p
                (turnTimeOrDefault (turnTimeRulesFor db rid p)) start
    /\ JS.newDate tz (slotDateTime date (time slot)) = Some start.
Proof.
  intros Hcalc Hnth. unfold calculateAvailability in Hcalc.
  destruct (JS.newDate tz (date ++ "T00:00:00")) as [gte|] eqn:Hgte; [|discriminate].
  destruct (JS.newDate tz (date ++ "T23:59:59")) as [lt|]; [|discriminate].
  destruct (newDate_midnight_inv tz date gte Hgte) as [Hsplit [dayNo Hday]].
  destruct (isoDay_parts date dayNo Hday) as (y & m & d & Hparts & Hm & Hd & HdayNo).
  assert (Returns (@nil AvailabilitySlot) = Returns slots -> False) as Hempty.
  { intros Heq. apply Returns_inj in Heq. subst slots. destruct k; discriminate. }
  destruct (restaurantById db rid) eqn:Hrest;
    [|exfalso; exact (Hempty Hcalc)].
  cbv zeta in Hcalc.
  destruct (find _ (operatingHoursOf db rid)) as [oh|];
    [|exfalso; exact (Hempty Hcalc)].
  rewrite Hparts in Hcalc.
  set (turn := turnTimeOrDefault (turnTimeRulesFor db rid p)) in *.
  destruct (map JS.Number_of (JS.split ":" (OperatingHours.openTime oh)))
    as [|openHour [|openMinute [|]]];
    try (exfalso; exact (Hempty Hcalc)).
  destruct (map JS.Number_of (JS.split ":" (OperatingHours.closeTime oh)))
    as [|closeHour [|closeMinute [|]]];
    try (exfalso; exact (Hempty Hcalc)).
  match type of Hcalc with
  | (if ?c then _ else _) = _ =>
      destruct c eqn:Hdate; [exfalso; exact (Hempty Hcalc)|]
  end.
  match type of Hcalc with
  | (if ?c then _ else _) = _ =>
      destruct c eqn:Htimes; [exfalso; exact (Hempty Hcalc)|]
  end.
  destruct openHour as [oH|], openMinute as [oM|], closeHour as [cH|],
           closeMinute as [cM|]; try discriminate Hcalc.
  repeat (apply orb_false_iff in Hdate; destruct Hdate as [Hdate ?]).
  repeat (apply orb_false_iff in Htimes; destruct Htimes as [Htimes ?]).
  repeat match goal with
         | H : numLt (Some _) (Some _) = false |- _ => apply numLt_false_some in H
         | H : numGt (Some _) (Some _) = false |- _ => apply numGt_false_some in H
         end.
  cbn [JS.newDateLocal numMinus option_map] in Hcalc.
  assert (((0 <=? y) && (y <=? 99)) = false) as Hyear.
  { apply andb_false_iff. right. apply Z.leb_gt. lia. }
  rewrite Hyear in Hcalc. rewrite <- HdayNo in Hcalc.
  set (openTime := (dayNo * 1440 + oH * 60 + oM - tz) * JS.msPerMinute) in *.
  set (closeTime := (dayNo * 1440 + cH * 60 + cM - tz) * JS.msPerMinute) in *.
  destruct (JS.isAfter openTime closeTime);
    [exfalso; exact (Hempty Hcalc)|].
  destruct (JS.isAfter openTime _);
    [exfalso; exact (Hempty Hcalc)|].
  destruct ((turn <=? 0) || (turn >? 480)) eqn:Hturn;
    [exfalso; exact (Hempty Hcalc)|].
  apply orb_false_iff in Hturn. destruct Hturn as [Hturn _].
  apply Z.leb_gt in Hturn.
  apply Returns_inj in Hcalc. rewrite <- Hcalc in Hnth. clear Hcalc.
  rewrite slotLoop_slotStarts, nth_error_map in Hnth.
  destruct (nth_error (slotStarts openTime _) k) as [start|] eqn:Hstart;
    [|discriminate].
  cbn [option_map] in Hnth. injection Hnth as <-.
  apply slotStarts_nth in Hstart. destruct Hstart as [Hstart Hlast].
  exists gte, lt, start. split; [discriminate|]. split; [reflexivity|].
  cbn [time slotAt].
  apply (newDate_slotDateTime tz date dayNo start Hsplit Hday).
  - subst start openTime closeTime.
    unfold JS.addMinutes, JS.msPerMinute in *.
    replace ((dayNo * 1440 + oH * 60 + oM - tz) * 60000 + 30 * Z.of_nat k * 60000
             + tz * 60000)
      with ((dayNo * 1440 + oH * 60 + oM + 30 * Z.of_nat k) * 60000) by lia.
    rewrite Z.div_mul by lia. lia.
  - subst start openTime. unfold JS.addMinutes, JS.msPerMinute.
    replace ((dayNo * 1440 + oH * 60 + oM - tz) * 60000 + 30 * Z.of_nat k * 60000)
      with ((dayNo * 1440 + oH * 60 + oM - tz + 30 * Z.of_nat k) * 60000) by lia.
    apply Z.mod_mul. lia.
Qed.

Lemma activeReservationsOn_incl (db : Store) (rid : string) (gte lt : Z) :
  incl (activeReservationsOn db rid gte lt) (activeReservationsOf db rid).
Proof.
  intros r Hin. unfold activeReservationsOn in Hin.
  apply filter_In in Hin. tauto.
Qed.

Lemma slotDateTime_truthy (date label : string) :
  JS.truthy (slotDateTime date label) = true.
Proof.
  unfold slotDateTime. destruct date; reflexivity.
Qed.

(** C6, as the code behaves.  When GetAvailability reports a slot
    unavailable, a creation for the same restaurant, the date-time of that
    slot and the same party size, on the same store, fails and stores
    nothing; the failure is the no-availability error whenever the request
    passes the handler's own validation (restaurant and user ids present,
    party size from 1 to 20, time not in the past). *)
Theorem unavailable_slot_cannot_be_booked :
  forall (tz : Z) (db : Store) (rid date : string) (p : Z)
         (slots : list AvailabilitySlot) (k : nat) (slot : AvailabilitySlot)
         (now : Z) (fresh : string) (body : PostBody.t),
    calculateAvailability tz db rid date p = Returns slots ->
    nth_error slots k = Some slot ->
    available slot = false ->
    PostBody.restaurantId body = rid ->
    PostBody.reservationTime body = slotDateTime date (time slot) ->
    PostBody.partySize body = JNumber p ->
    (exists e, POST tz db now fresh body = (PostFailed e, db))
    /\ (rid <> "" -> PostBody.userId body <> "" -> 1 <= p <= 20 ->
        (forall t, JS.newDate tz (PostBody.reservationTime body) = Some t -> now <= t) ->
        POST tz db now fresh body = (PostFailed NoAvailableTables, db)).
Proof.
  intros tz db rid date p slots k slot now fresh body Hcalc Hnth Hbusy Hrid Htime Hsize.
  destruct (calculateAvailability_slot tz db rid date p slots k slot Hcalc Hnth)
    as (gte & lt & start & Hrest & Hslot & Hparse).
  set (turn := turnTimeOrDefault (turnTimeRulesFor db rid p)) in *.
  assert (findAvailableTable db rid start p turn = None) as Hnone.
  { unfold findAvailableTable.
    destruct (restaurantById db rid); [|reflexivity].
    apply (findAvailableTableForSlot_none_incl _ _ _ _ _ _
             (activeReservationsOn_incl db rid gte lt)).
    rewrite Hslot in Hbusy. cbn [available slotAt] in Hbusy.
    destruct (findAvailableTableForSlot _ _ _ _ _); [discriminate | reflexivity]. }
  assert (forall t q, postValidate tz now body = inr (t, q) ->
            POST tz db now fresh body = (PostFailed NoAvailableTables, db)) as Hpast.
  { intros t q Hv. unfold POST. rewrite Hv.
    unfold postValidate in Hv.
    destruct (missingFieldsOf body); [|discriminate].
    rewrite Hsize, Htime, Hparse in Hv.
    destruct ((p <? 1) || (p >? 20)); [discriminate|].
    destruct (start <? now); [discriminate|].
    injection Hv as <- <-.
    rewrite Hrid. destruct (restaurantById db rid); [|congruence].
    fold turn. rewrite Hnone. reflexivity. }
  split.
  - destruct (postValidate tz now body) as [e|[t q]] eqn:Hv.
    + exists e. unfold POST. rewrite Hv. reflexivity.
    + exists NoAvailableTables. apply (Hpast t q eq_refl).
  - intros Hridne Huser Hp Hnow.
    apply (Hpast start p).
    unfold postValidate, missingFieldsOf.
    rewrite Hrid, Hsize, Htime, slotDateTime_truthy, Hparse.
    unfold JS.truthy.
    destruct (String.eqb_spec rid ""); [contradiction|].
    destruct (String.eqb_spec (PostBody.userId body) ""); [contradiction|].
    cbn [negb jsonNumberFalsy].
    destruct (Z.eqb_spec p 0); [lia|]. cbn [app].
    destruct (Z.ltb_spec p 1); [lia|].
    rewrite Z.gtb_ltb. destruct (Z.ltb_spec 20 p); [lia|]. cbn [orb].
    specialize (Hnow start). rewrite Htime in Hnow. specialize (Hnow Hparse).
    destruct (Z.ltb_spec start now); [lia | reflexivity].
Qed.

(** After the 19:00 booking, the slot 18:00 is reported unavailable and a
    request of a second party for it is refused for lack of a table. *)
Lemma unavailable_slot_cannot_be_booked_witness :
  calculateAvailability 0 (Scenario.afterBooking 0) Scenario.rid Scenario.date 2
  = Returns Scenario.afterBookingSlots
  /\ nth_error Scenario.afterBookingSlots 2 = Some (Scenario.mkSlot "18:00" false)
  /\ POST 0 (Scenario.afterBooking 0) (Scenario.noon 0) "res-2"
       (Scenario.book "user-2" "18:00" 2)
     = (PostFailed NoAvailableTables, Scenario.afterBooking 0).
Proof.
  assert (calculateAvailability 0 (Scenario.afterBooking 0) Scenario.rid Scenario.date 2
          = Returns Scenario.afterBookingSlots) as Hslots by (vm_compute; reflexivity).
  split; [exact Hslots|]. split; [reflexivity|].
  apply (proj2 (unavailable_slot_cannot_be_booked 0 (Scenario.afterBooking 0)
                  Scenario.rid Scenario.date 2 Scenario.afterBookingSlots 2%nat
                  (Scenario.mkSlot "18:00" false) (Scenario.noon 0) "res-2"
                  (Scenario.book "user-2" "18:00" 2)
                  Hslots eq_refl eq_refl eq_refl eq_refl eq_refl)).
  - discriminate.
  - discriminate.
  - lia.
  - intros t Ht. vm_compute in Ht. injection Ht as <-. vm_compute. discriminate.
Defined.

(** C6, as stated, fails: for a party of 21 the slot 17:00 is reported
    unavailable, and the creation is refused for its party size, not for
    lack of a table. *)
Lemma oversized_party_is_refused_for_its_size :
  exists slots slot,
    calculateAvailability 0 Scenario.oneTable Scenario.rid Scenario.date 21
    = Returns slots
    /\ nth_error slots 0 = Some slot
    /\ time slot = "17:00" /\ available slot = false
    /\ POST 0 Scenario.oneTable (Scenario.noon 0) "res-1"
         (Scenario.book "user-1" (time slot) 21)
       = (PostFailed PartySizeNotBetween1And20, Scenario.oneTable)
    /\ POST 0 Scenario.oneTable (Scenario.noon 0) "res-1"
         (Scenario.book "user-1" (time slot) 21)
       <> (PostFailed NoAvailableTables, Scenario.oneTable).
Proof.
  eexists _, _. split; [vm_compute; reflexivity|].
  split; [reflexivity|]. split; [reflexivity|]. split; [reflexivity|].
  split; [vm_compute; reflexivity|].
  vm_compute. discriminate.
Qed.

(** * Further properties of the code *)

(** ** What the table selection returns *)

Lemma greedyCandidate_single_fits (tables : list Table.t) (rs : list Reservation.t)
    (s e p : Z) (t : Table.t) :
  greedyCandidate tables rs s e p = Some (Single t) -> p <= Table.capacityMax t.
Proof.
  unfold greedyCandidate.
  destruct (find _ tables) as [t'|] eqn:H1.
  - intros [= <-]. apply find_some in H1. destruct H1 as [_ H1].
    apply andb_true_iff in H1. destruct H1 as [H1 _].
    apply andb_true_iff in H1. destruct H1 as [_ H1]. apply Z.leb_le, H1.
  - destruct (find _ tables) as [t'|] eqn:H2 in |- *.
    + intros [= <-]. apply find_some in H2. destruct H2 as [_ H2].
      apply andb_true_iff in H2. destruct H2 as [H2 _].
      rewrite Z.geb_leb in H2. apply Z.leb_le, H2.
    + destruct (find _ (orderedPairs _)) as [[t1 t2]|]; discriminate.
Qed.

(** The table [findAvailableTableForSlot] returns is one of the given
    tables, free for the slot, and it seats the party: alone, since the
    party does not exceed its largest capacity, or as the first of two
    joinable tables, both free, whose summed capacity range holds the
    party.  (Alone, the party may be smaller than the table's smallest
    capacity.) *)
Theorem selected_table_is_free_and_fits :
  forall (tables : list Table.t) (rs : list Reservation.t) (s e p : Z) (id : string),
    findAvailableTableForSlot tables rs s e p = Some id ->
    exists t,
      In t tables /\ Table.id t = id /\ isTableAvailable t rs s e = true
      /\ (p <= Table.capacityMax t
          \/ exists t2,
               In t2 tables
               /\ Table.isJoinable t = true /\ Table.isJoinable t2 = true
               /\ Table.capacityMin t + Table.capacityMin t2 <= p
                  <= Table.capacityMax t + Table.capacityMax t2
               /\ isTableAvailable t2 rs s e = true).
Proof.
  intros tables rs s e p id H.
  rewrite findAvailableTableForSlot_candidate in H.
  destruct (greedyCandidate tables rs s e p) as [[t|t1 t2]|] eqn:Hc;
    [| |discriminate]; cbn in H; injection H as <-.
  - exists t. destruct (greedyCandidate_single _ _ _ _ _ _ Hc) as [Hin Hfree].
    rewrite isTableAvailable_conflictFree.
    pose proof (greedyCandidate_single_fits _ _ _ _ _ _ Hc). tauto.
  - exists t1.
    destruct (greedyCandidate_joined _ _ _ _ _ _ _ Hc) as (Hpair & Hfit & Hf1 & Hf2).
    apply orderedPairs_In in Hpair. destruct Hpair as [Hin1 Hin2].
    apply filter_In in Hin1, Hin2.
    rewrite !isTableAvailable_conflictFree.
    destruct Hin1 as [Hin1 Hj1], Hin2 as [Hin2 Hj2].
    split; [exact Hin1|]. split; [reflexivity|]. split; [exact Hf1|].
    right. exists t2.
    split; [exact Hin2|]. split; [exact Hj1|]. split; [exact Hj2|].
    split; [exact Hfit|]. rewrite isTableAvailable_conflictFree. exact Hf2.
Qed.

Lemma selected_table_is_free_and_fits_witness :
  exists t,
    In t [Scenario.mkTable "table-1" 4 6 true; Scenario.mkTable "table-2" 4 6 true]
    /\ Table.id t = "table-1" /\ 11 > Table.capacityMax t.
Proof.
  destruct (selected_table_is_free_and_fits
              [Scenario.mkTable "table-1" 4 6 true; Scenario.mkTable "table-2" 4 6 true]
              [] 0 7200000 11 "table-1" eq_refl)
    as (t & Hin & Hid & _ & _).
  exists t. split; [exact Hin|]. split; [exact Hid|].
  destruct Hin as [<-|[<-|[]]]; cbn in *; [reflexivity | discriminate].
Defined.

(** No table is returned exactly when every table large enough for the
    party is busy and every fitting pair of joinable tables has a busy
    table. *)
Theorem no_table_iff_all_candidates_busy :
  forall (tables : list Table.t) (rs : list Reservation.t) (s e p : Z),
    findAvailableTableForSlot tables rs s e p = None
    <-> (forall t, In t tables -> p <= Table.capacityMax t ->
           isTableAvailable t rs s e = false)
        /\ (forall t1 t2,
              In (t1, t2) (orderedPairs (filter Table.isJoinable tables)) ->
              Table.capacityMin t1 + Table.capacityMin t2 <= p
                <= Table.capacityMax t1 + Table.capacityMax t2 ->
              isTableAvailable t1 rs s e = false
              \/ isTableAvailable t2 rs s e = false).
Proof.
  intros tables rs s e p.
  rewrite findAvailableTableForSlot_candidate. unfold greedyCandidate.
  split.
  - destruct (find _ tables) eqn:H1; [discriminate|].
    destruct (find _ tables) eqn:H2 in |- *; [discriminate|].
    destruct (find _ (orderedPairs _)) as [[u1 u2]|] eqn:H3; [discriminate|].
    intros _.
    pose proof (find_none _ _ H2) as N2. pose proof (find_none _ _ H3) as N3.
    split.
    + intros t Hin Hp. specialize (N2 t Hin). cbv beta in N2.
      rewrite Z.geb_leb, (proj2 (Z.leb_le _ _) Hp) in N2.
      rewrite isTableAvailable_conflictFree. exact N2.
    + intros t1 t2 Hin [Hlo Hhi]. specialize (N3 (t1, t2) Hin). cbv beta iota in N3.
      rewrite (proj2 (Z.leb_le _ _) Hlo), (proj2 (Z.leb_le _ _) Hhi) in N3.
      cbn [andb] in N3. rewrite !isTableAvailable_conflictFree.
      apply andb_false_iff in N3. exact N3.
  - intros [Hsingle Hpair].
    assert (forall t, In t tables -> p <= Table.capacityMax t ->
              conflictFree t rs s e = false) as Hs.
    { intros t Hin Hp. rewrite <- isTableAvailable_conflictFree. auto. }
    rewrite (proj2 (find_none_iff _ tables)).
    2:{ intros t Hin. cbv beta.
        destruct (Z.leb_spec p (Table.capacityMax t)) as [Hp|Hp].
        - rewrite (Hs t Hin Hp). apply andb_false_r.
        - rewrite andb_false_r. reflexivity. }
    rewrite (proj2 (find_none_iff _ tables)).
    2:{ intros t Hin. cbv beta. rewrite Z.geb_leb.
        destruct (Z.leb_spec p (Table.capacityMax t)) as [Hp|Hp]; [|reflexivity].
        rewrite (Hs t Hin Hp). reflexivity. }
    rewrite (proj2 (find_none_iff _ (orderedPairs _))); [reflexivity|].
    intros [t1 t2] Hin. cbv beta iota.
    destruct (Z.leb_spec (Table.capacityMin t1 + Table.capacityMin t2) p) as [Hlo|];
      [|reflexivity].
    destruct (Z.leb_spec p (Table.capacityMax t1 + Table.capacityMax t2)) as [Hhi|];
      [|reflexivity].
    cbn [andb]. rewrite <- !isTableAvailable_conflictFree.
    destruct (Hpair t1 t2 Hin (conj Hlo Hhi)) as [-> | ->];
      [reflexivity | apply andb_false_r].
Qed.

(** Reservations only take availability away: a slot without a table stays
    without one when reservations are added. *)
Theorem more_reservations_never_free_a_table :
  forall (tables : list Table.t) (rs rs' : list Reservation.t) (s e p : Z),
    incl rs rs' ->
    findAvailableTableForSlot tables rs s e p = None ->
    findAvailableTableForSlot tables rs' s e p = None.
Proof.
  intros tables rs rs' s e p Hincl Hnone.
  rewrite findAvailableTableForSlot_candidate in *.
  destruct (greedyCandidate tables rs s e p) eqn:Hc; [discriminate|].
  rewrite (greedyCandidate_none_incl tables rs rs' s e p Hincl Hc). reflexivity.
Qed.

Lemma more_reservations_never_free_a_table_witness :
  findAvailableTableForSlot [Scenario.mkTable "table-1" 2 4 false]
    [Scenario.mkReservation "res-0" CONFIRMED 0;
     Scenario.mkReservation "res-1" CONFIRMED 3600000] 0 5400000 2 = None.
Proof.
  apply (more_reservations_never_free_a_table
           [Scenario.mkTable "table-1" 2 4 false]
           [Scenario.mkReservation "res-0" CONFIRMED 0]).
  - intros r [<-|[]]. left. reflexivity.
  - reflexivity.
Defined.

(** ** The slots GetAvailability returns *)

(** A returned list is empty or the slots of the start times of the day. *)
Lemma calculateAvailability_shape (tz : Z) (db : Store) (rid date : string) (p : Z)
    (slots : list AvailabilitySlot) :
  calculateAvailability tz db rid date p = Returns slots ->
  slots = []
  \/ exists gte lt openTime lastBookingTime,
       slots = map (slotAt tz (tablesOf db rid) (activeReservationsOn db rid gte lt) p
                      (turnTimeOrDefault (turnTimeRulesFor db rid p)))
                   (slotStarts openTime lastBookingTime).
Proof.
  intros H. unfold calculateAvailability in H.
  repeat match type of H with
         | Throws = _ => discriminate H
         | Returns [] = _ => left; apply Returns_inj in H; congruence
         | (match ?x with _ => _ end) = _ => destruct x
         end.
  right. apply Returns_inj in H. rewrite slotLoop_slotStarts in H.
  eexists _, _, _, _. symmetry. exact H.
Qed.

(** GetAvailability never returns more than 30 slots: start times after the
    30th are dropped, whatever the opening hours. *)
Theorem availability_has_at_most_30_slots :
  forall (tz : Z) (db : Store) (rid date : string) (p : Z)
         (slots : list AvailabilitySlot),
    calculateAvailability tz db rid date p = Returns slots ->
    (List.length slots <= 30)%nat.
Proof.
  intros tz db rid date p slots H.
  destruct (calculateAvailability_shape tz db rid date p slots H)
    as [->|(gte & lt & openTime & lastBookingTime & ->)]; [cbn; lia|].
  unfold slotStarts, slotStartCount, maxSlots.
  rewrite !length_map, length_seq. lia.
Qed.

(** A restaurant open from 00:00 to 23:59 with a turn time of 60 minutes
    gets 30 slots, the last one at 14:30. *)
Lemma availability_has_at_most_30_slots_witness :
  exists slots,
    calculateAvailability 0 Extra.allDay Scenario.rid Scenario.date 2 = Returns slots
    /\ (List.length slots <= 30)%nat
    /\ option_map time (nth_error slots 29) = Some "14:30".
Proof.
  eexists. split; [vm_compute; reflexivity|]. split.
  - apply (availability_has_at_most_30_slots 0 Extra.allDay Scenario.rid
             Scenario.date 2). vm_compute. reflexivity.
  - reflexivity.
Defined.

(** In every returned slot the two fields agree: a slot that names a table
    is available, and the table is a table of the restaurant with a
    non-empty id; an unavailable slot names no table. *)
Theorem slot_table_is_a_table_of_the_restaurant :
  forall (tz : Z) (db : Store) (rid date : string) (p : Z)
         (slots : list AvailabilitySlot) (slot : AvailabilitySlot),
    calculateAvailability tz db rid date p = Returns slots ->
    In slot slots ->
    (available slot = false -> tableId slot = None)
    /\ (forall id, tableId slot = Some id ->
          available slot = true /\ id <> ""
          /\ exists table, In table (tables db)
                           /\ Table.restaurantId table = rid
                           /\ Table.id table = id).
Proof.
  intros tz db rid date p slots slot Hcalc Hin.
  apply In_nth_error in Hin. destruct Hin as [k Hk].
  destruct (calculateAvailability_slot tz db rid date p slots k slot Hcalc Hk)
    as (gte & lt & start & _ & -> & _).
  unfold slotAt. cbn [available tableId].
  rewrite findAvailableTableForSlot_candidate.
  destruct (greedyCandidate _ _ _ _ _) as [c|] eqn:Hc; cbn [option_map isSome].
  - split; [discriminate|]. intros id Hid.
    split; [reflexivity|].
    unfold orUndefined, JS.truthy in Hid.
    destruct (String.eqb_spec (primaryTableId c) ""); cbn in Hid; [discriminate|].
    injection Hid as <-. split; [assumption|].
    destruct (greedyCandidate_primary_free _ _ _ _ _ _ Hc) as (t & Hin & Hid & _).
    apply tablesOf_In in Hin. exists t. tauto.
  - split; [reflexivity | discriminate].
Qed.

Lemma slot_table_is_a_table_of_the_restaurant_witness :
  exists table, In table (tables Scenario.oneTable) /\ Table.id table = "table-1".
Proof.
  destruct (proj2 (slot_table_is_a_table_of_the_restaurant 0 Scenario.oneTable
              Scenario.rid Scenario.date 2 Scenario.allFree
              (Scenario.mkSlot "17:00" true)
              ltac:(vm_compute; reflexivity) (or_introl eq_refl))
              "table-1" eq_refl)
    as (_ & _ & table & Hin & _ & Hid).
  exists table. split; assumption.
Defined.

(** ** Creation: what is stored, what is refused *)

Lemma newDate_empty (tz : Z) : JS.newDate tz "" = None.
Proof. reflexivity. Qed.

(** The checks before the first query accept exactly the well-formed
    requests. *)
Lemma postValidate_accepts (tz now : Z) (body : PostBody.t) (t p : Z) :
  postValidate tz now body = inr (t, p)
  <-> PostBody.restaurantId body <> "" /\ PostBody.userId body <> ""
      /\ PostBody.partySize body = JNumber p /\ 1 <= p <= 20
      /\ JS.newDate tz (PostBody.reservationTime body) = Some t /\ now <= t.
Proof.
  unfold postValidate, missingFieldsOf, JS.truthy.
  destruct (String.eqb_spec (PostBody.restaurantId body) "") as [Hr|Hr];
    cbn [negb app].
  { split; [discriminate | tauto]. }
  destruct (String.eqb_spec (PostBody.userId body) "") as [Hu|Hu]; cbn [negb].
  { split; [|tauto].
    destruct (String.eqb (PostBody.reservationTime body) "");
      destruct (jsonNumberFalsy (PostBody.partySize body)); discriminate. }
  destruct (String.eqb_spec (PostBody.reservationTime body) "") as [Ht|Ht];
    cbn [negb app].
  { split; [discriminate|]. intros (_ & _ & _ & _ & Hd & _).
    rewrite Ht, newDate_empty in Hd. discriminate. }
  destruct (PostBody.partySize body) as [| |n]; cbn [jsonNumberFalsy app].
  - split; [discriminate|]. intros (_ & _ & H & _). discriminate.
  - split; [discriminate|]. intros (_ & _ & H & _). discriminate.
  - destruct (Z.eqb_spec n 0) as [->|Hn]; cbn [app].
    { split; [discriminate|]. intros (_ & _ & [= <-] & Hp & _). lia. }
    rewrite Z.gtb_ltb.
    destruct (Z.ltb_spec n 1); cbn [orb].
    { split; [discriminate|]. intros (_ & _ & [= <-] & Hp & _). lia. }
    destruct (Z.ltb_spec 20 n).
    { split; [discriminate|]. intros (_ & _ & [= <-] & Hp & _). lia. }
    destruct (JS.newDate tz (PostBody.reservationTime body)) as [d|].
    + destruct (Z.ltb_spec d now).
      * split; [discriminate|]. intros (_ & _ & _ & _ & [= <-] & Hnow). lia.
      * split.
        -- intros [= <- <-]. repeat split; try assumption; try reflexivity; lia.
        -- intros (_ & _ & [= <-] & _ & [= <-] & _). reflexivity.
    + split; [discriminate|]. intros (_ & _ & _ & _ & Hd & _). discriminate.
Qed.

Lemma postValidate_refusal_status (tz now : Z) (body : PostBody.t) (e : PostError) :
  postValidate tz now body = inl e -> postStatus (PostFailed e) = 400.
Proof.
  unfold postValidate.
  destruct (missingFieldsOf body); [|intros [= <-]; reflexivity].
  destruct (PostBody.partySize body) as [| |n]; try (intros [= <-]; reflexivity).
  destruct ((n <? 1) || (n >? 20)); [intros [= <-]; reflexivity|].
  destruct (JS.newDate tz _) as [d|]; [|intros [= <-]; reflexivity].
  destruct (d <? now); [intros [= <-]; reflexivity | discriminate].
Qed.

(** The names [missingFieldsOf] collects are those of the fields that are
    falsy. *)
Lemma missingFieldsOf_spec (body : PostBody.t) :
  (PostBody.restaurantId body <> "" /\ PostBody.reservationTime body <> ""
   /\ PostBody.userId body <> ""
   /\ PostBody.partySize body <> JAbsent /\ PostBody.partySize body <> JNumber 0
   <-> missingFieldsOf body = [])
  /\ (In "restaurantId" (missingFieldsOf body) <-> PostBody.restaurantId body = "")
  /\ (In "reservationTime" (missingFieldsOf body)
      <-> PostBody.reservationTime body = "")
  /\ (In "partySize" (missingFieldsOf body)
      <-> PostBody.partySize body = JAbsent \/ PostBody.partySize body = JNumber 0)
  /\ (In "userId" (missingFieldsOf body) <-> PostBody.userId body = "")
  /\ forall f, In f (missingFieldsOf body) ->
       In f ["restaurantId"; "reservationTime"; "partySize"; "userId"].
Proof.
  unfold missingFieldsOf, JS.truthy.
  assert (exists b, jsonNumberFalsy (PostBody.partySize body) = b
          /\ (b = true
              <-> PostBody.partySize body = JAbsent \/ PostBody.partySize body = JNumber 0))
    as (bp & -> & Hsize).
  { eexists. split; [reflexivity|].
    destruct (PostBody.partySize body) as [| |n]; cbn.
    - split; [left; reflexivity | reflexivity].
    - split; [discriminate | intros [H|H]; discriminate].
    - rewrite Z.eqb_eq. split; [intros ->; right; reflexivity|].
      intros [H|H]; [discriminate | congruence]. }
  assert (exists b, negb (String.eqb (PostBody.restaurantId body) "") = b
          /\ (b = false <-> PostBody.restaurantId body = "")) as (br & -> & Hr).
  { eexists. split; [reflexivity|]. rewrite negb_false_iff. apply String.eqb_eq. }
  assert (exists b, negb (String.eqb (PostBody.reservationTime body) "") = b
          /\ (b = false <-> PostBody.reservationTime body = "")) as (bt & -> & Ht).
  { eexists. split; [reflexivity|]. rewrite negb_false_iff. apply String.eqb_eq. }
  assert (exists b, negb (String.eqb (PostBody.userId body) "") = b
          /\ (b = false <-> PostBody.userId body = "")) as (bu & -> & Hu).
  { eexists. split; [reflexivity|]. rewrite negb_false_iff. apply String.eqb_eq. }
  assert (PostBody.partySize body <> JAbsent /\ PostBody.partySize body <> JNumber 0
          <-> bp = false) as Hsize'.
  { split.
    - intros [H1 H2]. destruct bp; [|reflexivity].
      exfalso. destruct (proj1 Hsize eq_refl); contradiction.
    - intros ->. split; intros H;
        [assert (false = true) by (apply Hsize; left; exact H)
        |assert (false = true) by (apply Hsize; right; exact H)]; discriminate. }
  rewrite Hsize'. rewrite <- Hr, <- Ht, <- Hu, <- Hsize.
  destruct br, bt, bu, bp; cbn [app In]; clear.
  all: repeat split; intros; 
    repeat match goal with
           | H : _ /\ _ |- _ => destruct H
           | H : _ \/ _ |- _ => destruct H
           | H : False |- _ => destruct H
           end; try discriminate; try congruence; try tauto; subst; cbn; try tauto.
  all: try (intros H; destruct H as (? & ? & ? & ? & ?); congruence).
Qed.

(** The checks of the handler before its first query, in their order, each
    refusing with status 400 and leaving the store as it is, whatever it
    holds.  A request with a required field missing (an empty restaurant
    id, reservation time or user id, a party size absent or 0) is answered
    with the names of exactly the missing fields; with all four present, a
    party size that is not a number from 1 to 20 is refused; with a valid
    party size, a reservation time that denotes an instant before the time
    of the request is refused.  A request that passes these checks, its
    time not in the past, for an unknown restaurant is refused with status
    404.  The time may be in any of the ISO forms [JS.newDate] reads, as
    the one with milliseconds and [Z]. *)
Theorem creation_refusals :
  forall (tz : Z) (db : Store) (now : Z) (fresh : string) (body : PostBody.t),
    let present :=
      PostBody.restaurantId body <> "" /\ PostBody.reservationTime body <> ""
      /\ PostBody.userId body <> ""
      /\ PostBody.partySize body <> JAbsent /\ PostBody.partySize body <> JNumber 0 in
    (~ present ->
     exists fields,
       POST tz db now fresh body = (PostFailed (MissingRequiredFields fields), db)
       /\ postStatus (PostFailed (MissingRequiredFields fields)) = 400
       /\ (In "restaurantId" fields <-> PostBody.restaurantId body = "")
       /\ (In "reservationTime" fields <-> PostBody.reservationTime body = "")
       /\ (In "partySize" fields
           <-> PostBody.partySize body = JAbsent \/ PostBody.partySize body = JNumber 0)
       /\ (In "userId" fields <-> PostBody.userId body = "")
       /\ forall f, In f fields ->
            In f ["restaurantId"; "reservationTime"; "partySize"; "userId"])
    /\ (present ->
        (PostBody.partySize body = JOther
         \/ exists n, PostBody.partySize body = JNumber n /\ (n < 1 \/ 20 < n)) ->
        POST tz db now fresh body = (PostFailed PartySizeNotBetween1And20, db)
        /\ postStatus (PostFailed PartySizeNotBetween1And20) = 400)
    /\ (forall p t,
          present -> PostBody.partySize body = JNumber p -> 1 <= p <= 20 ->
          JS.newDate tz (PostBody.reservationTime body) = Some t ->
          (t < now ->
           POST tz db now fresh body = (PostFailed ReservationTimeInPast, db)
           /\ postStatus (PostFailed ReservationTimeInPast) = 400)
          /\ (now <= t ->
              restaurantById db (PostBody.restaurantId body) = None ->
              POST tz db now fresh body = (PostFailed RestaurantNotFound, db)
              /\ postStatus (PostFailed RestaurantNotFound) = 404)).
Proof.
  intros tz db now fresh body present.
  destruct (missingFieldsOf_spec body) as (Hnil & Hrid & Htime & Hsize & Huser & Hsub).
  fold present in Hnil.
  assert (present ->
          POST tz db now fresh body
          = match PostBody.partySize body with
            | JNumber partySize =>
                if (partySize <? 1) || (partySize >? 20)
                then (PostFailed PartySizeNotBetween1And20, db)
                else
                  match JS.newDate tz (PostBody.reservationTime body) with
                  | None => (PostFailed InvalidReservationTimeFormat, db)
                  | Some t =>
                      if t <? now then (PostFailed ReservationTimeInPast, db)
                      else
                        match restaurantById db (PostBody.restaurantId body) with
                        | None => (PostFailed RestaurantNotFound, db)
                        | Some _ => POST tz db now fresh body
                        end
                  end
            | _ => (PostFailed PartySizeNotBetween1And20, db)
            end) as Hpast.
  { intros Hpresent. apply Hnil in Hpresent.
    unfold POST, postValidate. rewrite Hpresent.
    destruct (PostBody.partySize body) as [| |n]; try reflexivity.
    destruct ((n <? 1) || (n >? 20)); [reflexivity|].
    destruct (JS.newDate tz (PostBody.reservationTime body)) as [t|]; [|reflexivity].
    destruct (t <? now); [reflexivity|].
    destruct (restaurantById db (PostBody.restaurantId body)); reflexivity. }
  split; [|split].
  - intros Hmissing. exists (missingFieldsOf body).
    split; [|split; [reflexivity|tauto]].
    unfold POST, postValidate.
    destruct (missingFieldsOf body) as [|f fields] eqn:Hfields; [|reflexivity].
    exfalso. apply Hmissing, Hnil. reflexivity.
  - intros Hpresent Hsize'. rewrite (Hpast Hpresent).
    split; [|reflexivity].
    destruct Hsize' as [->|(n & -> & Hrange)]; [reflexivity|].
    rewrite Z.gtb_ltb. destruct Hrange as [Hlo|Hhi].
    + rewrite (proj2 (Z.ltb_lt n 1) Hlo). reflexivity.
    + rewrite (proj2 (Z.ltb_lt 20 n) Hhi), orb_true_r. reflexivity.
  - intros p t Hpresent Hp Hrange Hparse. rewrite (Hpast Hpresent), Hp, Hparse.
    rewrite Z.gtb_ltb, (proj2 (Z.ltb_ge p 1)), (proj2 (Z.ltb_ge 20 p)) by lia.
    cbn [orb]. split.
    + intros Hbefore. rewrite (proj2 (Z.ltb_lt t now) Hbefore). split; reflexivity.
    + intros Hnow Hnone. rewrite (proj2 (Z.ltb_ge t now) Hnow), Hnone.
      split; reflexivity.
Qed.

(** The request of the repository's own test, with a time in milliseconds
    and [Z]: at noon UTC of 2024-01-20, for an unknown restaurant it is
    answered 404, and a day later 400, by servers in any time zone. *)
Lemma creation_refusals_witness :
  let body := {| PostBody.restaurantId := "nonexistent";
                 PostBody.reservationTime := "2024-01-20T19:30:00.000Z";
                 PostBody.partySize := JNumber 4;
                 PostBody.notes := None;
                 PostBody.userId := "user-1";
                 PostBody.autoConfirm := false |} in
  JS.newDate (-300) "2024-01-20T19:30:00.000Z" = Some 1705779000000
  /\ POST (-300) Scenario.oneTable 1705752000000 "res-1" body
     = (PostFailed RestaurantNotFound, Scenario.oneTable)
  /\ POST (-300) Scenario.oneTable 1705838400000 "res-1" body
     = (PostFailed ReservationTimeInPast, Scenario.oneTable).
Proof.
  intros body. split; [reflexivity|].
  assert (PostBody.restaurantId body <> "" /\ PostBody.reservationTime body <> ""
          /\ PostBody.userId body <> ""
          /\ PostBody.partySize body <> JAbsent
          /\ PostBody.partySize body <> JNumber 0) as Hpresent
    by (repeat split; discriminate).
  split.
  - apply (proj2 (proj2 (proj2 (creation_refusals (-300) Scenario.oneTable
             1705752000000 "res-1" body)) 4 1705779000000
             Hpresent eq_refl ltac:(lia) eq_refl));
      [lia | reflexivity].
  - apply (proj1 (proj2 (proj2 (creation_refusals (-300) Scenario.oneTable
             1705838400000 "res-1" body)) 4 1705779000000
             Hpresent eq_refl ltac:(lia) eq_refl)).
    lia.
Defined.

(** A created reservation, read off the response: it carries the generated
    id, which no stored row had, the ids and the party size of the request,
    the parsed time, not in the past, the status the auto-confirm flag
    asks for, and a turn time that is the matching rule's or 120 minutes,
    never 0.  Its table is a table of the restaurant that the conflict
    check found free for the reserved interval and that seats the party
    alone (party not above its largest capacity) or joined with a second
    free joinable table. *)
Theorem created_reservation_is_well_formed :
  forall (tz : Z) (db : Store) (now : Z) (fresh : string) (body : PostBody.t)
         (row : Reservation.t) (db' : Store),
    POST tz db now fresh body = (PostCreated row, db') ->
    let rid := PostBody.restaurantId body in
    Reservation.id row = fresh
    /\ ~ In fresh (map Reservation.id (reservations db))
    /\ Reservation.restaurantId row = rid
    /\ Reservation.userId row = PostBody.userId body
    /\ In (PostBody.userId body) (users db)
    /\ PostBody.partySize body = JNumber (Reservation.partySize row)
    /\ 1 <= Reservation.partySize row <= 20
    /\ JS.newDate tz (PostBody.reservationTime body)
       = Some (Reservation.reservationTime row)
    /\ now <= Reservation.reservationTime row
    /\ Reservation.status row = (if PostBody.autoConfirm body then CONFIRMED else PENDING)
    /\ Reservation.turnTimeUsed row
       = turnTimeOrDefault (turnTimeRulesFor db rid (Reservation.partySize row))
    /\ Reservation.turnTimeUsed row <> 0
    /\ exists table,
         In table (tables db) /\ Table.restaurantId table = rid
         /\ Reservation.tableId row = Some (Table.id table)
         /\ isTableAvailable table (activeReservationsOf db rid)
              (reservationStart row) (reservationEnd row) = true
         /\ (Reservation.partySize row <= Table.capacityMax table
             \/ exists table2,
                  In table2 (tables db) /\ Table.restaurantId table2 = rid
                  /\ Table.isJoinable table = true /\ Table.isJoinable table2 = true
                  /\ Table.capacityMin table + Table.capacityMin table2
                     <= Reservation.partySize row
                     <= Table.capacityMax table + Table.capacityMax table2
                  /\ isTableAvailable table2 (activeReservationsOf db rid)
                       (reservationStart row) (reservationEnd row) = true).
Proof.
  intros tz db now fresh body row db' Hpost rid.
  pose proof (POST_cases tz db now fresh body) as Hcases. cbv zeta in Hcases.
  rewrite Hpost in Hcases.
  destruct Hcases as [[_ [e He]]|(t & p & c & Hv & Hc & Hrow & _ & _)];
    [discriminate|].
  injection Hrow as ->. fold rid in Hc.
  set (turn := turnTimeOrDefault (turnTimeRulesFor db rid p)) in *.
  apply postValidate_accepts in Hv.
  destruct Hv as (_ & _ & Hp & Hrange & Hd & Hnow).
  assert (~ In fresh (map Reservation.id (reservations db))
          /\ In (PostBody.userId body) (users db)) as [Hfresh Huser].
  { unfold POST in Hpost.
    destruct (postValidate tz now body) as [|[t' p']]; [discriminate|].
    destruct (restaurantById db (PostBody.restaurantId body)); [|discriminate].
    destruct (orUndefined _); [|discriminate].
    unfold reservationCreate in Hpost.
    destruct (existsb_string fresh _) eqn:Hf; [discriminate|].
    destruct (existsb_string (PostBody.userId body) (users db)) eqn:Hu;
      [|discriminate].
    split; [apply existsb_string_false, Hf | apply existsb_string_true, Hu]. }
  assert (turn <> 0) as Hturn.
  { subst turn. unfold turnTimeOrDefault.
    destruct (turnTimeRulesFor db rid p) as [|rule rules]; [discriminate|].
    destruct (Z.eqb_spec (TurnTimeRule.turnTimeInMinutes rule) 0);
      [discriminate | assumption]. }
  cbn [createdRow Reservation.id Reservation.restaurantId Reservation.userId
       Reservation.partySize Reservation.reservationTime Reservation.status
       Reservation.turnTimeUsed Reservation.tableId].
  unfold reservationStart, reservationEnd.
  cbn [createdRow Reservation.reservationTime Reservation.turnTimeUsed].
  do 12 (split; [first [reflexivity | assumption]|]).
  destruct c as [table|table table2].
  - destruct (greedyCandidate_single _ _ _ _ _ _ Hc) as [Hin Hfree].
    pose proof (greedyCandidate_single_fits _ _ _ _ _ _ Hc) as Hfit.
    apply tablesOf_In in Hin. destruct Hin as [Hin Hrid]. exists table.
    rewrite isTableAvailable_conflictFree. cbn [primaryTableId].
    split; [exact Hin|]. split; [exact Hrid|]. split; [reflexivity|].
    split; [exact Hfree|]. left. exact Hfit.
  - destruct (greedyCandidate_joined _ _ _ _ _ _ _ Hc) as (Hpair & Hfit & Hf1 & Hf2).
    apply orderedPairs_In in Hpair. destruct Hpair as [Hin1 Hin2].
    apply filter_In in Hin1, Hin2.
    destruct Hin1 as [Hin1 Hj1], Hin2 as [Hin2 Hj2].
    apply tablesOf_In in Hin1, Hin2.
    exists table. rewrite !isTableAvailable_conflictFree. cbn [primaryTableId].
    destruct Hin1 as [Hin1 Hrid1], Hin2 as [Hin2 Hrid2].
    split; [exact Hin1|]. split; [exact Hrid1|]. split; [reflexivity|].
    split; [exact Hf1|].
    right. exists table2.
    split; [exact Hin2|]. split; [exact Hrid2|]. split; [exact Hj1|].
    split; [exact Hj2|]. split; [exact Hfit|].
    rewrite isTableAvailable_conflictFree. exact Hf2.
Qed.

Lemma created_reservation_is_well_formed_witness :
  exists row,
    fst (POST 0 Scenario.oneTable (Scenario.noon 0) "res-1"
           (Scenario.book "user-1" "19:00" 2)) = PostCreated row
    /\ Reservation.status row = CONFIRMED
    /\ Reservation.turnTimeUsed row = 90.
Proof.
  eexists. split; [vm_compute; reflexivity|].
  pose proof (created_reservation_is_well_formed 0 Scenario.oneTable
                (Scenario.noon 0) "res-1" (Scenario.book "user-1" "19:00" 2)
                _ _ ltac:(vm_compute; reflexivity)) as H.
  cbv zeta in H. destruct H as (_ & _ & _ & _ & _ & _ & _ & _ & _ & Hs & Ht & _).
  split; [exact Hs | exact Ht].
Defined.

(** A creation changes nothing but the reservation rows, and those only by
    appending the created row: a refusal leaves the store as it is. *)
Theorem creation_only_appends :
  forall (tz : Z) (db : Store) (now : Z) (fresh : string) (body : PostBody.t),
    let response := fst (POST tz db now fresh body) in
    let db' := snd (POST tz db now fresh body) in
    restaurants db' = restaurants db /\ tables db' = tables db
    /\ operatingHours db' = operatingHours db /\ turnTimeRules db' = turnTimeRules db
    /\ cancellationPolicies db' = cancellationPolicies db /\ users db' = users db
    /\ ((db' = db /\ exists e, response = PostFailed e)
        \/ exists row, response = PostCreated row
                       /\ reservations db' = (reservations db ++ [row])%list).
Proof.
  intros tz db now fresh body. cbv zeta. unfold POST.
  destruct (postValidate tz now body) as [e|[t p]];
    [cbn; repeat split; left; eauto|].
  destruct (restaurantById db (PostBody.restaurantId body));
    [|cbn; repeat split; left; eauto].
  destruct (orUndefined _) as [tableId|]; [|cbn; repeat split; left; eauto].
  pose proof (reservationCreate_cases db fresh now body tableId t p
                (turnTimeOrDefault (turnTimeRulesFor db (PostBody.restaurantId body) p)))
    as Hcreate.
  destruct (reservationCreate _ _ _ _ _ _ _ _) as [response db']. cbn [fst snd].
  destruct Hcreate as [[-> He]|(-> & Hrows & Ht & Hr & Hrules & Hoh & Hu & Hcp & _)].
  - repeat split. left. split; [reflexivity | exact He].
  - repeat split; try assumption. right. eexists. split; [reflexivity | exact Hrows].
Qed.

(** Requests served one after the other keep the store invariant: table
    ids unique, reservations on tables of their restaurant, and no table
    double-booked (I1). *)
Theorem sequential_creations_never_double_book :
  forall (tz : Z) (requests : list PostRequest) (db : Store),
    StoreInvariant db -> StoreInvariant (serveAll tz db requests).
Proof.
  intros tz requests. induction requests as [|req requests IH]; intros db Hinv.
  - exact Hinv.
  - cbn. apply IH. apply POST_keeps_invariant. exact Hinv.
Qed.

Lemma sequential_creations_never_double_book_witness :
  NoDoubleBooking (reservations (serveAll 0 Scenario.oneTable (Scenario.racers 0))).
Proof.
  apply (sequential_creations_never_double_book 0 (Scenario.racers 0)
           Scenario.oneTable).
  split; [split|].
  - cbn. repeat constructor. cbn. tauto.
  - intros r table [].
  - apply NoDoubleBooking_short. cbn. lia.
Defined.

(** ** Cancellation: what changes, and what it frees *)

(** [updateStatus] changes the row that [find] returns for the id, in its
    place, and no other row. *)
Lemma updateStatus_nth (rows : list Reservation.t) (id : string)
    (s : ReservationStatus) (at_ : Z) (r0 : Reservation.t) :
  find (fun r => String.eqb (Reservation.id r) id) rows = Some r0 ->
  exists k0,
    nth_error rows k0 = Some r0
    /\ forall k, nth_error (updateStatus rows id s at_) k
                 = if Nat.eqb k k0 then Some (withUpdate r0 s at_)
                   else nth_error rows k.
Proof.
  induction rows as [|x rows IH]; cbn; [discriminate|].
  destruct (String.eqb (Reservation.id x) id).
  - intros [= <-]. exists 0%nat. split; [reflexivity|].
    intros [|k]; reflexivity.
  - intros Hfind. destruct (IH Hfind) as (k0 & Hk0 & Hnth).
    exists (S k0). split; [exact Hk0|].
    intros [|k]; [reflexivity|]. cbn. apply Hnth.
Qed.

Lemma updateStatus_length (rows : list Reservation.t) (id : string)
    (s : ReservationStatus) (at_ : Z) :
  List.length (updateStatus rows id s at_) = List.length rows.
Proof.
  induction rows as [|x rows IH]; cbn; [reflexivity|].
  destruct (String.eqb (Reservation.id x) id); cbn; [reflexivity|].
  rewrite IH. reflexivity.
Qed.

Lemma updateStatus_find (rows : list Reservation.t) (id : string)
    (s : ReservationStatus) (at_ : Z) (r0 : Reservation.t) :
  find (fun r => String.eqb (Reservation.id r) id) rows = Some r0 ->
  find (fun r => String.eqb (Reservation.id r) id) (updateStatus rows id s at_)
  = Some (withUpdate r0 s at_).
Proof.
  induction rows as [|x rows IH]; cbn; [discriminate|].
  destruct (String.eqb (Reservation.id x) id) eqn:Hx.
  - intros [= <-]. cbn. rewrite Hx. reflexivity.
  - intros Hfind. cbn. rewrite Hx. apply IH, Hfind.
Qed.

Lemma policyRejection_is_refusal (policy : option CancellationPolicy.t)
    (phone : string) (t now : Z) (response : PatchResponse) (r : Reservation.t) :
  policyRejection policy phone t now = Some response ->
  response <> CancelledSuccessfully r.
Proof.
  unfold policyRejection. destruct policy as [pol|]; [|discriminate].
  destruct (negb (CancellationPolicy.allowOnlineCancellation pol));
    [intros [= <-]; discriminate|].
  destruct (truthyHours _) as [h|]; [|discriminate].
  destruct (hoursUntilLessThan t now h); [intros [= <-]; discriminate | discriminate].
Qed.

(** A successful cancellation, read off the handler. *)
Lemma PATCH_cancelled_inv (db : Store) (now : Z) (id action : string)
    (r : Reservation.t) (db' : Store) :
  PATCH db now id action = (CancelledSuccessfully r, db') ->
  exists r0,
    reservationById db id = Some r0
    /\ Reservation.status r0 <> CANCELLED /\ Reservation.status r0 <> COMPLETED
    /\ r = withUpdate r0 CANCELLED now /\ db' = cancelRow db id now.
Proof.
  unfold PATCH.
  destruct (negb (String.eqb action "cancel")); [discriminate|].
  destruct (reservationById db id) as [r0|]; [|discriminate].
  intros H. exists r0.
  destruct (Reservation.status r0) eqn:Hs; try discriminate;
    destruct (restaurantById db (Reservation.restaurantId r0)); try discriminate;
    destruct (policyRejection _ _ _ _) as [p|] eqn:Hp;
    injection H as H1 H2;
    try (exfalso; exact (policyRejection_is_refusal _ _ _ _ _ r Hp H1));
    try (injection H1 as H1);
    (split; [reflexivity|]); (split; [discriminate|]);
    (split; [discriminate|]); split; symmetry; assumption.
Qed.

(** A cancellation request writes two columns of the one reservation it
    names, and nothing else: the status, which becomes CANCELLED, and
    [updatedAt], which becomes the time of the request.  The other columns
    of that row, every other row, the number of rows, and all other tables
    of the store stay as they are; when the answer is not the success, the
    store is left as it is. *)
Theorem cancellation_changes_one_status :
  forall (db : Store) (now : Z) (id action : string),
    let response := fst (PATCH db now id action) in
    let db' := snd (PATCH db now id action) in
    restaurants db' = restaurants db /\ tables db' = tables db
    /\ operatingHours db' = operatingHours db /\ turnTimeRules db' = turnTimeRules db
    /\ cancellationPolicies db' = cancellationPolicies db /\ users db' = users db
    /\ List.length (reservations db') = List.length (reservations db)
    /\ (forall k r, nth_error (reservations db) k = Some r ->
          nth_error (reservations db') k = Some r
          \/ (Reservation.id r = id
              /\ exists r',
                   nth_error (reservations db') k = Some r'
                   /\ Reservation.status r' = CANCELLED
                   /\ Reservation.updatedAt r' = now
                   /\ Reservation.id r' = Reservation.id r
                   /\ Reservation.userId r' = Reservation.userId r
                   /\ Reservation.restaurantId r' = Reservation.restaurantId r
                   /\ Reservation.tableId r' = Reservation.tableId r
                   /\ Reservation.reservationTime r' = Reservation.reservationTime r
                   /\ Reservation.partySize r' = Reservation.partySize r
                   /\ Reservation.notes r' = Reservation.notes r
                   /\ Reservation.turnTimeUsed r' = Reservation.turnTimeUsed r))
    /\ ((forall r, response <> CancelledSuccessfully r) -> db' = db)
    /\ (forall r, response = CancelledSuccessfully r ->
          Reservation.id r = id /\ Reservation.status r = CANCELLED
          /\ Reservation.updatedAt r = now
          /\ exists k, nth_error (reservations db') k = Some r
                       /\ forall j x, j <> k ->
                            nth_error (reservations db) j = Some x ->
                            nth_error (reservations db') j = Some x).
Proof.
  intros db now id action. cbv zeta.
  destruct (PATCH db now id action) as [response db'] eqn:Hpatch. cbn [fst snd].
  assert (db' = db \/ exists r, response = CancelledSuccessfully r) as Hcase.
  { unfold PATCH in Hpatch.
    destruct (negb (String.eqb action "cancel")); [injection Hpatch; auto|].
    destruct (reservationById db id) as [r0|]; [|injection Hpatch; auto].
    destruct (Reservation.status r0);
      try (injection Hpatch; auto; fail);
      destruct (restaurantById db (Reservation.restaurantId r0));
      try (injection Hpatch; auto; fail);
      destruct (policyRejection _ _ _ _);
      try (injection Hpatch; auto; fail);
      injection Hpatch as H1 H2; right; eexists; symmetry; exact H1. }
  assert (forall r, response = CancelledSuccessfully r ->
            exists r0 k0,
              find (fun x => String.eqb (Reservation.id x) id) (reservations db)
              = Some r0
              /\ r = withUpdate r0 CANCELLED now
              /\ db' = cancelRow db id now
              /\ nth_error (reservations db) k0 = Some r0
              /\ forall k, nth_error (updateStatus (reservations db) id CANCELLED now) k
                           = if Nat.eqb k k0 then Some (withUpdate r0 CANCELLED now)
                             else nth_error (reservations db) k) as Hdone.
  { intros r ->.
    destruct (PATCH_cancelled_inv db now id action r db' Hpatch)
      as (r0 & Hfind & _ & _ & -> & ->).
    destruct (updateStatus_nth (reservations db) id CANCELLED now r0 Hfind)
      as (k0 & Hk0 & Hnth).
    exists r0, k0. repeat split; assumption. }
  assert (forall r0, find (fun x => String.eqb (Reservation.id x) id) (reservations db)
                     = Some r0 -> Reservation.id r0 = id) as Hid.
  { intros r0 Hfind. apply find_some in Hfind. destruct Hfind as [_ Hfind].
    apply String.eqb_eq, Hfind. }
  split; [|split; [|split; [|split; [|split; [|split; [|split; [|split; [|split]]]]]]]].
  - destruct Hcase as [->|[r ->]]; [reflexivity|].
    destruct (Hdone r eq_refl) as (r0 & k0 & _ & _ & -> & _). reflexivity.
  - destruct Hcase as [->|[r ->]]; [reflexivity|].
    destruct (Hdone r eq_refl) as (r0 & k0 & _ & _ & -> & _). reflexivity.
  - destruct Hcase as [->|[r ->]]; [reflexivity|].
    destruct (Hdone r eq_refl) as (r0 & k0 & _ & _ & -> & _). reflexivity.
  - destruct Hcase as [->|[r ->]]; [reflexivity|].
    destruct (Hdone r eq_refl) as (r0 & k0 & _ & _ & -> & _). reflexivity.
  - destruct Hcase as [->|[r ->]]; [reflexivity|].
    destruct (Hdone r eq_refl) as (r0 & k0 & _ & _ & -> & _). reflexivity.
  - destruct Hcase as [->|[r ->]]; [reflexivity|].
    destruct (Hdone r eq_refl) as (r0 & k0 & _ & _ & -> & _). reflexivity.
  - destruct Hcase as [->|[r ->]]; [reflexivity|].
    destruct (Hdone r eq_refl) as (r0 & k0 & _ & _ & -> & _).
    cbn [cancelRow reservations]. apply updateStatus_length.
  - intros k x Hk. destruct Hcase as [->|[r ->]]; [left; exact Hk|].
    destruct (Hdone r eq_refl) as (r0 & k0 & Hfind & _ & -> & Hk0 & Hnth).
    cbn [cancelRow reservations]. rewrite Hnth.
    destruct (Nat.eqb_spec k k0) as [Heq|]; [|left; exact Hk].
    right. assert (x = r0) as -> by congruence.
    split; [exact (Hid r0 Hfind)|].
    eexists. split; [reflexivity|]. cbn. repeat split; reflexivity.
  - intros Hnot. destruct Hcase as [->|[r ->]]; [reflexivity|].
    exfalso. apply (Hnot r). reflexivity.
  - intros r Hr.
    destruct (Hdone r Hr) as (r0 & k0 & Hfind & -> & -> & Hk0 & Hnth).
    cbn [withUpdate Reservation.id Reservation.status Reservation.updatedAt].
    split; [exact (Hid r0 Hfind)|]. split; [reflexivity|]. split; [reflexivity|].
    exists k0. cbn [cancelRow reservations]. split.
    + rewrite Hnth, Nat.eqb_refl. reflexivity.
    + intros j x Hj Hx. rewrite Hnth.
      destruct (Nat.eqb_spec j k0); [contradiction | exact Hx].
Qed.

(** After a successful cancellation the item route returns the reservation
    with status CANCELLED, and a second cancellation of the same id is
    refused as already cancelled and changes nothing. *)
Theorem cancelled_reservation_stays_cancelled :
  forall (db : Store) (now now' : Z) (id : string) (r : Reservation.t) (db' : Store),
    PATCH db now id "cancel" = (CancelledSuccessfully r, db') ->
    Reservation.status r = CANCELLED
    /\ GET_reservation db' id = GetFound r
    /\ PATCH db' now' id "cancel" = (AlreadyCancelled, db').
Proof.
  intros db now now' id r db' Hpatch.
  destruct (PATCH_cancelled_inv db now id "cancel" r db' Hpatch)
    as (r0 & Hfind & _ & _ & -> & ->).
  assert (reservationById (cancelRow db id now) id
          = Some (withUpdate r0 CANCELLED now))
    as Hfound by (apply updateStatus_find, Hfind).
  split; [reflexivity|]. split.
  - unfold GET_reservation. rewrite Hfound. reflexivity.
  - apply (PATCH_terminal_guard (cancelRow db id now) now' id _ Hfound). reflexivity.
Qed.

Lemma cancelled_reservation_stays_cancelled_witness :
  PATCH (Scenario.cancelStore CANCELLED []) 5 "res-1" "cancel"
  = (AlreadyCancelled, Scenario.cancelStore CANCELLED []).
Proof.
  apply (cancelled_reservation_stays_cancelled (Scenario.cancelStore CONFIRMED [])
           0 5 "res-1" (Scenario.mkReservation "res-1" CANCELLED Scenario.bookedAt)
           (Scenario.cancelStore CANCELLED [])).
  vm_compute. reflexivity.
Defined.

(** Cancelling frees the table.  After a successful cancellation every
    table that the conflict check found free is still free; and if no table
    was double-booked and the cancelled reservation was pending or
    confirmed, its table is free for its whole interval. *)
Theorem cancellation_frees_the_table :
  forall (db : Store) (now : Z) (id : string) (r0 r : Reservation.t) (db' : Store),
    reservationById db id = Some r0 ->
    PATCH db now id "cancel" = (CancelledSuccessfully r, db') ->
    (forall rid table s e,
        isTableAvailable table (activeReservationsOf db rid) s e = true ->
        isTableAvailable table (activeReservationsOf db' rid) s e = true)
    /\ (NoDoubleBooking (reservations db) -> isActive r0 ->
        forall rid table,
          Reservation.tableId r0 = Some (Table.id table) ->
          isTableAvailable table (activeReservationsOf db' rid)
            (reservationStart r0) (reservationEnd r0) = true).
Proof.
  intros db now id r0 r db' Hfind Hpatch.
  destruct (PATCH_cancelled_inv db now id "cancel" r db' Hpatch)
    as (r0' & Hfind' & _ & _ & -> & ->).
  assert (r0' = r0) as -> by congruence.
  destruct (updateStatus_nth (reservations db) id CANCELLED now r0 Hfind)
    as (k0 & Hk0 & Hnth).
  assert (forall rid x, In x (activeReservationsOf (cancelRow db id now) rid) ->
            exists k, k <> k0 /\ nth_error (reservations db) k = Some x
                      /\ In x (activeReservationsOf db rid)) as Hrows.
  { intros rid x Hx. unfold activeReservationsOf in Hx.
    apply filter_In in Hx. destruct Hx as [Hx Hkeep].
    cbn [cancelRow reservations] in Hx.
    apply In_nth_error in Hx. destruct Hx as [k Hk]. rewrite Hnth in Hk.
    destruct (Nat.eqb_spec k k0) as [Heq|Hne].
    - injection Hk as <-. cbn in Hkeep. rewrite andb_false_r in Hkeep. discriminate.
    - exists k. split; [exact Hne|]. split; [exact Hk|].
      unfold activeReservationsOf. apply filter_In.
      split; [apply (nth_error_In _ _ Hk) | exact Hkeep]. }
  split.
  - intros rid table s e. apply isTableAvailable_incl.
    intros x Hx. destruct (Hrows rid x Hx) as (_ & _ & _ & Hin). exact Hin.
  - intros Hfree Hact rid table Htable.
    apply isTableAvailable_true. intros x Hx [Hon Hov].
    destruct (Hrows rid x Hx) as (k & Hne & Hk & Hin).
    apply (Hfree k0 k r0 x (fun E => Hne (eq_sym E)) Hk0 Hk).
    unfold activeReservationsOf in Hin. apply filter_In in Hin.
    destruct Hin as [_ Hin]. apply andb_true_iff in Hin. destruct Hin as [_ Hs].
    split; [exact Hact|]. split; [apply isActive_statusIn, Hs|].
    split; [exists (Table.id table); split; assumption | exact Hov].
Qed.

Lemma cancellation_frees_the_table_witness :
  isTableAvailable (Scenario.mkTable "table-1" 2 4 false)
    (activeReservationsOf (Scenario.cancelStore CANCELLED []) Scenario.rid)
    Scenario.bookedAt (JS.addMinutes Scenario.bookedAt 90) = true.
Proof.
  apply (proj2 (cancellation_frees_the_table (Scenario.cancelStore CONFIRMED [])
                  0 "res-1" (Scenario.mkReservation "res-1" CONFIRMED Scenario.bookedAt)
                  (Scenario.mkReservation "res-1" CANCELLED Scenario.bookedAt)
                  (Scenario.cancelStore CANCELLED [])
                  eq_refl ltac:(vm_compute; reflexivity))).
  - apply NoDoubleBooking_short. cbn. lia.
  - right. reflexivity.
  - reflexivity.
Defined.

(** ** Reading reservations back *)

(** A created reservation can be read back under its id, and the creation
    changes what no other lookup finds. *)
Theorem created_reservation_is_found :
  forall (tz : Z) (db : Store) (now : Z) (fresh : string) (body : PostBody.t)
         (row : Reservation.t) (db' : Store),
    POST tz db now fresh body = (PostCreated row, db') ->
    GET_reservation db' (Reservation.id row) = GetFound row
    /\ GET_reservation db (Reservation.id row) = GetNotFound
    /\ forall id, id <> Reservation.id row ->
                  GET_reservation db' id = GET_reservation db id.
Proof.
  intros tz db now fresh body row db' Hpost.
  assert (~ In fresh (map Reservation.id (reservations db))) as Hfresh.
  { unfold POST in Hpost.
    destruct (postValidate tz now body) as [|[t' p']]; [discriminate|].
    destruct (restaurantById db (PostBody.restaurantId body)); [|discriminate].
    destruct (orUndefined _); [|discriminate].
    unfold reservationCreate in Hpost.
    destruct (existsb_string fresh _) eqn:Hf; [discriminate|].
    apply existsb_string_false, Hf. }
  pose proof (POST_cases tz db now fresh body) as Hcases. cbv zeta in Hcases.
  rewrite Hpost in Hcases.
  destruct Hcases as [[_ [e He]]|(t & p & c & _ & _ & Hrow & Hrows & _)];
    [discriminate|].
  injection Hrow as ->.
  cbn [createdRow Reservation.id].
  assert (find (fun r => String.eqb (Reservation.id r) fresh) (reservations db) = None)
    as Hnone.
  { apply find_none_iff. intros r Hin. apply String.eqb_neq. intros Heq.
    apply Hfresh. rewrite <- Heq. apply in_map, Hin. }
  unfold GET_reservation, reservationById. rewrite Hrows.
  split; [|split].
  - rewrite find_append, Hnone. cbn. rewrite String.eqb_refl. reflexivity.
  - rewrite Hnone. reflexivity.
  - intros id Hid. rewrite find_append.
    destruct (find (fun r => String.eqb (Reservation.id r) id) (reservations db));
      [reflexivity|].
    cbn. destruct (String.eqb_spec fresh id); [congruence | reflexivity].
Qed.

Lemma created_reservation_is_found_witness :
  exists row,
    GET_reservation (Scenario.afterBooking 0) "res-1" = GetFound row
    /\ Reservation.tableId row = Some "table-1".
Proof.
  eexists. split.
  - apply (proj1 (created_reservation_is_found 0 Scenario.oneTable
                    (Scenario.noon 0) "res-1" (Scenario.book "user-1" "19:00" 2)
                    _ (Scenario.afterBooking 0) ltac:(vm_compute; reflexivity))).
  - reflexivity.
Defined.

Lemma insertDesc_perm (r : Reservation.t) (l : list Reservation.t) :
  Permutation (insertDesc r l) (r :: l).
Proof.
  induction l as [|x l IH]; cbn; [apply Permutation_refl|].
  destruct (Reservation.reservationTime x <=? Reservation.reservationTime r).
  - apply Permutation_refl.
  - apply perm_trans with (x :: r :: l); [apply perm_skip, IH | apply perm_swap].
Qed.

Lemma orderBy_perm (rows : list Reservation.t) :
  Permutation (orderByReservationTimeDesc rows) rows.
Proof.
  induction rows as [|r rows IH]; cbn; [apply perm_nil|].
  apply perm_trans with (r :: orderByReservationTimeDesc rows);
    [apply insertDesc_perm | apply perm_skip, IH].
Qed.

Lemma insertDesc_sorted (r : Reservation.t) (l : list Reservation.t) :
  StronglySorted (fun a b => Reservation.reservationTime b
                             <= Reservation.reservationTime a) l ->
  StronglySorted (fun a b => Reservation.reservationTime b
                             <= Reservation.reservationTime a) (insertDesc r l).
Proof.
  induction l as [|x l IH]; intros Hs; cbn.
  - constructor; constructor.
  - inversion Hs as [|? ? Hs' Hall]; subst.
    destruct (Z.leb_spec (Reservation.reservationTime x) (Reservation.reservationTime r)).
    + constructor; [exact Hs|]. constructor; [assumption|].
      eapply Forall_impl; [|exact Hall]. cbv beta. intros; lia.
    + constructor; [apply IH, Hs'|].
      apply (Permutation_Forall (Permutation_sym (insertDesc_perm r l))).
      constructor; [lia | exact Hall].
Qed.

Lemma orderBy_sorted (rows : list Reservation.t) :
  StronglySorted (fun a b => Reservation.reservationTime b
                             <= Reservation.reservationTime a)
    (orderByReservationTimeDesc rows).
Proof.
  induction rows as [|r rows IH]; cbn; [constructor|].
  apply insertDesc_sorted, IH.
Qed.

(** The collection route returns exactly the stored reservations that match
    the filters given (an absent or empty filter matches all), cancelled
    ones included, each as often as it is stored, latest first. *)
Theorem reservation_list_is_filtered_and_sorted :
  forall (db : Store) (userId restaurantId : option string),
    let matching :=
      filter (fun r => whereMatches userId (Reservation.userId r)
                       && whereMatches restaurantId (Reservation.restaurantId r))
             (reservations db) in
    let listed := GET_reservations db userId restaurantId in
    Permutation listed matching
    /\ StronglySorted (fun a b => Reservation.reservationTime b
                                  <= Reservation.reservationTime a) listed
    /\ (forall r, In r listed <->
                  In r (reservations db)
                  /\ (forall u, userId = Some u -> u <> "" -> Reservation.userId r = u)
                  /\ (forall i, restaurantId = Some i -> i <> "" ->
                                Reservation.restaurantId r = i)).
Proof.
  intros db userId restaurantId matching listed.
  assert (Permutation listed matching) as Hperm by apply orderBy_perm.
  assert (forall (param : option string) (value : string),
            whereMatches param value = true
            <-> (forall w, param = Some w -> w <> "" -> value = w)) as Hwhere.
  { intros [w|] value; cbn; [|split; [discriminate | reflexivity]].
    unfold JS.truthy. destruct (String.eqb_spec w "") as [->|Hw]; cbn.
    - split; [intros _ w' [= <-] Hne; congruence | reflexivity].
    - rewrite String.eqb_eq. split.
      + intros -> w' [= <-] _. reflexivity.
      + intros H. apply (H w eq_refl Hw). }
  split; [exact Hperm|]. split.
  - apply orderBy_sorted.
  - intros r. split.
    + intros Hin. apply (Permutation_in _ Hperm) in Hin.
      apply filter_In in Hin. destruct Hin as [Hin Hm].
      apply andb_true_iff in Hm. rewrite !Hwhere in Hm. tauto.
    + intros (Hin & Hu & Hr).
      apply (Permutation_in _ (Permutation_sym Hperm)).
      apply filter_In. split; [exact Hin|].
      apply andb_true_iff. rewrite !Hwhere. tauto.
Qed.

(** ** Formatting times *)

Lemma every_minute (check : Z -> bool) :
  forallb (fun n => check (Z.of_nat n)) (seq 0 1440) = true ->
  forall m, 0 <= m < 1440 -> check m = true.
Proof.
  intros Hall m Hm. rewrite forallb_forall in Hall.
  specialize (Hall (Z.to_nat m)). rewrite Z2Nat.id in Hall by lia.
  apply Hall, in_seq. lia.
Qed.

(** The 12-hour text of the minute [m] of a day. *)
Lemma formatTimeWithAmPm_label (m : Z) :
  0 <= m < 1440 ->
  formatTimeWithAmPm (labelOf m)
  = numberToString ((m / 60 + 11) mod 12 + 1) ++ ":" ++ JS.pad2 (m mod 60) ++ " "
    ++ (if m <? 720 then "AM" else "PM").
Proof.
  intros Hm. apply String.eqb_eq.
  apply (every_minute (fun m =>
           String.eqb (formatTimeWithAmPm (labelOf m))
             (numberToString ((m / 60 + 11) mod 12 + 1) ++ ":" ++ JS.pad2 (m mod 60)
              ++ " " ++ (if m <? 720 then "AM" else "PM"))));
    [vm_compute; reflexivity | exact Hm].
Qed.

(** [formatTimeWithAmPm] answers "Invalid time" for the empty string and
    returns unchanged a string that does not split into two parts at ':'.
    On a slot of GetAvailability, whose label is the [HH:mm] of a minute [m]
    of the day, it gives the 12-hour reading: the hour from 1 to 12, the
    minutes on two digits, AM before noon and PM from noon on. *)
Theorem slot_labels_format_as_12_hour_times :
  formatTimeWithAmPm "" = "Invalid time"
  /\ (forall time, time <> "" -> List.length (JS.split ":" time) <> 2%nat ->
        formatTimeWithAmPm time = time)
  /\ (forall tz db rid date p slots slot,
        calculateAvailability tz db rid date p = Returns slots ->
        In slot slots ->
        exists m,
          0 <= m < 1440 /\ time slot = labelOf m
          /\ formatTimeWithAmPm (time slot)
             = numberToString ((m / 60 + 11) mod 12 + 1) ++ ":" ++ JS.pad2 (m mod 60)
               ++ " " ++ (if m <? 720 then "AM" else "PM")).
Proof.
  split; [reflexivity|]. split.
  - intros time Hne Hlen. unfold formatTimeWithAmPm, JS.truthy.
    destruct (String.eqb_spec time ""); [contradiction|]. cbn [negb].
    destruct (JS.split ":" time) as [|a [|b [|c rest]]]; try reflexivity.
    exfalso. apply Hlen. reflexivity.
  - intros tz db rid date p slots slot Hcalc Hin.
    apply In_nth_error in Hin. destruct Hin as [k Hk].
    destruct (calculateAvailability_slot tz db rid date p slots k slot Hcalc Hk)
      as (gte & lt & start & _ & -> & _).
    cbn [time slotAt]. unfold JS.formatHHmm. cbv zeta.
    set (m := ((start + tz * JS.msPerMinute) / JS.msPerMinute) mod 1440).
    assert (0 <= m < 1440) as Hm by (apply Z.mod_pos_bound; lia).
    exists m. split; [exact Hm|]. split; [reflexivity|].
    apply (formatTimeWithAmPm_label m Hm).
Qed.

Lemma slot_labels_format_as_12_hour_times_witness :
  formatTimeWithAmPm "19:30" = "7:30 PM" /\ formatTimeWithAmPm "00:05" = "12:05 AM"
  /\ formatTimeWithAmPm "1930" = "1930".
Proof.
  destruct slot_labels_format_as_12_hour_times as (_ & Hsame & _).
  split; [reflexivity|]. split; [reflexivity|].
  apply Hsame; [discriminate | cbn; lia].
Defined.

(** The clock of the table timeline and the slot buttons show the same
    text: for every minute of a day, [minutesToTime] of the minute is
    [formatTimeWithAmPm] of its [HH:mm] label. *)
Theorem timeline_clock_matches_slot_labels :
  forall m : Z, 0 <= m < 1440 ->
    minutesToTime m = formatTimeWithAmPm (labelOf m).
Proof.
  intros m Hm. apply String.eqb_eq.
  apply (every_minute (fun m =>
           String.eqb (minutesToTime m) (formatTimeWithAmPm (labelOf m))));
    [vm_compute; reflexivity | exact Hm].
Qed.

Lemma timeline_clock_matches_slot_labels_witness :
  minutesToTime 720 = formatTimeWithAmPm "12:00".
Proof.
  apply (timeline_clock_matches_slot_labels 720). lia.
Defined.

(** ** The operating-hours summary *)

Section OperatingHoursSummary.

Let push (hoursByRange : list (string * list Z)) (hours : OperatingHours.t)
    : list (string * list Z) :=
  mapPush hoursByRange (timeRangeOf hours) (OperatingHours.dayOfWeek hours).

Lemma groupByRange_valid (ops : list OperatingHours.t) :
  forall acc,
    fold_left (fun hoursByRange hours =>
        if validHours hours
        then mapPush hoursByRange (timeRangeOf hours) (OperatingHours.dayOfWeek hours)
        else hoursByRange) ops acc
    = fold_left push (filter validHours ops) acc.
Proof.
  induction ops as [|h ops IH]; intros acc; cbn; [reflexivity|].
  destruct (validHours h); cbn; apply IH.
Qed.

(** The first entry of the map keeps its key and collects the days of the
    rows with that range; the rows of other ranges go to the entries after
    it. *)
Lemma push_all_head (entries : list OperatingHours.t) :
  forall key days tail,
    fold_left push entries ((key, days) :: tail)
    = (key, (days ++ map OperatingHours.dayOfWeek
                       (filter (fun h => String.eqb key (timeRangeOf h)) entries))%list)
      :: fold_left push
           (filter (fun h => negb (String.eqb key (timeRangeOf h))) entries) tail.
Proof.
  induction entries as [|h entries IH]; intros key days tail; cbn [fold_left filter map].
  - rewrite app_nil_r. reflexivity.
  - unfold push at 2. cbn [mapPush].
    destruct (String.eqb key (timeRangeOf h)); cbn [negb map fold_left].
    + rewrite IH, <- app_assoc. reflexivity.
    + rewrite IH. reflexivity.
Qed.

Lemma push_all_nonempty (entries : list OperatingHours.t) :
  forall acc, fold_left push entries acc = [] -> entries = [] /\ acc = [].
Proof.
  induction entries as [|h entries IH]; intros acc; cbn; [tauto|].
  intros H. apply IH in H. destruct H as [_ H].
  unfold push in H. destruct acc as [|[k d] acc]; cbn in H; [discriminate|].
  destruct (String.eqb k (timeRangeOf h)); discriminate.
Qed.

Lemma filter_all_or_not {A : Type} (f : A -> bool) (l : list A) :
  (forallb f l = true /\ filter f l = l /\ filter (fun x => negb (f x)) l = [])
  \/ (forallb f l = false /\ filter (fun x => negb (f x)) l <> []).
Proof.
  induction l as [|x l IH]; cbn; [left; tauto|].
  destruct (f x); cbn.
  - destruct IH as [(H1 & H2 & H3)|[H1 H2]]; [left | right; tauto].
    rewrite H2. tauto.
  - right. split; [reflexivity | discriminate].
Qed.

(** [formatOperatingHours] answers "Hours not available" for no rows and
    throws when there are rows but each lacks an opening or a closing time.
    Otherwise, when the times of the rows that have both are made of whole
    numbers of at most 15 digits between colons, it returns the time range
    of the first such row, whatever the other rows say, with "Daily " in
    front exactly when the rows that have both all show that range and are
    seven. *)
Theorem operating_hours_summary :
  forall ops : list OperatingHours.t,
    (ops = [] -> formatOperatingHours ops = Returns "Hours not available")
    /\ (ops <> [] -> filter validHours ops = [] -> formatOperatingHours ops = Throws)
    /\ (forall first others,
          filter validHours ops = first :: others ->
          (forall h, In h (first :: others) ->
             plainTime (OperatingHours.openTime h) = true
             /\ plainTime (OperatingHours.closeTime h) = true) ->
          formatOperatingHours ops
          = Returns (if forallb (fun h => String.eqb (timeRangeOf first) (timeRangeOf h))
                          others
                        && Nat.eqb (List.length others) 6
                     then "Daily " ++ timeRangeOf first
                     else timeRangeOf first)).
Proof.
  intros ops. split; [intros ->; reflexivity|]. split.
  - intros Hne Hnone. destruct ops as [|h ops]; [contradiction|].
    unfold formatOperatingHours, groupByRange.
    rewrite groupByRange_valid, Hnone. reflexivity.
  - intros first others Hvalid _.
    destruct ops as [|h ops]; [discriminate|].
    unfold formatOperatingHours, groupByRange.
    rewrite groupByRange_valid, Hvalid. cbn [fold_left].
    unfold push at 2. cbn [mapPush]. rewrite push_all_head.
    destruct (filter_all_or_not
                (fun h => String.eqb (timeRangeOf first) (timeRangeOf h)) others)
      as [(Hall & Hsame & Hrest)|[Hall Hrest]]; rewrite Hall; cbn [andb].
    + rewrite Hrest, Hsame. cbn [fold_left].
      rewrite length_app, length_map. cbn [List.length Nat.add].
      destruct (Nat.eqb_spec (List.length others) 6) as [->|Hlen]; [reflexivity|].
      destruct (Nat.eqb_spec (S (List.length others)) 7); [lia | reflexivity].
    + destruct (fold_left push _ []) as [|entry tail] eqn:Hfold.
      * apply push_all_nonempty in Hfold. tauto.
      * reflexivity.
Qed.

End OperatingHoursSummary.

(** Seven rows with the same hours read "Daily", also when one of them
    spells its opening time with a space in front; and the first row
    decides the range shown even when most rows differ. *)
Lemma operating_hours_summary_witness :
  formatOperatingHours (map (fun d => Extra.hours d "17:00" "22:00") [0; 1; 2; 3; 4; 5; 6])
  = Returns "Daily 5:00 PM - 10:00 PM"
  /\ formatOperatingHours
       (Extra.hours 0 " 9:00" "17:00"
        :: map (fun d => Extra.hours d "9:00" "17:00") [1; 2; 3; 4; 5; 6])
     = Returns "Daily 9:00 AM - 5:00 PM"
  /\ formatOperatingHours
       [Extra.hours 0 "11:00" "14:00"; Extra.hours 1 "17:00" "22:00";
        Extra.hours 2 "17:00" "22:00"]
     = Returns "11:00 AM - 2:00 PM"
  /\ formatOperatingHours [Extra.hours 0 "" "22:00"] = Throws.
Proof.
  assert (forall rows : list OperatingHours.t,
            forallb (fun h => plainTime (OperatingHours.openTime h)
                              && plainTime (OperatingHours.closeTime h)) rows = true ->
            forall h, In h rows ->
              plainTime (OperatingHours.openTime h) = true
              /\ plainTime (OperatingHours.closeTime h) = true) as Hplain.
  { intros rows Hall h Hin. rewrite forallb_forall in Hall.
    apply andb_true_iff, Hall, Hin. }
  split; [|split; [|split]].
  - rewrite (proj2 (proj2 (operating_hours_summary
               (map (fun d => Extra.hours d "17:00" "22:00") [0; 1; 2; 3; 4; 5; 6])))
               (Extra.hours 0 "17:00" "22:00")
               (map (fun d => Extra.hours d "17:00" "22:00") [1; 2; 3; 4; 5; 6])
               eq_refl
               (Hplain (map (fun d => Extra.hours d "17:00" "22:00")
                            [0; 1; 2; 3; 4; 5; 6]) eq_refl)).
    reflexivity.
  - rewrite (proj2 (proj2 (operating_hours_summary
               (Extra.hours 0 " 9:00" "17:00"
                :: map (fun d => Extra.hours d "9:00" "17:00") [1; 2; 3; 4; 5; 6])))
               (Extra.hours 0 " 9:00" "17:00")
               (map (fun d => Extra.hours d "9:00" "17:00") [1; 2; 3; 4; 5; 6])
               eq_refl
               (Hplain (Extra.hours 0 " 9:00" "17:00"
                        :: map (fun d => Extra.hours d "9:00" "17:00")
                               [1; 2; 3; 4; 5; 6]) eq_refl)).
    reflexivity.
  - rewrite (proj2 (proj2 (operating_hours_summary
               [Extra.hours 0 "11:00" "14:00"; Extra.hours 1 "17:00" "22:00";
                Extra.hours 2 "17:00" "22:00"]))
               (Extra.hours 0 "11:00" "14:00")
               [Extra.hours 1 "17:00" "22:00"; Extra.hours 2 "17:00" "22:00"]
               eq_refl
               (Hplain [Extra.hours 0 "11:00" "14:00"; Extra.hours 1 "17:00" "22:00";
                        Extra.hours 2 "17:00" "22:00"] eq_refl)).
    reflexivity.
  - apply (proj1 (proj2 (operating_hours_summary [Extra.hours 0 "" "22:00"])));
      [discriminate | reflexivity].
Defined.

(** ** The capacity notice and the table timeline *)

Lemma canJoinInner_exists (table1 : Table.t) (later : list Table.t) (p : Z) :
  canJoinInner table1 later p = true ->
  exists table2,
    In table2 later
    /\ Table.capacityMin table1 + Table.capacityMin table2 <= p
       <= Table.capacityMax table1 + Table.capacityMax table2.
Proof.
  induction later as [|t2 later IH]; cbn; [discriminate|].
  destruct ((Table.capacityMin table1 + Table.capacityMin t2 <=? p)
            && (p <=? Table.capacityMax table1 + Table.capacityMax t2)) eqn:Hfit.
  - intros _. exists t2. apply andb_true_iff in Hfit.
    rewrite !Z.leb_le in Hfit. tauto.
  - intros H. destruct (IH H) as (t & Hin & Hfits). exists t. tauto.
Qed.

Lemma canJoinOuter_exists (joinable : list Table.t) (p : Z) :
  canJoinOuter joinable p = true ->
  exists table1 table2,
    In (table1, table2) (orderedPairs joinable)
    /\ Table.capacityMin table1 + Table.capacityMin table2 <= p
       <= Table.capacityMax table1 + Table.capacityMax table2.
Proof.
  induction joinable as [|t1 later IH]; cbn; [discriminate|].
  destruct (canJoinInner t1 later p) eqn:Hinner.
  - intros _. destruct (canJoinInner_exists _ _ _ Hinner) as (t2 & Hin & Hfit).
    exists t1, t2. split; [|exact Hfit].
    apply in_app_iff. left. apply in_map, Hin.
  - intros H. destruct (IH H) as (a & b & Hin & Hfit).
    exists a, b. split; [|exact Hfit]. apply in_app_iff. right. exact Hin.
Qed.

(** The capacity notice of the restaurant page is sound for the scheduler:
    when it says the restaurant can seat the party, the table selection
    finds a table for every slot as long as nothing is reserved.  It is not
    complete: a party smaller than the smallest capacity of the only table
    is told there is no capacity, yet the selection seats it there. *)
Theorem capacity_notice_is_sound_not_complete :
  (forall (tables : list Table.t) (p s e : Z),
      hasTableCapacity tables p = true ->
      findAvailableTableForSlot tables [] s e p <> None)
  /\ (exists tables p,
        hasTableCapacity tables p = false
        /\ forall s e, findAvailableTableForSlot tables [] s e p <> None).
Proof.
  split.
  - intros tables p s e Hcap.
    rewrite findAvailableTableForSlot_candidate. unfold greedyCandidate.
    assert (forall t, conflictFree t [] s e = true) as Hfree by reflexivity.
    destruct (find _ tables) eqn:H1; [discriminate|].
    destruct (find _ tables) eqn:H2 in |- *; [discriminate|].
    destruct (find _ (orderedPairs _)) as [[t1 t2]|] eqn:H3; [discriminate|].
    exfalso. pose proof (find_none _ _ H1) as N1. pose proof (find_none _ _ H3) as N3.
    unfold hasTableCapacity in Hcap. apply orb_true_iff in Hcap.
    destruct Hcap as [Hsingle|Hjoin].
    + unfold suitableIndividualTables in Hsingle.
      destruct (filter _ tables) as [|t rest] eqn:Hf; [discriminate|].
      assert (In t (filter (fun table =>
                 (Table.capacityMin table <=? p) && (Table.capacityMax table >=? p))
                 tables)) as Hin by (rewrite Hf; left; reflexivity).
      apply filter_In in Hin. destruct Hin as [Hin Hfit].
      specialize (N1 t Hin). cbv beta in N1.
      rewrite Z.geb_leb in Hfit. rewrite Hfit, Hfree in N1. discriminate.
    + destruct (canJoinOuter_exists _ _ Hjoin) as (a & b & Hin & Hlo & Hhi).
      specialize (N3 (a, b) Hin). cbv beta iota in N3.
      rewrite (proj2 (Z.leb_le _ _) Hlo), (proj2 (Z.leb_le _ _) Hhi), !Hfree in N3.
      discriminate.
  - exists [Scenario.mkTable "table-1" 4 6 false], 2.
    split; [reflexivity|]. intros s e. discriminate.
Qed.

Lemma reservedAt_found (rs : list Reservation.t) (T : Z) (r : Reservation.t) :
  reservedAt rs T = Some r ->
  In r rs /\ reservationStart r <= T < reservationEnd r.
Proof.
  induction rs as [|x rs IH]; cbn; [discriminate|].
  destruct ((T >=? Reservation.reservationTime x)
            && (T <? JS.addMinutes (Reservation.reservationTime x)
                       (Reservation.turnTimeUsed x))) eqn:Hx.
  - intros [= <-]. apply andb_true_iff in Hx. rewrite Z.geb_leb in Hx.
    rewrite Z.leb_le, Z.ltb_lt in Hx.
    unfold reservationStart, reservationEnd. tauto.
  - intros H. apply IH in H. tauto.
Qed.

Lemma reservedAt_some (rs : list Reservation.t) (T : Z) (r : Reservation.t) :
  In r rs -> reservationStart r <= T < reservationEnd r -> reservedAt rs T <> None.
Proof.
  induction rs as [|x rs IH]; intros Hin Hr; [destruct Hin|].
  destruct Hin as [<-|Hin]; cbn.
  - unfold reservationStart, reservationEnd in Hr.
    rewrite Z.geb_leb, (proj2 (Z.leb_le _ _) (proj1 Hr)),
      (proj2 (Z.ltb_lt _ _) (proj2 Hr)). discriminate.
  - destruct (_ && _); [discriminate | apply (IH Hin Hr)].
Qed.

(** The reservation found is the first that holds the instant: none before
    it in the list does. *)
Lemma reservedAt_first (rs : list Reservation.t) (T : Z) (r : Reservation.t) :
  reservedAt rs T = Some r ->
  exists before after,
    rs = (before ++ r :: after)%list
    /\ forall x, In x before -> ~ (reservationStart x <= T < reservationEnd x).
Proof.
  induction rs as [|x rs IH]; cbn; [discriminate|].
  destruct ((T >=? Reservation.reservationTime x)
            && (T <? JS.addMinutes (Reservation.reservationTime x)
                       (Reservation.turnTimeUsed x))) eqn:Hx.
  - intros [= <-]. exists [], rs. split; [reflexivity|]. intros y [].
  - intros H. destruct (IH H) as (before & after & -> & Hnone).
    exists (x :: before), after. split; [reflexivity|].
    intros y [<-|Hin]; [|apply Hnone, Hin].
    unfold reservationStart, reservationEnd. intros [H1 H2].
    rewrite Z.geb_leb, (proj2 (Z.leb_le _ _) H1), (proj2 (Z.ltb_lt _ _) H2) in Hx.
    discriminate.
Qed.

(** The timeline marks a table reserved at an instant with the first of its
    reservations, in list order, that holds that instant in its half-open
    interval, start included and end excluded: no reservation before it in
    the list holds the instant.  It marks the table free exactly when none
    does, which is when the conflict check accepts the one-millisecond slot
    that starts at that instant. *)
Theorem timeline_agrees_with_conflict_check :
  forall (tz selectedDate currentTime : Z) (table : Table.t)
         (rs : list Reservation.t),
    let T := JS.addMinutes (startOfDay tz selectedDate) currentTime in
    (forall r, isTableReserved tz selectedDate currentTime rs = Some r ->
       In r rs /\ reservationStart r <= T < reservationEnd r
       /\ exists before after,
            rs = (before ++ r :: after)%list
            /\ forall x, In x before ->
                 ~ (reservationStart x <= T < reservationEnd x))
    /\ (isTableReserved tz selectedDate currentTime rs = None
        <-> forall r, In r rs -> ~ (reservationStart r <= T < reservationEnd r))
    /\ ((forall r, In r rs -> onTable r table) ->
        (isTableReserved tz selectedDate currentTime rs = None
         <-> isTableAvailable table rs T (T + 1) = true)).
Proof.
  intros tz selectedDate currentTime table rs T.
  unfold isTableReserved. fold T.
  assert (reservedAt rs T = None
          <-> forall r, In r rs -> ~ (reservationStart r <= T < reservationEnd r))
    as Hnone.
  { split.
    - intros Hn r Hin Hr. apply (reservedAt_some rs T r Hin Hr Hn).
    - intros Hall. destruct (reservedAt rs T) as [r|] eqn:Hr; [|reflexivity].
      destruct (reservedAt_found rs T r Hr) as [Hin Hiv].
      exfalso. apply (Hall r Hin Hiv). }
  split.
  { intros r Hr. destruct (reservedAt_found rs T r Hr) as [Hin Hiv].
    split; [exact Hin|]. split; [exact Hiv|]. apply reservedAt_first, Hr. }
  split; [exact Hnone|].
  intros Hon. rewrite Hnone, isTableAvailable_true.
  unfold conflictsWith, overlaps.
  split; intros H r Hin; specialize (H r Hin).
  - intros [_ Hov]. apply H. lia.
  - intros Hiv. apply H. split; [apply Hon, Hin | lia].
Qed.

